(** * excel_mcp.data: range reads, formula fallback and writes

    A shallow embedding of [src/excel_mcp/data.py].  Python values are a
    small inductive type, integers are [Z], strings are [string].  The
    functions of the module run in a state-and-exception monad whose state
    holds the trace of collaborator calls (workbook opens and closes, log
    records, cell writes, saves) and the three variables captured by the
    closure [_get_cached_value]. *)

From Stdlib Require Import ZArith List String Ascii Bool Lia DecimalString.
Import ListNotations.

Local Open Scope string_scope.
Local Open Scope Z_scope.

(** ** Python values and exceptions *)

(** The scalars a cell can hold.  [PyObj] stands for any other object
    (openpyxl's array formulas, dates, ...), known by its repr. *)
Inductive pyval : Type :=
| PyNone
| PyBool (b : bool)
| PyInt (z : Z)
| PyStr (s : string)
| PyObj (repr : string).

Definition is_none (v : pyval) : bool :=
  match v with PyNone => true | _ => false end.

(** Exceptions, each with the text [str(e)] returns (for a KeyError that
    is the repr of its argument).  [DataError] is the module's own error;
    [OtherError] is any other subclass of Exception (IO errors, invalid
    files, library errors). *)
Inductive exn : Type :=
| DataError (msg : string)
| ValueError (msg : string)
| KeyError (msg : string)
| OtherError (msg : string).

Definition str_exn (e : exn) : string :=
  match e with
  | DataError m | ValueError m | KeyError m | OtherError m => m
  end.

Definition is_DataError (e : exn) : bool :=
  match e with DataError _ => true | _ => false end.

Definition is_ValueError (e : exn) : bool :=
  match e with ValueError _ => true | _ => false end.

Definition is_KeyError (e : exn) : bool :=
  match e with KeyError _ => true | _ => false end.

(** ** Strings and ranges *)

(** [str(n)] for an integer. *)
Definition str_of_Z (z : Z) : string := NilZero.string_of_int (Z.to_int z).

(** [range(a, b)]: a, a+1, ..., b-1; empty when b <= a. *)
Definition py_range (a b : Z) : list Z :=
  map (fun i => a + Z.of_nat i) (seq 0 (Z.to_nat (b - a))).

Definition colon : ascii := ":"%char.

(** [':' in s] *)
Fixpoint contains_colon (s : string) : bool :=
  match s with
  | EmptyString => false
  | String c rest => Ascii.eqb c colon || contains_colon rest
  end.

(** [s.split(':')] *)
Fixpoint split_colon (s : string) : list string :=
  match s with
  | EmptyString => [""]
  | String c rest =>
      if Ascii.eqb c colon then "" :: split_colon rest
      else match split_colon rest with
           | h :: t => String c h :: t
           | [] => [String c ""]
           end
  end.

(** [s.startswith("=")] *)
Definition startswith_eq (s : string) : bool :=
  match s with
  | String c _ => Ascii.eqb c "="%char
  | EmptyString => false
  end.

(** [s.replace("'", "''")] *)
Fixpoint double_quotes (s : string) : string :=
  match s with
  | EmptyString => EmptyString
  | String c rest =>
      if Ascii.eqb c "'"%char then String c (String c (double_quotes rest))
      else String c (double_quotes rest)
  end.

(** Truth value of an optional string: [None] and the empty string are
    false. *)
Definition truthy (s : option string) : bool :=
  match s with
  | Some (String _ _) => true
  | _ => false
  end.

(** ** openpyxl.utils.get_column_letter *)

(** The letters of a column index, least significant letter last; [fuel]
    bounds the number of letters. *)
Fixpoint column_letters (fuel : nat) (col_idx : Z) : string :=
  match fuel with
  | O => ""
  | S k =>
      if col_idx >? 0 then
        let q := col_idx / 26 in
        let r := col_idx mod 26 in
        let q' := if r =? 0 then q - 1 else q in
        let r' := if r =? 0 then 26 else r in
        column_letters k q' ++ String (ascii_of_nat (Z.to_nat (r' + 64))) ""
      else ""
  end.

(** openpyxl accepts the indexes 1 .. 18278 (A .. ZZZ) and raises
    ValueError outside. *)
Definition get_column_letter (col_idx : Z) : exn + string :=
  if (1 <=? col_idx) && (col_idx <=? 18278)
  then inr (column_letters 3 col_idx)
  else inl (ValueError ("Invalid column index " ++ str_of_Z col_idx)).

(** ** cell_utils.parse_cell_range *)

Definition is_upper (c : ascii) : bool :=
  let n := nat_of_ascii c in Nat.leb 65 n && Nat.leb n 90.

Definition is_lower (c : ascii) : bool :=
  let n := nat_of_ascii c in Nat.leb 97 n && Nat.leb n 122.

Definition is_digit (c : ascii) : bool :=
  let n := nat_of_ascii c in Nat.leb 48 n && Nat.leb n 57.

Definition letter_value (c : ascii) : Z :=
  let n := Z.of_nat (nat_of_ascii c) in
  if is_lower c then n - 96 else n - 64.

(** The leading letters of a reference and what follows them. *)
Fixpoint span_letters (s : string) : string * string :=
  match s with
  | EmptyString => ("", "")
  | String c rest =>
      if is_upper c || is_lower c
      then let (ls, ds) := span_letters rest in (String c ls, ds)
      else ("", s)
  end.

Fixpoint all_digits (s : string) : bool :=
  match s with
  | EmptyString => true
  | String c rest => is_digit c && all_digits rest
  end.

Fixpoint column_of_letters (acc : Z) (s : string) : Z :=
  match s with
  | EmptyString => acc
  | String c rest => column_of_letters (acc * 26 + letter_value c) rest
  end.

Fixpoint int_of_digits (acc : Z) (s : string) : Z :=
  match s with
  | EmptyString => acc
  | String c rest =>
      int_of_digits (acc * 10 + (Z.of_nat (nat_of_ascii c) - 48)) rest
  end.

Definition nonempty (s : string) : bool :=
  match s with EmptyString => false | _ => true end.

(** Modelled from the spec: [cell_utils.parse_cell_range] is imported by
    data.py and is not among the sources.  The Coordinate Resolver of the
    spec: a reference is column letters followed by row digits, it yields a
    1-indexed (row, column) pair with row >= 1 and column >= 1, and a
    malformed string fails; data.py catches that failure as ValueError. *)
Definition resolve (reference : string) : exn + (Z * Z) :=
  let (ls, ds) := span_letters reference in
  if nonempty ls && nonempty ds && all_digits ds
     && (1 <=? int_of_digits 0 ds)
  then inr (int_of_digits 0 ds, column_of_letters 0 ls)
  else inl (ValueError ("Invalid cell reference: " ++ reference)).

(** The part of a string before its first colon, and the part after. *)
Fixpoint split_first_colon (s : string) : option (string * string) :=
  match s with
  | EmptyString => None
  | String c rest =>
      if Ascii.eqb c colon then Some ("", rest)
      else match split_first_colon rest with
           | Some (a, b) => Some (String c a, b)
           | None => None
           end
  end.

(** Modelled from the spec: [resolveRange] of the Coordinate Resolver, with
    the result shape data.py reads: (start_row, start_col, end_row,
    end_col), the last two absent for a single cell.  A combined string is
    split on its first colon. *)
Definition parse_cell_range (cell_ref : string)
  : exn + (option Z * option Z * option Z * option Z) :=
  match split_first_colon cell_ref with
  | Some (a, b) =>
      match resolve a with
      | inl e => inl e
      | inr (r1, c1) =>
          match resolve b with
          | inl e => inl e
          | inr (r2, c2) => inr (Some r1, Some c1, Some r2, Some c2)
          end
      end
  | None =>
      match resolve cell_ref with
      | inl e => inl e
      | inr (r1, c1) => inr (Some r1, Some c1, None, None)
      end
  end.

(** ** Worksheets and workbooks (openpyxl) *)

Record cell : Type := mkCell {
  value : pyval;
  data_type : string
}.

Definition empty_cell : cell := mkCell PyNone "n".

(** A worksheet is its title and its cell store, keyed by (row, column);
    the first binding of a key is the live one. *)
Record worksheet : Type := mkSheet {
  title : string;
  _cells : list ((Z * Z) * cell)
}.

Definition key_eqb (k1 k2 : Z * Z) : bool :=
  (fst k1 =? fst k2) && (snd k1 =? snd k2).

Fixpoint lookup_cell (cs : list ((Z * Z) * cell)) (k : Z * Z) : option cell :=
  match cs with
  | [] => None
  | (k', c) :: rest => if key_eqb k' k then Some c else lookup_cell rest k
  end.

(** The cell at (row, column); an absent cell reads as an empty one. *)
Definition cell_at (ws : worksheet) (row column : Z) : cell :=
  match lookup_cell (_cells ws) (row, column) with
  | Some c => c
  | None => empty_cell
  end.

Definition fold_min (default : Z) (l : list Z) : Z :=
  match l with
  | [] => default
  | x :: rest => fold_left Z.min rest x
  end.

Definition fold_max (default : Z) (l : list Z) : Z :=
  match l with
  | [] => default
  | x :: rest => fold_left Z.max rest x
  end.

(** The used range: 1 for a sheet without cells, else the least and the
    greatest row and column of the store. *)
Definition min_row (ws : worksheet) : Z :=
  fold_min 1 (map (fun kc => fst (fst kc)) (_cells ws)).
Definition max_row (ws : worksheet) : Z :=
  fold_max 1 (map (fun kc => fst (fst kc)) (_cells ws)).
Definition min_column (ws : worksheet) : Z :=
  fold_min 1 (map (fun kc => snd (fst kc)) (_cells ws)).
Definition max_column (ws : worksheet) : Z :=
  fold_max 1 (map (fun kc => snd (fst kc)) (_cells ws)).

Record workbook : Type := mkWorkbook {
  sheets : list worksheet;
  active_index : nat
}.

Definition sheetnames (wb : workbook) : list string :=
  map title (sheets wb).

Definition in_names (name : string) (names : list string) : bool :=
  existsb (String.eqb name) names.

Definition find_sheet (wb : workbook) (name : string) : option worksheet :=
  find (fun ws => String.eqb (title ws) name) (sheets wb).

(** [wb.active] *)
Definition active (wb : workbook) : option worksheet :=
  nth_error (sheets wb) (active_index wb).

(** *** The title of a new sheet

    [wb.create_sheet(name)] makes a sheet and assigns [name] to its title.
    The setter of openpyxl refuses the characters of
    [INVALID_TITLE_REGEX], and it changes a title that an existing sheet
    has already, whatever the case of the letters, by
    [avoid_duplicate_name]: the names of the workbook are joined with
    commas, the occurrences of the title in them, each with the digits
    that follow it, are found as [re.findall] finds them, and the title
    gets the greatest of the numbers found, plus one, at its end.  The
    case of letters is that of ASCII; titles with other cased letters are
    outside of this model. *)

Definition backslash : ascii := ascii_of_nat 92.
Definition dquote : ascii := ascii_of_nat 34.
Definition squote : ascii := "'"%char.

Definition invalid_title_char (c : ascii) : bool :=
  existsb (Ascii.eqb c)
    [backslash; "*"%char; "?"%char; ":"%char; "/"%char; "["%char; "]"%char].

(** [INVALID_TITLE_REGEX.search(s)]: the first such character. *)
Fixpoint first_invalid_title_char (s : string) : option ascii :=
  match s with
  | EmptyString => None
  | String c rest =>
      if invalid_title_char c then Some c else first_invalid_title_char rest
  end.

Definition lower_char (c : ascii) : ascii :=
  if is_upper c then ascii_of_nat (nat_of_ascii c + 32) else c.

(** [s.lower()] *)
Fixpoint lower (s : string) : string :=
  match s with
  | EmptyString => EmptyString
  | String c rest => String (lower_char c) (lower rest)
  end.

(** What is left of [s] after the prefix [p], letters compared without
    their case. *)
Fixpoint strip_prefix_ci (p s : string) : option string :=
  match p, s with
  | EmptyString, _ => Some s
  | String a p', String b s' =>
      if Ascii.eqb (lower_char a) (lower_char b) then strip_prefix_ci p' s'
      else None
  | String _ _, EmptyString => None
  end.

(** The leading digits of a string. *)
Fixpoint leading_digits (s : string) : string :=
  match s with
  | EmptyString => EmptyString
  | String c rest => if is_digit c then String c (leading_digits rest) else EmptyString
  end.

Fixpoint drop (n : nat) (s : string) : string :=
  match n, s with
  | O, _ => s
  | S k, String _ rest => drop k rest
  | S _, EmptyString => EmptyString
  end.

(** The digits after each occurrence of [title] in [names], the
    occurrences found from left to right without overlap; a match takes the
    title, its digits and a comma after them.  [skip] counts the characters
    of the last match that are still to pass. *)
Fixpoint title_counts (title : string) (skip : nat) (names : string)
  : list string :=
  match names with
  | EmptyString => []
  | String _ rest =>
      match skip with
      | S k => title_counts title k rest
      | O =>
          match strip_prefix_ci title names with
          | Some after_title =>
              let digits := leading_digits after_title in
              let comma :=
                match drop (String.length digits) after_title with
                | String c _ => if Ascii.eqb c ","%char then 1%nat else 0%nat
                | EmptyString => 0%nat
                end in
              digits
              :: title_counts title
                   (String.length title + String.length digits + comma - 1) rest
          | None => title_counts title 0 rest
          end
      end
  end.

(** [avoid_duplicate_name(names, value)] *)
Definition avoid_duplicate_name (names : list string) (value : string) : string :=
  if existsb (fun n => String.eqb (lower n) (lower value)) names then
    let counts :=
      map (int_of_digits 0)
          (filter nonempty (title_counts value 0 (String.concat "," names))) in
    value ++ str_of_Z (fold_left Z.max counts 0 + 1)
  else value.

(** [wb.create_sheet(name)]: a ValueError for a title with a character it
    may not have; else an empty sheet at the end, under the title the
    setter leaves it. *)
Definition create_sheet (wb : workbook) (name : string) : exn + workbook :=
  match first_invalid_title_char name with
  | Some c =>
      inl (ValueError ("Invalid character " ++ String c "" ++ " found in sheet title"))
  | None =>
      inr (mkWorkbook
             (sheets wb ++ [mkSheet (avoid_duplicate_name (sheetnames wb) name) []])%list
             (active_index wb))
  end.

(** The type openpyxl binds to a value that is assigned to a cell. *)
Definition infer_data_type (v : pyval) : string :=
  match v with
  | PyNone => "n"
  | PyBool _ => "b"
  | PyInt _ => "n"
  | PyStr s => if startswith_eq s && (1 <? Z.of_nat (String.length s)) then "f" else "s"
  | PyObj _ => "n"
  end.

(** The store after [ws.cell(row, column, value)]: the cell exists
    afterwards, and it takes the value unless the value is None. *)
Definition store_cell (ws : worksheet) (row column : Z) (v : pyval) : worksheet :=
  match v with
  | PyNone =>
      match lookup_cell (_cells ws) (row, column) with
      | Some _ => ws
      | None => mkSheet (title ws) (((row, column), empty_cell) :: _cells ws)
      end
  | _ => mkSheet (title ws) (((row, column), mkCell v (infer_data_type v)) :: _cells ws)
  end.

(** ** The world outside the module *)

(** [Evaluator.evaluate(token)] of xlcalculator: a value or an exception. *)
Definition evaluator : Type := string -> exn + pyval.

(** The dictionary a validation lookup returns. *)
Definition vinfo : Type := list (string * pyval).

(** What the collaborators answer during one request:
    - [load_formulas p] is [load_workbook(p, read_only=False)],
    - [load_data_only p] is [load_workbook(p, read_only=False, data_only=True)],
    - [xlcalculator] is absent when the import of the library failed, and
      else maps a path to the evaluator compiled from it (or to the
      exception the compilation raised),
    - [get_data_validation_for_cell] is the function of that name in
      cell_validation,
    - [save_result p wb] is the exception [wb.save(p)] raises, if any,
    - [resolve_error p] is the exception [Path(p).resolve(strict=False)]
      raises, if any: a ValueError for a path with a NUL byte, a
      RuntimeError for a loop of symbolic links.

    A path stands for the file it names, whatever its spelling.  A path
    that [load_workbook] opens has no NUL byte and no loop of links, so it
    resolves: [resolve_error] matters for a path that does not load. *)
Record Env : Type := mkEnv {
  load_formulas : string -> exn + workbook;
  load_data_only : string -> exn + workbook;
  xlcalculator : option (string -> exn + evaluator);
  get_data_validation_for_cell : worksheet -> string -> exn + option vinfo;
  save_result : string -> workbook -> option exn;
  resolve_error : string -> option exn
}.

Inductive handle : Type := Primary | ValuesOnly.

Inductive level : Type := LDebug | LWarning | LError.

(** The calls the module makes on its collaborators, in order.  A call
    of [load_workbook] or of [wb.save] is one event when it returns and
    another when it raises; [EvCreateSheet] is the call of
    [wb.create_sheet], whatever comes of it. *)
Inductive event : Type :=
| EvOpen (h : handle)
| EvOpenFailed (h : handle)
| EvClose (h : handle)
| EvLog (lvl : level) (msg : string)
| EvCreateSheet (name : string)
| EvSetCell (sheet : string) (row column : Z) (v : pyval)
| EvSave (path : string) (wb : workbook)
| EvSaveFailed (path : string) (wb : workbook).

(** The state of a request: the trace so far, and the variables
    [wb_values], [ws_values] and [fallback_loader_failed] that
    [read_excel_range_with_metadata] shares with its closure. *)
Record St : Type := mkSt {
  trace : list event;
  wb_values : option workbook;
  ws_values : option worksheet;
  fallback_loader_failed : bool
}.

Definition init_st : St := mkSt [] None None false.

(** ** The monad: state that survives an exception *)

Definition M (A : Type) : Type := St -> (exn + A) * St.

Definition ret {A} (a : A) : M A := fun st => (inr a, st).

Definition bind {A B} (m : M A) (f : A -> M B) : M B :=
  fun st =>
    match m st with
    | (inr a, st') => f a st'
    | (inl e, st') => (inl e, st')
    end.

Definition raise {A} (e : exn) : M A := fun st => (inl e, st).

(** [try: m except Exception as e: h e] *)
Definition try_except {A} (m : M A) (h : exn -> M A) : M A :=
  fun st =>
    match m st with
    | (inl e, st') => h e st'
    | (inr a, st') => (inr a, st')
    end.

Definition lift {A} (r : exn + A) : M A := fun st => (r, st).

Definition get_st : M St := fun st => (inr st, st).

Definition emit (ev : event) : M unit :=
  fun st =>
    (inr tt,
     mkSt (trace st ++ [ev])%list (wb_values st) (ws_values st)
          (fallback_loader_failed st)).

Definition set_wb_values (w : option workbook) : M unit :=
  fun st => (inr tt, mkSt (trace st) w (ws_values st) (fallback_loader_failed st)).

Definition set_ws_values (w : option worksheet) : M unit :=
  fun st => (inr tt, mkSt (trace st) (wb_values st) w (fallback_loader_failed st)).

Definition set_fallback_loader_failed (b : bool) : M unit :=
  fun st => (inr tt, mkSt (trace st) (wb_values st) (ws_values st) b).

Declare Scope monad_scope.
Delimit Scope monad_scope with monad.
Notation "x <- m ;; k" := (bind m (fun x => k))
  (at level 61, m at next level, right associativity) : monad_scope.
Notation "' pat <- m ;; k" := (bind m (fun x => match x with pat => k end))
  (at level 61, pat pattern, m at next level, right associativity) : monad_scope.
Notation "m ;; k" := (bind m (fun _ => k))
  (at level 61, right associativity) : monad_scope.
Local Open Scope monad_scope.

(** A for loop that threads an accumulator through its body. *)
Fixpoint for_each {A B} (l : list A) (acc : B) (body : B -> A -> M B) : M B :=
  match l with
  | [] => ret acc
  | x :: rest => acc' <- body acc x ;; for_each rest acc' body
  end.

(** ** Collaborator calls *)

Definition logger (lvl : level) (msg : string) : M unit := emit (EvLog lvl msg).

(** [load_workbook]: the handle is open when the call returns a workbook. *)
Definition load_workbook (env : Env) (path : string) (h : handle) : M workbook :=
  match (match h with
         | Primary => load_formulas env path
         | ValuesOnly => load_data_only env path
         end) with
  | inr wb => emit (EvOpen h) ;; ret wb
  | inl e => emit (EvOpenFailed h) ;; raise e
  end.

Definition close (h : handle) : M unit := emit (EvClose h).

(** [repr(s)] of a string of printable ASCII characters: between single
    quotes, or between double quotes when it has a single quote and no
    double one; a backslash before each backslash and each quote of the
    kind that encloses it. *)
Fixpoint contains_char (c : ascii) (s : string) : bool :=
  match s with
  | EmptyString => false
  | String c' rest => Ascii.eqb c' c || contains_char c rest
  end.

Fixpoint escape_for (quote : ascii) (s : string) : string :=
  match s with
  | EmptyString => EmptyString
  | String c rest =>
      if Ascii.eqb c backslash || Ascii.eqb c quote
      then String backslash (String c (escape_for quote rest))
      else String c (escape_for quote rest)
  end.

Definition py_repr (s : string) : string :=
  let quote :=
    if contains_char squote s && negb (contains_char dquote s)
    then dquote else squote in
  String quote (escape_for quote s ++ String quote "").

(** [wb[name]] raises KeyError("Worksheet {name} does not exist.") for a
    sheet that is not there. *)
Definition wb_getitem (wb : workbook) (name : string) : M worksheet :=
  match find_sheet wb name with
  | Some ws => ret ws
  | None => raise (KeyError (py_repr ("Worksheet " ++ name ++ " does not exist.")))
  end.

(** [ws.cell(row=row, column=column)] raises ValueError below 1.  openpyxl
    adds an absent cell, without a value, to the sheet it reads; both reads
    take the bounds of the sheet before their loops, and the cell the
    emptiness test reads is row 1, column 1 of a sheet whose last row and
    column are 1, so the bounds they use are those of the stored cells. *)
Definition ws_cell (ws : worksheet) (row column : Z) : M cell :=
  if (row <? 1) || (column <? 1)
  then raise (ValueError "Row or column values must be at least 1")
  else ret (cell_at ws row column).

(** ** _build_formula_evaluator *)

(** The read calls it with the path it has resolved (line 260), so the
    [resolve] of line 26 gives that path again. *)
Definition _build_formula_evaluator (env : Env) (filepath : string)
  : M (option evaluator) :=
  match xlcalculator env with
  | None =>
      logger LDebug "xlcalculator not installed; formula evaluation disabled" ;;
      ret None
  | Some compile =>
      match compile filepath with
      | inr ev => ret (Some ev)
      | inl exc =>
          logger LWarning
            ("Failed to initialize xlcalculator evaluator for '" ++ filepath
             ++ "': " ++ str_exn exc) ;;
          ret None
      end
  end.

(** ** _evaluate_formula_cell *)

(** The loop over the tokens: [Some v] when the loop returns [v], [None]
    when it ends, by exhaustion or by [break]. *)
Fixpoint evaluate_tokens (ev : evaluator) (sheet_name cell_address : string)
  (tokens : list string) : M (option pyval) :=
  match tokens with
  | [] => ret None
  | token :: rest =>
      match ev token with
      | inr computed_value =>
          if is_none computed_value
          then evaluate_tokens ev sheet_name cell_address rest
          else ret (Some computed_value)
      | inl exc =>
          if is_KeyError exc
          then evaluate_tokens ev sheet_name cell_address rest
          else
            logger LWarning
              ("Failed to evaluate formula in " ++ sheet_name ++ "!"
               ++ cell_address ++ " via xlcalculator (" ++ token ++ "): "
               ++ str_exn exc) ;;
            ret None
      end
  end.

Definition formula_tokens (sheet_name cell_address : string) : list string :=
  let normalized_sheet := double_quotes sheet_name in
  [ sheet_name ++ "!" ++ cell_address;
    "'" ++ normalized_sheet ++ "'!" ++ cell_address ].

Definition _evaluate_formula_cell (evaluator : option evaluator)
  (sheet_name cell_address : string) (row column : Z)
  (fallback_loader : option (Z -> Z -> M pyval)) (default_value : pyval)
  : M pyval :=
  computed <-
    match evaluator with
    | Some ev =>
        evaluate_tokens ev sheet_name cell_address
          (formula_tokens sheet_name cell_address)
    | None => ret None
    end ;;
  match computed with
  | Some v => ret v
  | None =>
      cached <-
        match fallback_loader with
        | Some loader =>
            try_except
              (cached_value <- loader row column ;;
               ret (if is_none cached_value then None else Some cached_value))
              (fun exc =>
                 logger LDebug
                   ("Formula fallback loader failed for " ++ sheet_name ++ "!"
                    ++ cell_address ++ ": " ++ str_exn exc) ;;
                 ret None)
        | None => ret None
        end ;;
      match cached with
      | Some v => ret v
      | None => ret default_value
      end
  end.

(** ** Blocks shared by the operations *)

(** The handlers that close every operation: a DataError goes on as it is,
    any other exception becomes a DataError with the same text. *)
Definition operation_boundary {A} (failed_to : string) (m : M A) : M A :=
  try_except m
    (fun e =>
       match e with
       | DataError msg => logger LError msg ;; raise e
       | _ =>
           logger LError (failed_to ++ str_exn e) ;;
           raise (DataError (str_exn e))
       end).

(** [if ':' in start_cell: start_cell, end_cell = start_cell.split(':')];
    the unpacking fails unless the split gives two parts. *)
Definition split_refs (start_cell : string) (end_cell : option string)
  : exn + (string * option string) :=
  if contains_colon start_cell then
    match split_colon start_cell with
    | [a; b] => inr (a, Some b)
    | _ => inl (ValueError "too many values to unpack (expected 2)")
    end
  else inr (start_cell, end_cell).

(** The coordinates of one reference, as both reads compute them for the
    start and for the end ([which] is "start" or "end"): the parser is
    given "ref:ref", a missing component is a DataError, and a ValueError
    of the parser is raised again as a DataError. *)
Definition cell_coords (which : string) (ref : string) : exn + (Z * Z) :=
  match parse_cell_range (ref ++ ":" ++ ref) with
  | inr (Some r, Some c, _, _) => inr (r, c)
  | inr _ => inl (DataError ("Invalid " ++ which ++ " cell reference: " ++ ref))
  | inl e =>
      if is_ValueError e
      then inl (DataError ("Invalid " ++ which ++ " cell format: " ++ str_exn e))
      else inl e
  end.

Definition the_string (s : option string) : string :=
  match s with Some x => x | None => "" end.

(** [ws.max_row == 1 and ws.max_column == 1 and ws.cell(1, 1).value is None] *)
Definition sheet_is_empty (ws : worksheet) : bool :=
  (max_row ws =? 1) && (max_column ws =? 1) && is_none (value (cell_at ws 1 1)).

(** [start_row > ws.max_row or start_col > ws.max_column] *)
Definition beyond_bounds (ws : worksheet) (start_row start_col : Z) : bool :=
  (start_row >? max_row ws) || (start_col >? max_column ws).

(** The warning of the boundary check. *)
Definition boundary_warning (start_cell : string) (ws : worksheet) : M unit :=
  lo <- lift (get_column_letter (min_column ws)) ;;
  hi <- lift (get_column_letter (max_column ws)) ;;
  logger LWarning
    ("Start cell " ++ start_cell ++ " is outside the sheet's data boundary ("
     ++ lo ++ str_of_Z (min_row ws) ++ ":" ++ hi ++ str_of_Z (max_row ws)
     ++ "). No data will be read.").

(** ** read_excel_range *)

(** Lines 102-128: the region (start_row, start_col, end_row, end_col) of
    the plain read, from the references left by [split_refs]. *)
Definition plain_bounds (ws : worksheet) (start_cell : string)
  (end_cell : option string) : exn + (Z * Z * Z * Z) :=
  match cell_coords "start" start_cell with
  | inl e => inl e
  | inr (start_row, start_col) =>
      if truthy end_cell then
        match cell_coords "end" (the_string end_cell) with
        | inl e => inl e
        | inr (end_row, end_col) => inr (start_row, start_col, end_row, end_col)
        end
      else if sheet_is_empty ws then
        inr (start_row, start_col, start_row, start_col)
      else
        inr (min_row ws, min_column ws, max_row ws, max_column ws)
  end.

(** Lines 141-148: the rows of the region, those without a value left out. *)
Definition plain_rows (ws : worksheet) (start_row start_col end_row end_col : Z)
  : M (list (list pyval)) :=
  for_each (py_range start_row (end_row + 1)) []
    (fun data row =>
       row_data <-
         for_each (py_range start_col (end_col + 1)) []
           (fun row_data col =>
              cell <- ws_cell ws row col ;;
              ret (row_data ++ [value cell])%list) ;;
       ret (if existsb (fun v => negb (is_none v)) row_data
            then (data ++ [row_data])%list else data)).

(** Lines 130-151: the boundary check, the rows, the closing of the
    workbook. *)
Definition plain_region (ws : worksheet) (start_cell : string)
  (start_row start_col end_row end_col : Z) : M (list (list pyval)) :=
  if beyond_bounds ws start_row start_col then
    boundary_warning start_cell ws ;;
    ret []
  else
    data <- plain_rows ws start_row start_col end_row end_col ;;
    close Primary ;;
    ret data.

Definition read_excel_range_try (env : Env) (filepath sheet_name start_cell : string)
  (end_cell : option string) : M (list (list pyval)) :=
  wb <- load_workbook env filepath Primary ;;
  if negb (in_names sheet_name (sheetnames wb))
  then raise (DataError ("Sheet '" ++ sheet_name ++ "' not found"))
  else
    ws <- wb_getitem wb sheet_name ;;
    '(start_cell, end_cell) <- lift (split_refs start_cell end_cell) ;;
    '(start_row, start_col, end_row, end_col) <-
      lift (plain_bounds ws start_cell end_cell) ;;
    plain_region ws start_cell start_row start_col end_row end_col.

Definition read_excel_range (env : Env) (filepath sheet_name start_cell : string)
  (end_cell : option string) : M (list (list pyval)) :=
  operation_boundary "Failed to read Excel range: "
    (read_excel_range_try env filepath sheet_name start_cell end_cell).

(** ** write_data and _write_data_to_worksheet *)

Fixpoint enumerate_from {A} (i : Z) (l : list A) : list (Z * A) :=
  match l with
  | [] => []
  | x :: rest => (i, x) :: enumerate_from (i + 1) rest
  end.

Definition enumerate {A} (l : list A) : list (Z * A) := enumerate_from 0 l.

(** [worksheet.cell(row=row, column=column, value=v)], for a value the
    cell takes as it is ([storable], below); the sheet that comes back is
    the same object, updated. *)
Definition ws_cell_assign (ws : worksheet) (row column : Z) (v : pyval)
  : M worksheet :=
  if (row <? 1) || (column <? 1)
  then raise (ValueError "Row or column values must be at least 1")
  else emit (EvSetCell (title ws) row column v) ;; ret (store_cell ws row column v).

(** The start coordinates as the writer reads them: the reference itself
    goes to the parser. *)
Definition write_coords (start_cell : string) : exn + (Z * Z) :=
  match parse_cell_range start_cell with
  | inr (Some r, Some c, _, _) => inr (r, c)
  | inr _ => inl (DataError ("Invalid start cell reference: " ++ start_cell))
  | inl e =>
      if is_ValueError e
      then inl (DataError ("Invalid start cell format: " ++ str_exn e))
      else inl e
  end.

Definition _write_data_to_worksheet (sheet : worksheet)
  (data : list (list pyval)) (start_cell : string) : M worksheet :=
  operation_boundary "Failed to write worksheet data: "
    (match data with
     | [] => raise (DataError "No data provided to write")
     | _ =>
         '(start_row, start_col) <- lift (write_coords start_cell) ;;
         for_each (enumerate data) sheet
           (fun ws irow =>
              for_each (enumerate (snd irow)) ws
                (fun ws jval =>
                   ws_cell_assign ws (start_row + fst irow)
                     (start_col + fst jval) (snd jval)))
     end).

(** The workbook in which the first sheet of that title is the given one:
    the sheet was updated in place, and the workbook holds it. *)
Fixpoint replace_first (l : list worksheet) (ws : worksheet) : list worksheet :=
  match l with
  | [] => []
  | s :: rest =>
      if String.eqb (title s) (title ws) then ws :: rest
      else s :: replace_first rest ws
  end.

Definition with_sheet (wb : workbook) (ws : worksheet) : workbook :=
  mkWorkbook (replace_first (sheets wb) ws) (active_index wb).

(** [wb.save(filepath)] *)
Definition save (env : Env) (wb : workbook) (filepath : string) : M unit :=
  match save_result env filepath wb with
  | Some e => emit (EvSaveFailed filepath wb) ;; raise e
  | None => emit (EvSave filepath wb)
  end.

Record write_result : Type := mkWriteResult {
  message : string;
  active_sheet : string
}.

Definition write_data_try (env : Env) (filepath : string)
  (sheet_name : option string) (data : option (list (list pyval)))
  (start_cell : string) : M write_result :=
  match data with
  | None | Some [] => raise (DataError "No data provided to write")
  | Some rows =>
      wb <- load_workbook env filepath Primary ;;
      '(wb, sheet_name) <-
        (if negb (truthy sheet_name) then
           match active wb with
           | None => raise (DataError "No active sheet found in workbook")
           | Some active_sheet => ret (wb, title active_sheet)
           end
         else if negb (in_names (the_string sheet_name) (sheetnames wb)) then
           emit (EvCreateSheet (the_string sheet_name)) ;;
           wb <- lift (create_sheet wb (the_string sheet_name)) ;;
           ret (wb, the_string sheet_name)
         else ret (wb, the_string sheet_name)) ;;
      ws <- wb_getitem wb sheet_name ;;
      lift (write_coords start_cell) ;;
      ws' <- _write_data_to_worksheet ws rows start_cell ;;
      let wb := with_sheet wb ws' in
      save env wb filepath ;;
      close Primary ;;
      ret (mkWriteResult ("Data written to " ++ sheet_name) sheet_name)
  end.

Definition write_data (env : Env) (filepath : string)
  (sheet_name : option string) (data : option (list (list pyval)))
  (start_cell : string) : M write_result :=
  operation_boundary "Failed to write data: "
    (write_data_try env filepath sheet_name data start_cell).

(** ** read_excel_range_with_metadata *)

(** The closure [_get_cached_value] (lines 271-297); [file_path] and
    [sheet_name] are the variables it captures. *)
Definition _get_cached_value (env : Env) (file_path sheet_name : string)
  (row col : Z) : M pyval :=
  st <- get_st ;;
  if fallback_loader_failed st then ret PyNone
  else
    ready <-
      match wb_values st with
      | Some _ => ret true
      | None =>
          loaded <-
            try_except
              (wbv <- load_workbook env file_path ValuesOnly ;;
               set_wb_values (Some wbv) ;;
               ret (Some wbv))
              (fun exc =>
                 logger LWarning
                   ("Unable to open workbook in data_only mode for fallback: "
                    ++ str_exn exc) ;;
                 set_fallback_loader_failed true ;;
                 ret None) ;;
          match loaded with
          | None => ret false
          | Some wbv =>
              if negb (in_names sheet_name (sheetnames wbv)) then
                logger LWarning
                  ("Sheet '" ++ sheet_name
                   ++ "' not found in data_only workbook during fallback") ;;
                close ValuesOnly ;;
                set_wb_values None ;;
                set_fallback_loader_failed true ;;
                ret false
              else
                ws <- wb_getitem wbv sheet_name ;;
                set_ws_values (Some ws) ;;
                ret true
          end
      end ;;
    if ready then
      st' <- get_st ;;
      match ws_values st' with
      | None => ret PyNone
      | Some ws => cell <- ws_cell ws row col ;; ret (value cell)
      end
    else ret PyNone.

(** Lines 310-338: the region of the metadata read. *)
Definition meta_bounds (ws : worksheet) (start_cell : string)
  (end_cell : option string) : exn + (Z * Z * Z * Z) :=
  match cell_coords "start" start_cell with
  | inl e => inl e
  | inr (start_row, start_col) =>
      if truthy end_cell then
        match cell_coords "end" (the_string end_cell) with
        | inl e => inl e
        | inr (end_row, end_col) => inr (start_row, start_col, end_row, end_col)
        end
      else if sheet_is_empty ws then
        inr (start_row, start_col, start_row, start_col)
      else if String.eqb start_cell "A1" then
        inr (min_row ws, min_column ws, max_row ws, max_column ws)
      else
        inr (start_row, start_col, max_row ws, max_column ws)
  end.

(** Lines 364-373: the formula text of a cell, if the read takes it for a
    formula. *)
Definition formula_text_of (c : cell) : option string :=
  if String.eqb (data_type c) "f" then
    match value c with
    | PyStr s => Some s
    | _ => None
    end
  else
    match value c with
    | PyStr s => if startswith_eq s then Some s else None
    | _ => None
    end.

Record cell_data : Type := mkCellData {
  address : string;
  cd_value : pyval;
  cd_row : Z;
  cd_column : Z;
  validation : option vinfo
}.

Record range_data : Type := mkRangeData {
  range : string;
  rd_sheet_name : string;
  cells : list cell_data
}.

Definition no_validation : vinfo := [("has_validation", PyBool false)].

(** Lines 375-388: the value the read reports for a cell. *)
Definition cell_value (sheet_name cell_address : string)
  (evaluate_formulas : bool) (formula_evaluator : option evaluator)
  (fallback_loader : option (Z -> Z -> M pyval)) (row col : Z) (cell : cell)
  : M pyval :=
  let formula_text := formula_text_of cell in
  match (if evaluate_formulas then formula_text else None) with
  | Some text =>
      _evaluate_formula_cell formula_evaluator sheet_name cell_address
        row col fallback_loader (PyStr text)
  | None =>
      match evaluate_formulas, formula_evaluator, fallback_loader with
      | true, None, Some loader =>
          fallback_value <- loader row col ;;
          ret (if is_none fallback_value then value cell else fallback_value)
      | _, _, _ => ret (value cell)
      end
  end.

(** Lines 398-403: the validation entry of a cell. *)
Definition cell_validation (env : Env) (ws : worksheet)
  (include_validation : bool) (cell_address : string) : M (option vinfo) :=
  if include_validation then
    validation_info <- lift (get_data_validation_for_cell env ws cell_address) ;;
    match validation_info with
    | Some (entry :: more) => ret (Some (entry :: more))
    | _ => ret (Some no_validation)
    end
  else ret None.

(** Lines 361-405: the record of one cell. *)
Definition cell_record (env : Env) (ws : worksheet) (sheet_name : string)
  (include_validation evaluate_formulas : bool)
  (formula_evaluator : option evaluator)
  (fallback_loader : option (Z -> Z -> M pyval)) (row col : Z) : M cell_data :=
  cell <- ws_cell ws row col ;;
  letter <- lift (get_column_letter col) ;;
  let cell_address := letter ++ str_of_Z row in
  v <- cell_value sheet_name cell_address evaluate_formulas formula_evaluator
         fallback_loader row col cell ;;
  validation <- cell_validation env ws include_validation cell_address ;;
  ret (mkCellData cell_address v row col validation).

(** Lines 359-405: the records of the region, row by row. *)
Definition meta_cells (env : Env) (ws : worksheet) (sheet_name : string)
  (include_validation evaluate_formulas : bool)
  (formula_evaluator : option evaluator)
  (fallback_loader : option (Z -> Z -> M pyval))
  (start_row start_col end_row end_col : Z) : M (list cell_data) :=
  for_each (py_range start_row (end_row + 1)) []
    (fun cells row =>
       for_each (py_range start_col (end_col + 1)) cells
         (fun cells col =>
            cell_data <-
              cell_record env ws sheet_name include_validation
                evaluate_formulas formula_evaluator fallback_loader row col ;;
            ret (cells ++ [cell_data])%list)).

(** Lines 340-410: the boundary check, the records, the closing of the
    workbooks. *)
Definition meta_region (env : Env) (ws : worksheet) (sheet_name : string)
  (include_validation evaluate_formulas : bool)
  (formula_evaluator : option evaluator)
  (fallback_loader : option (Z -> Z -> M pyval)) (start_cell : string)
  (start_row start_col end_row end_col : Z) : M range_data :=
  if beyond_bounds ws start_row start_col then
    boundary_warning start_cell ws ;;
    ret (mkRangeData (start_cell ++ ":") sheet_name [])
  else
    lo <- lift (get_column_letter start_col) ;;
    hi <- lift (get_column_letter end_col) ;;
    let range_str := lo ++ str_of_Z start_row ++ ":" ++ hi ++ str_of_Z end_row in
    cells <-
      meta_cells env ws sheet_name include_validation evaluate_formulas
        formula_evaluator fallback_loader start_row start_col end_row end_col ;;
    close Primary ;;
    st <- get_st ;;
    match wb_values st with
    | Some _ => close ValuesOnly
    | None => ret tt
    end ;;
    ret (mkRangeData range_str sheet_name cells).

(** Line 260: [Path(filepath).resolve(strict=False)].  It raises for a
    path that does not resolve, before any workbook is opened; a path that
    loads resolves.  The resolved path names the same file, and the model
    goes on with the spelling of the request (so the warning of
    [_build_formula_evaluator] quotes that spelling where the code quotes
    the resolved one). *)
Definition resolve_path (env : Env) (filepath : string) : M string :=
  match load_formulas env filepath, resolve_error env filepath with
  | inl _, Some e => raise e
  | _, _ => ret filepath
  end.

Definition read_excel_range_with_metadata_try (env : Env)
  (filepath sheet_name start_cell : string) (end_cell : option string)
  (include_validation evaluate_formulas : bool) : M range_data :=
  file_path <- resolve_path env filepath ;;
  wb <- load_workbook env file_path Primary ;;
  set_wb_values None ;;
  set_ws_values None ;;
  set_fallback_loader_failed false ;;
  '(formula_evaluator, fallback_loader) <-
    (if evaluate_formulas then
       formula_evaluator <- _build_formula_evaluator env file_path ;;
       ret (formula_evaluator, Some (_get_cached_value env file_path sheet_name))
     else ret (None, None)) ;;
  if negb (in_names sheet_name (sheetnames wb))
  then raise (DataError ("Sheet '" ++ sheet_name ++ "' not found"))
  else
    ws <- wb_getitem wb sheet_name ;;
    '(start_cell, end_cell) <- lift (split_refs start_cell end_cell) ;;
    '(start_row, start_col, end_row, end_col) <-
      lift (meta_bounds ws start_cell end_cell) ;;
    meta_region env ws sheet_name include_validation evaluate_formulas
      formula_evaluator fallback_loader start_cell
      start_row start_col end_row end_col.

Definition read_excel_range_with_metadata (env : Env)
  (filepath sheet_name start_cell : string) (end_cell : option string)
  (include_validation evaluate_formulas : bool) : M range_data :=
  operation_boundary "Failed to read Excel range with metadata: "
    (read_excel_range_with_metadata_try env filepath sheet_name start_cell
       end_cell include_validation evaluate_formulas).

(** The result of a request that starts with an empty trace. *)
Definition run {A} (m : M A) : (exn + A) * St := m init_st.

(** * What a request computes, stated without the monad *)

(** The evaluator [_build_formula_evaluator] returns. *)
Definition evaluator_of (env : Env) (filepath : string) : option evaluator :=
  match xlcalculator env with
  | Some compile =>
      match compile filepath with
      | inr ev => Some ev
      | inl _ => None
      end
  | None => None
  end.

(** The evaluator and the loader a read works with: none unless formula
    evaluation was asked for. *)
Definition fe_of (env : Env) (filepath : string) (evaluate_formulas : bool)
  : option evaluator :=
  if evaluate_formulas then evaluator_of env filepath else None.

Definition loader_of (env : Env) (file_path sheet_name : string)
  (evaluate_formulas : bool) : option (Z -> Z -> M pyval) :=
  if evaluate_formulas then Some (_get_cached_value env file_path sheet_name)
  else None.

(** The value the data-only view of the file holds at (row, col) of the
    sheet; None when that view does not open or has no such sheet. *)
Definition cached_value (env : Env) (file_path sheet_name : string)
  (row col : Z) : pyval :=
  match load_data_only env file_path with
  | inr wbv =>
      match find_sheet wbv sheet_name with
      | Some wsv => value (cell_at wsv row col)
      | None => PyNone
      end
  | inl _ => PyNone
  end.

(** What the evaluator yields for a cell: the value of the token
    sheet!address when it is not None; when that token gives None or a
    KeyError, the value of the quoted token if that is not None; nothing
    otherwise, and nothing when there is no evaluator. *)
Definition evaluator_yield (ev : option evaluator)
  (sheet_name cell_address : string) : option pyval :=
  match ev with
  | None => None
  | Some evaluate =>
      let quoted :=
        match evaluate ("'" ++ double_quotes sheet_name ++ "'!" ++ cell_address) with
        | inr v => if is_none v then None else Some v
        | inl _ => None
        end in
      match evaluate (sheet_name ++ "!" ++ cell_address) with
      | inr v => if is_none v then quoted else Some v
      | inl e => if is_KeyError e then quoted else None
      end
  end.

(** The value a read reports for a cell, from what the evaluator yields and
    what the data-only view holds. *)
Definition reported_value (evaluate_formulas : bool) (ev : option evaluator)
  (sheet_name cell_address : string) (cached : pyval) (c : cell) : pyval :=
  match (if evaluate_formulas then formula_text_of c else None) with
  | Some text =>
      match evaluator_yield ev sheet_name cell_address with
      | Some v => v
      | None => if is_none cached then PyStr text else cached
      end
  | None =>
      match evaluate_formulas, ev with
      | true, None => if is_none cached then value c else cached
      | _, _ => value c
      end
  end.

Definition address_of (row col : Z) : string :=
  column_letters 3 col ++ str_of_Z row.

Definition validation_of (env : Env) (ws : worksheet)
  (include_validation : bool) (cell_address : string) : option vinfo :=
  if include_validation then
    match get_data_validation_for_cell env ws cell_address with
    | inr (Some (entry :: more)) => Some (entry :: more)
    | _ => Some no_validation
    end
  else None.

(** The record of the cell at (row, col). *)
Definition record_of (env : Env) (filepath : string) (ws : worksheet)
  (sheet_name : string) (include_validation evaluate_formulas : bool)
  (row col : Z) : cell_data :=
  mkCellData (address_of row col)
    (reported_value evaluate_formulas
       (fe_of env filepath evaluate_formulas)
       sheet_name (address_of row col)
       (cached_value env filepath sheet_name row col) (cell_at ws row col))
    row col
    (validation_of env ws include_validation (address_of row col)).

(** The cell can be recorded: its coordinates are at least 1, its column
    has letters, and the validation lookup, when asked for, answers. *)
Definition record_ok (env : Env) (ws : worksheet) (include_validation : bool)
  (row col : Z) : Prop :=
  1 <= row /\ 1 <= col <= 18278 /\
  (include_validation = true ->
   exists info, get_data_validation_for_cell env ws (address_of row col) = inr info).

Definition has_value (row : list pyval) : bool :=
  existsb (fun v => negb (is_none v)) row.

(** The values of one row of a region, and of the whole region. *)
Definition row_values (ws : worksheet) (row start_col end_col : Z) : list pyval :=
  map (fun col => value (cell_at ws row col)) (py_range start_col (end_col + 1)).

Definition region_values (ws : worksheet) (start_row start_col end_row end_col : Z)
  : list (list pyval) :=
  map (fun row => row_values ws row start_col end_col)
      (py_range start_row (end_row + 1)).

Definition region_records (env : Env) (filepath : string) (ws : worksheet)
  (sheet_name : string) (include_validation evaluate_formulas : bool)
  (start_row start_col end_row end_col : Z) : list cell_data :=
  flat_map
    (fun row =>
       map (record_of env filepath ws sheet_name include_validation
              evaluate_formulas row)
           (py_range start_col (end_col + 1)))
    (py_range start_row (end_row + 1)).

(** Every cell of the region can be recorded. *)
Definition region_ok (env : Env) (ws : worksheet) (include_validation : bool)
  (start_row start_col end_row end_col : Z) : Prop :=
  forall row col,
    start_row <= row <= end_row -> start_col <= col <= end_col ->
    record_ok env ws include_validation row col.

(** The [range] field of a metadata result. *)
Definition range_string (start_row start_col end_row end_col : Z) : string :=
  column_letters 3 start_col ++ str_of_Z start_row ++ ":"
  ++ column_letters 3 end_col ++ str_of_Z end_row.

(** ** Counting the events of a trace *)

Definition handle_eqb (a b : handle) : bool :=
  match a, b with
  | Primary, Primary | ValuesOnly, ValuesOnly => true
  | _, _ => false
  end.

Definition is_open (h : handle) (ev : event) : bool :=
  match ev with EvOpen h' => handle_eqb h h' | _ => false end.

Definition is_open_failed (h : handle) (ev : event) : bool :=
  match ev with EvOpenFailed h' => handle_eqb h h' | _ => false end.

Definition is_close (h : handle) (ev : event) : bool :=
  match ev with EvClose h' => handle_eqb h h' | _ => false end.

Definition count (p : event -> bool) (t : list event) : nat :=
  List.length (filter p t).

Definition opens (h : handle) (t : list event) : nat := count (is_open h) t.
Definition open_failures (h : handle) (t : list event) : nat :=
  count (is_open_failed h) t.
Definition closes (h : handle) (t : list event) : nat := count (is_close h) t.

(** The attempts to open a workbook, successful or not. *)
Definition open_attempts (h : handle) (t : list event) : nat :=
  (opens h t + open_failures h t)%nat.

(** The handle is open at the end of the trace. *)
Definition left_open (h : handle) (t : list event) : bool :=
  Nat.ltb (closes h t) (opens h t).



Definition is_save_call (ev : event) : bool :=
  match ev with EvSave _ _ | EvSaveFailed _ _ => true | _ => false end.

Definition save_calls (t : list event) : nat := count is_save_call t.

(** The calls that change a workbook or the file. *)
Definition is_write (ev : event) : bool :=
  match ev with
  | EvCreateSheet _ | EvSetCell _ _ _ _ | EvSave _ _ | EvSaveFailed _ _ => true
  | _ => false
  end.

Definition writes (t : list event) : nat := count is_write t.

(** A computation that makes none of these calls. *)
Definition keeps_writes {A} (m : M A) : Prop :=
  forall st, writes (trace (snd (m st))) = writes (trace st).

(** ** The states of the fallback loader *)

Inductive loader_phase : Type := Unopened | Opened | Failed.

Definition phase (st : St) : loader_phase :=
  if fallback_loader_failed st then Failed
  else match wb_values st with
       | Some _ => Opened
       | None => Unopened
       end.

(** The loader called on a sequence of cells. *)
Definition call_loader (env : Env) (file_path sheet_name : string)
  (calls : list (Z * Z)) : M (list pyval) :=
  for_each calls []
    (fun results rc =>
       v <- _get_cached_value env file_path sheet_name (fst rc) (snd rc) ;;
       ret (results ++ [v])%list).

(** *** The file a save leaves

    What a later [load_workbook] of a saved file returns is known here
    only as far as it is sure: the sheets keep their names and their
    order, and a cell keeps its value when that value is a bool, an
    integer of at most fifteen digits, or a string that is not empty, is
    made of ASCII letters, digits and spaces without a space at either
    end, and has at most 32767 characters.  Of other values nothing is
    said: the file has no empty string (it reads back as None), it holds a
    large integer as a float, and openpyxl reads some sequences of other
    characters in a string as escapes. *)

Definition printable (c : ascii) : bool :=
  let n := nat_of_ascii c in Nat.leb 32 n && Nat.leb n 126.

Fixpoint all_printable (s : string) : bool :=
  match s with
  | EmptyString => true
  | String c rest => printable c && all_printable rest
  end.

Fixpoint last_char (s : string) : option ascii :=
  match s with
  | EmptyString => None
  | String c EmptyString => Some c
  | String _ rest => last_char rest
  end.

Definition is_space (c : option ascii) : bool :=
  match c with
  | Some c => Ascii.eqb c " "%char
  | None => false
  end.

Definition first_char (s : string) : option ascii :=
  match s with
  | EmptyString => None
  | String c _ => Some c
  end.

Definition plain_char (c : ascii) : bool :=
  is_upper c || is_lower c || is_digit c || Ascii.eqb c " "%char.

Fixpoint all_plain (s : string) : bool :=
  match s with
  | EmptyString => true
  | String c rest => plain_char c && all_plain rest
  end.

Definition kept_by_file (v : pyval) : bool :=
  match v with
  | PyBool _ => true
  | PyInt z => Z.abs z <? 10 ^ 15
  | PyStr s =>
      nonempty s && all_plain s
      && negb (is_space (first_char s)) && negb (is_space (last_char s))
      && (Z.of_nat (String.length s) <=? 32767)
  | PyNone | PyObj _ => false
  end.

(** [loaded] is a workbook that the file saved from [saved] may load as. *)
Definition reloads (saved loaded : workbook) : Prop :=
  sheetnames loaded = sheetnames saved /\
  forall name ws,
    find_sheet saved name = Some ws ->
    exists ws',
      find_sheet loaded name = Some ws' /\
      forall r c,
        kept_by_file (value (cell_at ws r c)) = true ->
        value (cell_at ws' r c) = value (cell_at ws r c).

(** *** The values a cell takes as they are

    [ws.cell(row, column, value)] keeps a string of at most 32767
    characters that has none of the control characters of
    [ILLEGAL_CHARACTERS_RE] (0-8, 11, 12, 14-31); it cuts a longer one and
    raises for the others.  The statements about the cells of a write are
    about matrices of values it keeps. *)

Definition illegal_character (c : ascii) : bool :=
  let n := nat_of_ascii c in
  Nat.leb n 8 || Nat.eqb n 11 || Nat.eqb n 12 || (Nat.leb 14 n && Nat.leb n 31).

Fixpoint has_illegal_character (s : string) : bool :=
  match s with
  | EmptyString => false
  | String c rest => illegal_character c || has_illegal_character rest
  end.

Definition storable (v : pyval) : bool :=
  match v with
  | PyStr s => negb (has_illegal_character s) && (Z.of_nat (String.length s) <=? 32767)
  | _ => true
  end.

Definition storable_matrix (data : list (list pyval)) : bool :=
  forallb (forallb storable) data.

(** The cells a write places for one row of the matrix, and for all of
    them in the order of the writes. *)
Definition row_placements (start_row start_col : Z) (irow : Z * list pyval)
  : list (Z * Z * pyval) :=
  map (fun jval => (start_row + fst irow, start_col + fst jval, snd jval))
      (enumerate (snd irow)).

Definition placements (start_row start_col : Z) (data : list (list pyval))
  : list (Z * Z * pyval) :=
  flat_map (row_placements start_row start_col) (enumerate data).

Definition store_all (ws : worksheet) (ps : list (Z * Z * pyval)) : worksheet :=
  fold_left (fun w p => store_cell w (fst (fst p)) (snd (fst p)) (snd p)) ps ws.

Definition set_cell_event (sheet : string) (p : Z * Z * pyval) : event :=
  EvSetCell sheet (fst (fst p)) (snd (fst p)) (snd p).

(** ** Specifications of runs *)

(** From a state in [P], the run ends in [Q] when it returns and in [E]
    when it raises. *)
Definition triple {A} (P : St -> Prop) (m : M A) (Q : A -> St -> Prop)
  (E : exn -> St -> Prop) : Prop :=
  forall st, P st ->
    match m st with
    | (inr a, st') => Q a st'
    | (inl e, st') => E e st'
    end.

(** The primary workbook is open and has not been closed. *)
Definition primary_open (st : St) : Prop :=
  opens Primary (trace st) = 1%nat /\ closes Primary (trace st) = 0%nat
  /\ open_failures Primary (trace st) = 0%nat.

(** The variables of the loader agree with the trace and with the world:
    nothing was tried while the loader is unopened; an opened loader holds
    the data-only workbook and its sheet, opened once and not closed; a
    failed loader stands for a view that gives no value, after one attempt
    that left nothing open. *)
Definition loader_inv (env : Env) (file_path sheet_name : string) (st : St)
  : Prop :=
  let t := trace st in
  match fallback_loader_failed st, wb_values st with
  | false, None =>
      ws_values st = None /\
      opens ValuesOnly t = 0%nat /\ open_failures ValuesOnly t = 0%nat /\
      closes ValuesOnly t = 0%nat
  | false, Some wbv =>
      load_data_only env file_path = inr wbv /\
      (exists wsv, find_sheet wbv sheet_name = Some wsv /\ ws_values st = Some wsv) /\
      opens ValuesOnly t = 1%nat /\ open_failures ValuesOnly t = 0%nat /\
      closes ValuesOnly t = 0%nat
  | true, None =>
      (forall row col, cached_value env file_path sheet_name row col = PyNone) /\
      open_attempts ValuesOnly t = 1%nat /\
      closes ValuesOnly t = opens ValuesOnly t
  | true, Some _ => False
  end.

Definition request_inv (env : Env) (file_path sheet_name : string) (st : St)
  : Prop :=
  primary_open st /\ loader_inv env file_path sheet_name st.

(** The columns of the used range have letters. *)
Definition sheet_cols_ok (ws : worksheet) : Prop :=
  1 <= min_column ws <= 18278 /\ 1 <= max_column ws <= 18278.

(** The state with one more event. *)
Definition logged (st : St) (ev : event) : St :=
  mkSt (trace st ++ [ev])%list (wb_values st) (ws_values st)
       (fallback_loader_failed st).

(** The text of the warning of the boundary check. *)
Definition boundary_text (start_cell : string) (ws : worksheet) : string :=
  "Start cell " ++ start_cell ++ " is outside the sheet's data boundary ("
  ++ column_letters 3 (min_column ws) ++ str_of_Z (min_row ws) ++ ":"
  ++ column_letters 3 (max_column ws) ++ str_of_Z (max_row ws)
  ++ "). No data will be read.".

(** No workbook is left open. *)
Definition all_closed (st : St) : Prop :=
  left_open Primary (trace st) = false /\ left_open ValuesOnly (trace st) = false.

(** The state after the events [t] of a request that has no loader. *)
Definition after (t : list event) : St := mkSt t None None false.

(** Every failure of an operation is logged as its last act: when the
    operation raises, its body raised some exception [e0], the operation
    raises DataError(str(e0)), and the trace is that of the body followed
    by one log at level error, whose text is str(e0) when [e0] is a
    DataError and the prefix followed by str(e0) when it is not. *)
Definition logged_last {A} (prefix : string) (body operation : M A) : Prop :=
  forall st e st',
    operation st = (inl e, st') ->
    exists e0 st0,
      body st = (inl e0, st0) /\
      e = DataError (str_exn e0) /\
      trace st' =
      (trace st0
       ++ [EvLog LError
             (if is_DataError e0 then str_exn e0 else prefix ++ str_exn e0)])%list.

(** The world without xlcalculator. *)
Definition without_xlcalculator (env : Env) : Env :=
  mkEnv (load_formulas env) (load_data_only env) None
        (get_data_validation_for_cell env) (save_result env)
        (resolve_error env).

(** ** A workbook to run the operations on *)

Definition ex_data : worksheet :=
  mkSheet "Data"
    [ ((1, 1), mkCell (PyInt 2) "n");
      ((2, 1), mkCell (PyInt 3) "n");
      ((3, 1), mkCell (PyStr "=SUM(A1:A2)") "f");
      ((3, 2), mkCell (PyStr "=A1*2") "f");
      ((1, 2), mkCell (PyStr "x") "s") ].

Definition ex_empty : worksheet := mkSheet "Empty" [].

Definition ex_book : workbook := mkWorkbook [ex_data; ex_empty] 0.

(** Its data-only view: A3 has a cached result, B3 has none. *)
Definition ex_data_values : worksheet :=
  mkSheet "Data"
    [ ((1, 1), mkCell (PyInt 2) "n");
      ((2, 1), mkCell (PyInt 3) "n");
      ((3, 1), mkCell (PyInt 5) "n");
      ((1, 2), mkCell (PyStr "x") "s") ].

Definition ex_book_values : workbook := mkWorkbook [ex_data_values; ex_empty] 0.

(** An evaluator that knows B3 only. *)
Definition ex_evaluate : evaluator :=
  fun token =>
    if String.eqb token "Data!B3" then inr (PyInt 4) else inl (KeyError token).

Definition ex_env : Env :=
  mkEnv (fun _ => inr ex_book) (fun _ => inr ex_book_values)
        (Some (fun _ => inr ex_evaluate))
        (fun _ _ => inr None) (fun _ _ => None) (fun _ => None).

(** The same world without xlcalculator. *)
Definition ex_env_no_evaluator : Env :=
  mkEnv (fun _ => inr ex_book) (fun _ => inr ex_book_values)
        None
        (fun _ _ => inr None) (fun _ _ => None) (fun _ => None).

(** The result of a run that returns. *)
Definition result_of {A} (default : A) (r : (exn + A) * St) : A :=
  match fst r with
  | inr a => a
  | inl _ => default
  end.

Definition ex_meta_read : (exn + range_data) * St :=
  run (read_excel_range_with_metadata ex_env "book.xlsx" "Data" "A1" None false true).

Definition ex_meta_result : range_data :=
  result_of (mkRangeData "" "" []) ex_meta_read.

Definition ex_record_A3 : cell_data :=
  nth 4 (cells ex_meta_result) (mkCellData "" PyNone 0 0 None).

Definition ex_meta_read_no_evaluator : (exn + range_data) * St :=
  run (read_excel_range_with_metadata ex_env_no_evaluator "book.xlsx" "Data"
         "A1" None false true).

Definition ex_meta_result_no_evaluator : range_data :=
  result_of (mkRangeData "" "" []) ex_meta_read_no_evaluator.

Definition ex_record_A1 : cell_data :=
  nth 0 (cells ex_meta_result_no_evaluator) (mkCellData "" PyNone 0 0 None).

Definition ex_plain_read : (exn + list (list pyval)) * St :=
  run (read_excel_range ex_env "book.xlsx" "Data" "A1" (Some "B4")).

Definition ex_meta_read_A1_B4 : (exn + range_data) * St :=
  run (read_excel_range_with_metadata ex_env "book.xlsx" "Data" "A1" (Some "B4")
         true false).

(** A sheet whose data starts at row 3, column 2. *)
Definition ex_offset : worksheet :=
  mkSheet "Offset"
    [ ((3, 2), mkCell (PyStr "k") "s"); ((4, 3), mkCell (PyInt 7) "n") ].

Definition ex_offset_env : Env :=
  mkEnv (fun _ => inr (mkWorkbook [ex_offset] 0))
        (fun _ => inr (mkWorkbook [ex_offset] 0))
        None (fun _ _ => inr None) (fun _ _ => None) (fun _ => None).

(** A sheet with an array formula: the cell A1 is typed as a formula and
    its value is an object of openpyxl, not a string.  The evaluator
    yields 7 for it, and so does the data-only view. *)
Definition ex_array : worksheet :=
  mkSheet "Arr" [ ((1, 1), mkCell (PyObj "<ArrayFormula A1:A1>") "f") ].

Definition ex_array_values : worksheet :=
  mkSheet "Arr" [ ((1, 1), mkCell (PyInt 7) "n") ].

Definition ex_array_evaluate : evaluator :=
  fun token =>
    if String.eqb token "Arr!A1" then inr (PyInt 7) else inl (KeyError token).

Definition ex_array_env : Env :=
  mkEnv (fun _ => inr (mkWorkbook [ex_array] 0))
        (fun _ => inr (mkWorkbook [ex_array_values] 0))
        (Some (fun _ => inr ex_array_evaluate))
        (fun _ _ => inr None) (fun _ _ => None) (fun _ => None).

(** ** Closing the workbooks *)

(** A world in which the validation lookup fails for B1. *)
Definition ex_env_validation_fails : Env :=
  mkEnv (fun _ => inr ex_book) (fun _ => inr ex_book_values)
        None
        (fun _ addr => if String.eqb addr "B1"
                       then inl (OtherError "validation lookup failed")
                       else inr None)
        (fun _ _ => None) (fun _ => None).

(** A world whose data-only view does not open. *)
Definition ex_env_no_values : Env :=
  mkEnv (fun _ => inr ex_book) (fun _ => inl (OtherError "cannot open"))
        None (fun _ _ => inr None) (fun _ _ => None) (fun _ => None).

(** A world in which xlcalculator is installed and fails on the workbook. *)
Definition ex_env_unbuilt : Env :=
  mkEnv (fun _ => inr ex_book) (fun _ => inr ex_book_values)
        (Some (fun _ => inl (OtherError "cannot parse the archive")))
        (fun _ _ => inr None) (fun _ _ => None) (fun _ => None).

(** An operation passes a DataError of its body on as it is, turns any
    other exception of its body into a DataError with the same text, and
    raises nothing but DataError. *)
Definition wraps_once {A} (body operation : M A) : Prop :=
  (forall st msg st0,
      body st = (inl (DataError msg), st0) ->
      exists st', operation st = (inl (DataError msg), st')) /\
  (forall st e st0,
      body st = (inl e, st0) -> is_DataError e = false ->
      exists st', operation st = (inl (DataError (str_exn e)), st')) /\
  (forall st e st',
      operation st = (inl e, st') -> is_DataError e = true).

(** Lines 175-182, the sheet a write goes to: the workbook and the name
    the selection leaves (the active sheet for no name, a new sheet for a
    name the workbook has not) or the exception it raises, and the events of
    the selection. *)
Definition write_target (wb : workbook) (sheet_name : option string)
  : (exn + workbook * string) * list event :=
  if negb (truthy sheet_name) then
    (match active wb with
     | None => inl (DataError "No active sheet found in workbook")
     | Some active_sheet => inr (wb, title active_sheet)
     end, [])
  else if negb (in_names (the_string sheet_name) (sheetnames wb)) then
    (match create_sheet wb (the_string sheet_name) with
     | inl e => inl e
     | inr wb1 => inr (wb1, the_string sheet_name)
     end, [EvCreateSheet (the_string sheet_name)])
  else (inr (wb, the_string sheet_name), []).

(** The titles of a write are in the scope of the model of
    [avoid_duplicate_name]: when a sheet is created, its name and the names
    of the workbook are printable ASCII. *)
Definition titles_in_scope (wb : workbook) (sheet_name : option string) : bool :=
  negb (truthy sheet_name)
  || in_names (the_string sheet_name) (sheetnames wb)
  || forallb all_printable (the_string sheet_name :: sheetnames wb).

Definition matrix_1234 : list (list pyval) :=
  [[PyInt 1; PyInt 2]; [PyInt 3; PyInt 4]].

Definition ex_written : (exn + write_result) * St :=
  run (write_data ex_env "book.xlsx" (Some "Empty") (Some matrix_1234) "B2").

(** The workbook that write saves, and a world in which the file loads as
    that workbook. *)
Definition ex_written_book : workbook :=
  with_sheet ex_book (store_all ex_empty (placements 2 2 matrix_1234)).

Definition ex_env_written : Env :=
  mkEnv (fun _ => inr ex_written_book) (fun _ => inr ex_written_book)
        None (fun _ _ => inr None) (fun _ _ => None) (fun _ => None).

(** The workbook saved by the write of the matrix at A4 of the sheet
    "Data", and a world in which the file loads as that workbook. *)
Definition ex_rewritten_book : workbook :=
  with_sheet ex_book (store_all ex_data (placements 4 1 matrix_1234)).

Definition ex_env_rewritten : Env :=
  mkEnv (fun _ => inr ex_rewritten_book) (fun _ => inr ex_rewritten_book)
        None (fun _ _ => inr None) (fun _ _ => None) (fun _ => None).

(** A write to the sheet "data" of the workbook that has the sheet "Data". *)
Definition ex_written_case_variant : (exn + write_result) * St :=
  run (write_data ex_env "book.xlsx" (Some "data") (Some matrix_1234) "B2").

(** * Proofs *)

(** ** Triples *)

Lemma triple_conseq{A} (P P' : St -> Prop) (m : M A)
  (Q Q' : A -> St -> Prop) (E E' : exn -> St -> Prop) :
  triple P' m Q' E' ->
  (forall st, P st -> P' st) ->
  (forall a st, Q' a st -> Q a st) ->
  (forall e st, E' e st -> E e st) ->
  triple P m Q E.
Proof.
  intros Hm HP HQ HE st Hst. specialize (Hm st (HP st Hst)).
  destruct (m st) as [[e | a] st1]; auto.
Qed.

(** ** Counting *)

Lemma count_app (p : event -> bool) (t1 t2 : list event) :
  count p (t1 ++ t2) = (count p t1 + count p t2)%nat.
Proof. unfold count. rewrite filter_app, length_app. reflexivity. Qed.

Lemma count_snoc (p : event -> bool) (t : list event) (ev : event) :
  count p (t ++ [ev]) = (count p t + (if p ev then 1 else 0))%nat.
Proof. rewrite count_app. unfold count. simpl. destruct (p ev); reflexivity. Qed.

Lemma in_names_find_sheet wb name :
  in_names name (sheetnames wb) = true ->
  exists ws, find_sheet wb name = Some ws.
Proof.
  unfold in_names, sheetnames, find_sheet.
  induction (sheets wb) as [| s rest IH]; simpl; intros H.
  - discriminate.
  - rewrite String.eqb_sym. destruct (String.eqb name (title s)); simpl in *.
    + eauto.
    + auto.
Qed.

Lemma find_sheet_in_names wb name ws :
  find_sheet wb name = Some ws -> in_names name (sheetnames wb) = true.
Proof.
  unfold in_names, sheetnames, find_sheet.
  induction (sheets wb) as [| s rest IH]; simpl; intros H.
  - discriminate.
  - rewrite String.eqb_sym in H. destruct (String.eqb name (title s)); simpl in *; auto.
Qed.

Lemma not_in_names_find_sheet wb name :
  in_names name (sheetnames wb) = false -> find_sheet wb name = None.
Proof.
  intros H. destruct (find_sheet wb name) eqn:F; auto.
  apply find_sheet_in_names in F. congruence.
Qed.

Ltac st_simpl :=
  cbn [trace wb_values ws_values fallback_loader_failed fst snd].

Ltac count_solve :=
  unfold primary_open, open_attempts, opens, closes, open_failures in *;
  st_simpl; rewrite ?count_snoc;
  cbn [is_open is_open_failed is_close handle_eqb]; try lia.

Ltac below_one Hrc :=
  let H := fresh in
  intro H; destruct H;
  apply orb_true_iff in Hrc; destruct Hrc as [Hrc | Hrc];
  apply Z.ltb_lt in Hrc; lia.

Lemma get_cached_value_spec env fp sn r c :
  triple (request_inv env fp sn) (_get_cached_value env fp sn r c)
    (fun v st' => request_inv env fp sn st' /\
                  (1 <= r -> 1 <= c -> v = cached_value env fp sn r c))
    (fun e st' => request_inv env fp sn st' /\ ~ (1 <= r /\ 1 <= c)).
Proof.
  intros st [Hp Hl].
  unfold loader_inv in Hl.
  unfold _get_cached_value, bind, get_st.
  destruct (fallback_loader_failed st) eqn:Hf.
  - cbn [ret]. destruct (wb_values st) eqn:Hw; [contradiction|].
    destruct Hl as [Hc Hrest]. split.
    + split; [assumption|]. unfold loader_inv. rewrite Hf, Hw. auto.
    + intros. rewrite Hc. reflexivity.
  - destruct (wb_values st) as [wbv|] eqn:Hw.
    + destruct Hl as [Hload [[wsv [Hfind Hws]] Hcnt]].
      cbn [ret]. rewrite Hws. unfold ws_cell, bind.
      assert (Hinv : request_inv env fp sn st).
      { split; [assumption|]. unfold loader_inv. rewrite Hf, Hw. eauto. }
      destruct ((r <? 1) || (c <? 1)) eqn:Hrc; cbn [ret raise]; (split; [exact Hinv|]).
      * below_one Hrc.
      * intros _ _. unfold cached_value. rewrite Hload, Hfind. reflexivity.
    + destruct Hl as [Hws [Ho [Hof Hcl]]].
      unfold try_except, load_workbook, bind, logger, close, emit,
        set_wb_values, set_ws_values, set_fallback_loader_failed, ret, raise.
      destruct (load_data_only env fp) as [e | wbv] eqn:Hload.
      * st_simpl. split.
        -- split; [count_solve|].
           unfold loader_inv. st_simpl. rewrite Hw. split.
           ++ intros. unfold cached_value. rewrite Hload. reflexivity.
           ++ count_solve.
        -- intros. unfold cached_value. rewrite Hload. reflexivity.
      * st_simpl. destruct (in_names sn (sheetnames wbv)) eqn:Hin; cbn [negb]; st_simpl.
        -- destruct (in_names_find_sheet _ _ Hin) as [wsv Hfind].
           unfold wb_getitem, ret. rewrite Hfind. st_simpl.
           unfold ws_cell, ret, raise.
           destruct ((r <? 1) || (c <? 1)) eqn:Hrc; st_simpl;
             (split;
              [ split; [count_solve|];
                unfold loader_inv; st_simpl; rewrite ?Hf; repeat split; eauto; count_solve |]).
           ++ below_one Hrc.
           ++ intros _ _. unfold cached_value. rewrite Hload, Hfind. reflexivity.
        -- assert (Hnone := not_in_names_find_sheet _ _ Hin).
           split.
           ++ split; [count_solve|].
              unfold loader_inv. st_simpl. rewrite ?Hf, ?Hw. split.
              ** intros. unfold cached_value. rewrite Hload, Hnone. reflexivity.
              ** count_solve.
           ++ intros. unfold cached_value. rewrite Hload, Hnone. reflexivity.
Qed.

Lemma logger_request_inv env fp sn lvl msg st :
  request_inv env fp sn st ->
  request_inv env fp sn (snd (logger lvl msg st)).
Proof.
  intros [Hp Hl]. unfold logger, emit. st_simpl. split.
  - count_solve.
  - unfold loader_inv in *. st_simpl.
    destruct (fallback_loader_failed st), (wb_values st); auto.
    + destruct Hl as [? [? ?]]. split; [assumption|]. count_solve.
    + destruct Hl as [? [? [? [? ?]]]]. repeat split; auto; count_solve.
    + destruct Hl as [? [? [? ?]]]. repeat split; auto; count_solve.
Qed.

Lemma evaluate_tokens_spec env fp sn ev sheet addr :
  triple (request_inv env fp sn)
    (evaluate_tokens ev sheet addr (formula_tokens sheet addr))
    (fun r st' => request_inv env fp sn st' /\
                  r = evaluator_yield (Some ev) sheet addr)
    (fun _ _ => False).
Proof.
  intros st Hinv. unfold formula_tokens, evaluator_yield.
  cbn [evaluate_tokens].
  assert (Hlog : forall msg, request_inv env fp sn (snd (logger LWarning msg st)))
    by (intros; apply logger_request_inv; assumption).
  unfold bind, ret.
  destruct (ev (sheet ++ "!" ++ addr)) as [e1 | v1];
    [destruct (is_KeyError e1) | destruct (is_none v1)];
    try (destruct (ev ("'" ++ double_quotes sheet ++ "'!" ++ addr)) as [e2 | v2];
         [destruct (is_KeyError e2) | destruct (is_none v2)]);
    try (split; [assumption | reflexivity]);
    try (unfold logger, emit in *; split; [apply Hlog | reflexivity]).
Qed.

Lemma evaluate_formula_cell_spec env fp sn fe addr r c dflt :
  triple (request_inv env fp sn)
    (_evaluate_formula_cell fe sn addr r c (Some (_get_cached_value env fp sn)) dflt)
    (fun v st' =>
       request_inv env fp sn st' /\
       (1 <= r -> 1 <= c ->
        v = match evaluator_yield fe sn addr with
            | Some y => y
            | None => if is_none (cached_value env fp sn r c) then dflt
                      else cached_value env fp sn r c
            end))
    (fun _ _ => False).
Proof.
  intros st Hinv. unfold _evaluate_formula_cell, bind.
  assert (Hfirst :
    match (match fe with
           | Some ev => evaluate_tokens ev sn addr (formula_tokens sn addr)
           | None => ret None
           end) st with
    | (inr y, st1) => request_inv env fp sn st1 /\ y = evaluator_yield fe sn addr
    | (inl _, _) => False
    end).
  { destruct fe as [ev |].
    - apply (evaluate_tokens_spec env fp sn ev sn addr st Hinv).
    - cbn. auto. }
  destruct ((match fe with
             | Some ev => evaluate_tokens ev sn addr (formula_tokens sn addr)
             | None => ret None
             end) st) as [[e | y] st1]; [contradiction|].
  destruct Hfirst as [Hinv1 Hy]. rewrite <- Hy.
  destruct y as [v |].
  - cbn. auto.
  - unfold try_except, bind.
    pose proof (get_cached_value_spec env fp sn r c st1 Hinv1) as Hc.
    destruct (_get_cached_value env fp sn r c st1) as [[e | cv] st2].
    + destruct Hc as [Hinv2 Hbad]. unfold ret.
      pose proof (logger_request_inv env fp sn LDebug
        ("Formula fallback loader failed for " ++ sn ++ "!" ++ addr ++ ": " ++ str_exn e)
        st2 Hinv2) as Hlog.
      destruct (logger LDebug
        ("Formula fallback loader failed for " ++ sn ++ "!" ++ addr ++ ": " ++ str_exn e) st2)
        as [[e' | u] st3] eqn:Hrun; cbn in Hrun; inversion Hrun; subst.
      split; [exact Hlog|]. intros. exfalso. apply Hbad. split; assumption.
    + destruct Hc as [Hinv2 Hval]. unfold ret.
      destruct (is_none cv) eqn:Hn.
      * split; [assumption|]. intros H1 H2. rewrite <- (Hval H1 H2), Hn. reflexivity.
      * split; [assumption|]. intros H1 H2. rewrite <- (Hval H1 H2), Hn. reflexivity.
Qed.

Lemma below_one_false r c : (r <? 1) || (c <? 1) = false -> 1 <= r /\ 1 <= c.
Proof.
  intros H. apply orb_false_iff in H. destruct H as [H1 H2].
  apply Z.ltb_ge in H1, H2. lia.
Qed.

Lemma below_one_true r c : (r <? 1) || (c <? 1) = true -> ~ (1 <= r /\ 1 <= c).
Proof.
  intros H [H1 H2]. apply orb_true_iff in H.
  destruct H as [H | H]; apply Z.ltb_lt in H; lia.
Qed.

Lemma get_column_letter_inr col s :
  get_column_letter col = inr s -> 1 <= col <= 18278 /\ s = column_letters 3 col.
Proof.
  unfold get_column_letter.
  destruct ((1 <=? col) && (col <=? 18278)) eqn:H; [|discriminate].
  intros E. injection E as <-. apply andb_true_iff in H. destruct H as [H1 H2].
  apply Z.leb_le in H1, H2. auto.
Qed.

Lemma get_column_letter_inl col e :
  get_column_letter col = inl e -> ~ (1 <= col <= 18278).
Proof.
  unfold get_column_letter.
  destruct ((1 <=? col) && (col <=? 18278)) eqn:H; [discriminate|].
  intros _ [H1 H2]. apply andb_false_iff in H.
  destruct H as [H | H]; apply Z.leb_gt in H; lia.
Qed.

Lemma get_column_letter_ok col :
  1 <= col <= 18278 -> get_column_letter col = inr (column_letters 3 col).
Proof.
  intros [H1 H2]. unfold get_column_letter.
  apply Z.leb_le in H1, H2. rewrite H1, H2. reflexivity.
Qed.

Lemma cell_value_spec env fp ws sn ef r c :
  1 <= r -> 1 <= c ->
  triple (request_inv env fp sn)
    (cell_value sn (address_of r c) ef (fe_of env fp ef) (loader_of env fp sn ef)
       r c (cell_at ws r c))
    (fun v st' =>
       request_inv env fp sn st' /\
       v = reported_value ef (fe_of env fp ef) sn (address_of r c)
             (cached_value env fp sn r c) (cell_at ws r c))
    (fun _ _ => False).
Proof.
  intros Hr Hc st Hinv. unfold cell_value, reported_value.
  destruct ef; cbn [fe_of loader_of].
  - destruct (formula_text_of (cell_at ws r c)) as [text |].
    + pose proof (evaluate_formula_cell_spec env fp sn (evaluator_of env fp)
                    (address_of r c) r c (PyStr text) st Hinv) as Hs.
      destruct (_evaluate_formula_cell (evaluator_of env fp) sn (address_of r c)
                  r c (Some (_get_cached_value env fp sn)) (PyStr text) st)
        as [[e | v] st1]; [contradiction|].
      destruct Hs as [Hinv1 Hv]. split; [assumption|]. apply Hv; assumption.
    + destruct (evaluator_of env fp) as [ev |].
      * cbn [ret]. auto.
      * unfold bind.
        pose proof (get_cached_value_spec env fp sn r c st Hinv) as Hs.
        destruct (_get_cached_value env fp sn r c st) as [[e | v] st1].
        -- destruct Hs as [_ Hbad]. apply Hbad. auto.
        -- destruct Hs as [Hinv1 Hv]. cbn [ret]. split; [assumption|].
           rewrite (Hv Hr Hc). reflexivity.
  - cbn [ret]. auto.
Qed.

Lemma cell_validation_spec env ws iv addr (P : St -> Prop) :
  triple P (cell_validation env ws iv addr)
    (fun v st' =>
       P st' /\ v = validation_of env ws iv addr /\
       (iv = true -> exists info, get_data_validation_for_cell env ws addr = inr info))
    (fun _ st' =>
       P st' /\
       ~ (iv = true -> exists info, get_data_validation_for_cell env ws addr = inr info)).
Proof.
  intros st HP. unfold cell_validation, validation_of, bind, lift.
  destruct iv.
  - destruct (get_data_validation_for_cell env ws addr) as [e | info].
    + split; [assumption|]. intros H. destruct (H eq_refl) as [x Hx]. discriminate.
    + destruct info as [[| entry more] |]; cbn [ret]; repeat split; eauto.
  - cbn [ret]. repeat split; auto. intros H; discriminate.
Qed.

Lemma cell_record_spec env fp ws sn iv ef r c :
  triple (request_inv env fp sn)
    (cell_record env ws sn iv ef (fe_of env fp ef) (loader_of env fp sn ef) r c)
    (fun a st' =>
       request_inv env fp sn st' /\
       a = record_of env fp ws sn iv ef r c /\ record_ok env ws iv r c)
    (fun _ st' => request_inv env fp sn st' /\ ~ record_ok env ws iv r c).
Proof.
  intros st Hinv. unfold cell_record, bind, ws_cell.
  destruct ((r <? 1) || (c <? 1)) eqn:Hrc.
  { cbn [raise]. split; [assumption|].
    intros [H1 [[H2 _] _]]. apply (below_one_true _ _ Hrc). auto. }
  apply below_one_false in Hrc. destruct Hrc as [Hr Hc].
  cbn [ret]. unfold lift.
  destruct (get_column_letter c) as [e | letter] eqn:Hletter.
  { split; [assumption|]. intros [_ [H2 _]].
    apply (get_column_letter_inl _ _ Hletter). exact H2. }
  apply get_column_letter_inr in Hletter. destruct Hletter as [Hcol Hl].
  subst letter. fold (address_of r c).
  pose proof (cell_value_spec env fp ws sn ef r c Hr Hc st Hinv) as Hv.
  destruct (cell_value sn (address_of r c) ef (fe_of env fp ef)
              (loader_of env fp sn ef) r c (cell_at ws r c) st)
    as [[e | v] st1]; [contradiction|].
  destruct Hv as [Hinv1 Hv]. subst v.
  pose proof (cell_validation_spec env ws iv (address_of r c) _ st1 Hinv1) as Hval.
  destruct (cell_validation env ws iv (address_of r c) st1) as [[e | vi] st2].
  - destruct Hval as [Hinv2 Hbad]. split; [assumption|].
    intros [_ [_ H]]. apply Hbad. exact H.
  - destruct Hval as [Hinv2 [Hvi Hok]]. subst vi. cbn [ret].
    split; [assumption|]. split; [reflexivity|]. repeat split; auto; lia.
Qed.

Lemma in_py_range x a b : In x (py_range a b) <-> a <= x < b.
Proof.
  unfold py_range. rewrite in_map_iff. split.
  - intros [i [Hx Hi]]. apply in_seq in Hi. lia.
  - intros H. exists (Z.to_nat (x - a)). split; [lia|].
    apply in_seq. lia.
Qed.

Lemma length_py_range a b : List.length (py_range a b) = Z.to_nat (b - a).
Proof. unfold py_range. rewrite length_map, length_seq. reflexivity. Qed.

Lemma flat_map_singleton {A B} (g : A -> B) (l : list A) :
  flat_map (fun x => [g x]) l = map g l.
Proof. induction l; simpl; congruence. Qed.

Lemma flat_map_filter {A} (p : A -> bool) (l : list A) :
  flat_map (fun x => if p x then [x] else []) l = filter p l.
Proof. induction l as [| x l IH]; simpl; [reflexivity|]. destruct (p x); simpl; congruence. Qed.

(** A loop whose body extends the accumulator. *)
Lemma for_each_extend_spec {A C} (Inv : St -> Prop)
  (body : list C -> A -> M (list C)) (h : A -> list C) (ok : A -> Prop) :
  (forall acc x,
      triple Inv (body acc x)
        (fun r st' => Inv st' /\ r = (acc ++ h x)%list /\ ok x)
        (fun _ st' => Inv st' /\ ~ ok x)) ->
  forall l acc,
    triple Inv (for_each l acc body)
      (fun r st' => Inv st' /\ r = (acc ++ flat_map h l)%list /\ Forall ok l)
      (fun _ st' => Inv st' /\ Exists (fun x => ~ ok x) l).
Proof.
  intros Hbody l. induction l as [| x rest IH]; intros acc st Hinv.
  - cbn. rewrite app_nil_r. auto.
  - cbn [for_each]. unfold bind.
    pose proof (Hbody acc x st Hinv) as Hx.
    destruct (body acc x st) as [[e | acc'] st1].
    + destruct Hx as [Hinv1 Hbad]. split; [assumption|]. left. exact Hbad.
    + destruct Hx as [Hinv1 [Hacc Hok]].
      pose proof (IH acc' st1 Hinv1) as Hrest.
      destruct (for_each rest acc' body st1) as [[e | r] st2].
      * destruct Hrest as [Hinv2 Hbad]. split; [assumption|]. right. exact Hbad.
      * destruct Hrest as [Hinv2 [Hr Hall]]. split; [assumption|]. split.
        -- subst. cbn [flat_map]. rewrite app_assoc. reflexivity.
        -- constructor; assumption.
Qed.

Lemma meta_cells_spec env fp ws sn iv ef sr sc er ec :
  triple (request_inv env fp sn)
    (meta_cells env ws sn iv ef (fe_of env fp ef) (loader_of env fp sn ef)
       sr sc er ec)
    (fun cells st' =>
       request_inv env fp sn st' /\
       cells = region_records env fp ws sn iv ef sr sc er ec /\
       region_ok env ws iv sr sc er ec)
    (fun _ st' =>
       request_inv env fp sn st' /\ ~ region_ok env ws iv sr sc er ec).
Proof.
  unfold meta_cells.
  eapply triple_conseq.
  - apply (for_each_extend_spec (request_inv env fp sn) _
             (fun row => map (record_of env fp ws sn iv ef row) (py_range sc (ec + 1)))
             (fun row => Forall (record_ok env ws iv row) (py_range sc (ec + 1)))).
    intros acc row.
    eapply triple_conseq.
    + apply (for_each_extend_spec (request_inv env fp sn) _
               (fun col => [record_of env fp ws sn iv ef row col])
               (record_ok env ws iv row)).
      intros acc' col st Hinv. unfold bind.
      pose proof (cell_record_spec env fp ws sn iv ef row col st Hinv) as Hs.
      destruct (cell_record env ws sn iv ef (fe_of env fp ef)
                  (loader_of env fp sn ef) row col st) as [[e | cd] st1].
      * exact Hs.
      * destruct Hs as [Hinv1 [Hcd Hok]]. cbn [ret]. subst cd. auto.
    + auto.
    + cbv beta. intros r st [Hinv [Hr Hall]]. rewrite flat_map_singleton in Hr. auto.
    + cbv beta. intros e st [Hinv Hex]. split; [assumption|].
      intros Hall. apply Exists_exists in Hex. destruct Hex as [x [Hin Hbad]].
      rewrite Forall_forall in Hall. auto.
  - auto.
  - cbv beta. intros cells st [Hinv [Hcells Hall]]. split; [assumption|]. split.
    + exact Hcells.
    + intros r c Hr Hc. rewrite Forall_forall in Hall.
      assert (Hrow : In r (py_range sr (er + 1))) by (apply in_py_range; lia).
      specialize (Hall r Hrow). rewrite Forall_forall in Hall.
      apply Hall. apply in_py_range. lia.
  - cbv beta. intros e st [Hinv Hex]. split; [assumption|].
    intros Hok. apply Exists_exists in Hex. destruct Hex as [r [Hin Hbad]].
    apply Hbad. apply Forall_forall. intros c Hc.
    apply in_py_range in Hin, Hc. apply Hok; lia.
Qed.

Ltac run_spec H :=
  match type of H with
  | match ?m with _ => _ end =>
      let e := fresh "e" in
      let a := fresh "a" in
      let st := fresh "st" in
      destruct m as [[e | a] st]
  end.

(** The plain read's loops leave the state as it is. *)
Lemma plain_row_spec ws row sc ec st0 :
  triple (fun st => st = st0)
    (for_each (py_range sc (ec + 1)) []
       (fun row_data col =>
          cell <- ws_cell ws row col ;;
          ret (row_data ++ [value cell])%list))
    (fun row_data st' =>
       st' = st0 /\ row_data = row_values ws row sc ec /\
       Forall (fun col => 1 <= row /\ 1 <= col) (py_range sc (ec + 1)))
    (fun _ st' =>
       st' = st0 /\
       ~ Forall (fun col => 1 <= row /\ 1 <= col) (py_range sc (ec + 1))).
Proof.
  eapply triple_conseq.
  - apply (for_each_extend_spec (fun st => st = st0) _
             (fun col => [value (cell_at ws row col)])
             (fun col => 1 <= row /\ 1 <= col)).
    intros acc x st Hst. unfold bind, ws_cell.
    destruct ((row <? 1) || (x <? 1)) eqn:Hrc; cbn [ret raise].
    + split; [assumption|]. apply below_one_true. exact Hrc.
    + split; [assumption|]. split; [reflexivity|]. apply below_one_false. exact Hrc.
  - auto.
  - cbv beta. intros r st [Hst [Hr Hall]]. rewrite flat_map_singleton in Hr. auto.
  - cbv beta. intros e st [Hst Hex]. split; [assumption|].
    intros Hall. apply Exists_exists in Hex. destruct Hex as [x [Hin Hbad]].
    rewrite Forall_forall in Hall. auto.
Qed.

Lemma plain_rows_spec ws sr sc er ec st0 :
  triple (fun st => st = st0) (plain_rows ws sr sc er ec)
    (fun data st' =>
       st' = st0 /\
       data = filter has_value (region_values ws sr sc er ec) /\
       (forall r c, sr <= r <= er -> sc <= c <= ec -> 1 <= r /\ 1 <= c))
    (fun _ st' =>
       st' = st0 /\
       ~ (forall r c, sr <= r <= er -> sc <= c <= ec -> 1 <= r /\ 1 <= c)).
Proof.
  unfold plain_rows.
  eapply triple_conseq.
  - apply (for_each_extend_spec (fun st => st = st0) _
             (fun row => if has_value (row_values ws row sc ec)
                         then [row_values ws row sc ec] else [])
             (fun row => Forall (fun col => 1 <= row /\ 1 <= col) (py_range sc (ec + 1)))).
    intros acc row st Hst. unfold bind at 1.
    pose proof (plain_row_spec ws row sc ec st0 st Hst) as Hinner.
    run_spec Hinner.
    + exact Hinner.
    + destruct Hinner as [Hst1 [Hrd Hall]]. cbn [ret]. subst a.
      fold (has_value (row_values ws row sc ec)).
      split; [assumption|]. split; [|assumption].
      destruct (has_value (row_values ws row sc ec)); [reflexivity|].
      rewrite app_nil_r. reflexivity.
  - auto.
  - cbv beta. intros data st [Hst [Hdata Hall]]. split; [assumption|]. split.
    + rewrite Hdata. cbn [app]. unfold region_values.
      rewrite <- flat_map_filter. rewrite flat_map_concat_map, flat_map_concat_map.
      rewrite map_map. reflexivity.
    + intros r c Hr Hc. rewrite Forall_forall in Hall.
      assert (Hrow : In r (py_range sr (er + 1))) by (apply in_py_range; lia).
      specialize (Hall r Hrow). rewrite Forall_forall in Hall.
      apply Hall. apply in_py_range. lia.
  - cbv beta. intros e st [Hst Hex]. split; [assumption|].
    intros Hok. apply Exists_exists in Hex. destruct Hex as [r [Hin Hbad]].
    apply Hbad. apply Forall_forall. intros c Hc.
    apply in_py_range in Hin, Hc. apply Hok; lia.
Qed.

Lemma request_inv_attempts env fp sn st :
  request_inv env fp sn st -> (open_attempts ValuesOnly (trace st) <= 1)%nat.
Proof.
  intros [_ Hl]. unfold loader_inv in Hl.
  destruct (fallback_loader_failed st), (wb_values st); try contradiction;
    unfold open_attempts in *.
  - destruct Hl as [_ [H _]]. lia.
  - destruct Hl as [_ [_ [H1 [H2 _]]]]. lia.
  - destruct Hl as [_ [H1 [H2 _]]]. lia.
Qed.

Lemma boundary_warning_run start_cell ws st :
  sheet_cols_ok ws ->
  boundary_warning start_cell ws st =
  (inr tt, logged st (EvLog LWarning (boundary_text start_cell ws))).
Proof.
  intros [Hlo Hhi]. unfold boundary_warning, bind, lift.
  rewrite (get_column_letter_ok _ Hlo), (get_column_letter_ok _ Hhi).
  reflexivity.
Qed.

Lemma boundary_warning_fails start_cell ws st e st' :
  boundary_warning start_cell ws st = (inl e, st') ->
  st' = st /\ ~ sheet_cols_ok ws.
Proof.
  unfold boundary_warning, bind, lift.
  destruct (get_column_letter (min_column ws)) as [e1 | lo] eqn:Hlo.
  - intros H. injection H as <- <-. split; [reflexivity|].
    intros [H1 _]. apply (get_column_letter_inl _ _ Hlo). exact H1.
  - destruct (get_column_letter (max_column ws)) as [e2 | hi] eqn:Hhi.
    + intros H. injection H as <- <-. split; [reflexivity|].
      intros [_ H2]. apply (get_column_letter_inl _ _ Hhi). exact H2.
    + unfold logger, emit. intros H. discriminate.
Qed.

Lemma meta_region_beyond env ws sn iv ef fe loader s sr sc er ec st :
  beyond_bounds ws sr sc = true ->
  sheet_cols_ok ws ->
  meta_region env ws sn iv ef fe loader s sr sc er ec st =
  (inr (mkRangeData (s ++ ":") sn []),
   logged st (EvLog LWarning (boundary_text s ws))).
Proof.
  intros Hb Hcols. unfold meta_region. rewrite Hb. unfold bind.
  rewrite (boundary_warning_run _ _ _ Hcols). reflexivity.
Qed.

Lemma meta_region_inside env fp ws sn iv ef s sr sc er ec :
  beyond_bounds ws sr sc = false ->
  triple (request_inv env fp sn)
    (meta_region env ws sn iv ef (fe_of env fp ef) (loader_of env fp sn ef)
       s sr sc er ec)
    (fun res st' =>
       res = mkRangeData (range_string sr sc er ec) sn
               (region_records env fp ws sn iv ef sr sc er ec) /\
       (1 <= sc <= 18278 /\ 1 <= ec <= 18278 /\ region_ok env ws iv sr sc er ec) /\
       all_closed st' /\ (open_attempts ValuesOnly (trace st') <= 1)%nat)
    (fun _ st' =>
       ~ (1 <= sc <= 18278 /\ 1 <= ec <= 18278 /\ region_ok env ws iv sr sc er ec) /\
       (open_attempts ValuesOnly (trace st') <= 1)%nat).
Proof.
  intros Hb st Hinv. unfold meta_region. rewrite Hb.
  unfold bind at 1. unfold lift at 1.
  destruct (get_column_letter sc) as [e | lo] eqn:Hlo.
  { split; [|apply (request_inv_attempts _ _ _ _ Hinv)].
    intros [H _]. apply (get_column_letter_inl _ _ Hlo). exact H. }
  apply get_column_letter_inr in Hlo. destruct Hlo as [Hsc ->].
  unfold bind at 1. unfold lift at 1.
  destruct (get_column_letter ec) as [e | hi] eqn:Hhi.
  { split; [|apply (request_inv_attempts _ _ _ _ Hinv)].
    intros [_ [H _]]. apply (get_column_letter_inl _ _ Hhi). exact H. }
  apply get_column_letter_inr in Hhi. destruct Hhi as [Hec ->].
  unfold bind at 1.
  pose proof (meta_cells_spec env fp ws sn iv ef sr sc er ec st Hinv) as Hcells.
  run_spec Hcells.
  { destruct Hcells as [Hinv1 Hbad]. split; [|apply (request_inv_attempts _ _ _ _ Hinv1)].
    intros [_ [_ H]]. apply Hbad. exact H. }
  destruct Hcells as [[Hp Hl] [Hcells Hok]]. subst a.
  fold (range_string sr sc er ec).
  unfold bind, close, emit, get_st. st_simpl.
  unfold loader_inv in Hl. destruct Hp as [Hp1 [Hp2 Hp3]].
  unfold all_closed, left_open.
  destruct (wb_values st0) as [wbv |] eqn:Hw; cbn [ret]; st_simpl;
    (split; [reflexivity|]); (split; [auto|]);
    destruct (fallback_loader_failed st0); try contradiction.
  - destruct Hl as [_ [_ [H1 [H2 H3]]]]. count_solve.
    rewrite Hp1, Hp2, H1, H2, H3. cbn. auto.
  - destruct Hl as [_ [H1 H2]]. count_solve.
    rewrite Hp1, Hp2, H2. cbn.
    split; [split; [reflexivity | apply Nat.ltb_irrefl] | lia].
  - destruct Hl as [_ [H1 [H2 H3]]]. count_solve.
    rewrite Hp1, Hp2, H1, H2, H3. cbn. auto.
Qed.

Lemma build_formula_evaluator_run env fp st :
  exists ev,
    _build_formula_evaluator env fp st = (inr (evaluator_of env fp), st) \/
    _build_formula_evaluator env fp st =
      (inr (evaluator_of env fp), logged st (EvLog (fst ev) (snd ev))).
Proof.
  unfold _build_formula_evaluator, evaluator_of, bind, logger, emit, logged.
  destruct (xlcalculator env) as [compile |].
  - destruct (compile fp) as [exc | ev].
    + eexists (LWarning, _). right. cbn. reflexivity.
    + exists (LDebug, ""). left. reflexivity.
  - eexists (LDebug, _). right. cbn. reflexivity.
Qed.

Lemma logged_request_inv env fp sn st lvl msg :
  request_inv env fp sn st -> request_inv env fp sn (logged st (EvLog lvl msg)).
Proof. intros H. apply (logger_request_inv env fp sn lvl msg st H). Qed.

Lemma opened_request_inv env fp sn :
  request_inv env fp sn (mkSt [EvOpen Primary] None None false).
Proof.
  split.
  - repeat split; reflexivity.
  - unfold loader_inv. cbn. repeat split; reflexivity.
Qed.

(** The setup of the metadata read: the evaluator and the loader. *)
Lemma meta_setup_run env fp sn (ef : bool) :
  exists st1,
    request_inv env fp sn st1 /\ open_attempts ValuesOnly (trace st1) = 0%nat /\
    (if ef
     then formula_evaluator <- _build_formula_evaluator env fp ;;
          ret (formula_evaluator, Some (_get_cached_value env fp sn))
     else ret (@None evaluator, @None (Z -> Z -> M pyval)))
      (mkSt [EvOpen Primary] None None false)
    = (inr (fe_of env fp ef, loader_of env fp sn ef), st1).
Proof.
  destruct ef; cbn [fe_of loader_of].
  - unfold bind.
    destruct (build_formula_evaluator_run env fp (mkSt [EvOpen Primary] None None false))
      as [[lvl msg] [H | H]]; rewrite H; cbn [ret]; eexists;
      (split; [|split; [|reflexivity]]).
    + apply opened_request_inv.
    + reflexivity.
    + apply logged_request_inv, opened_request_inv.
    + reflexivity.
  - eexists. split; [apply opened_request_inv|]. split; reflexivity.
Qed.

(** The metadata read up to its region: it stops early, with no attempt
    on the data-only view, or it reaches [meta_region] in a state that
    satisfies the invariant. *)
Lemma read_meta_try_cases env fp sn start end_ iv ef :
  (exists e st',
      read_excel_range_with_metadata_try env fp sn start end_ iv ef init_st
      = (inl e, st') /\
      open_attempts ValuesOnly (trace st') = 0%nat /\
      (forall wb ws s' e' b,
          load_formulas env fp = inr wb -> find_sheet wb sn = Some ws ->
          split_refs start end_ = inr (s', e') ->
          meta_bounds ws s' e' = inr b -> False))
  \/
  (exists wb ws s' e' sr sc er ec st1,
      load_formulas env fp = inr wb /\ find_sheet wb sn = Some ws /\
      split_refs start end_ = inr (s', e') /\
      meta_bounds ws s' e' = inr (sr, sc, er, ec) /\
      request_inv env fp sn st1 /\
      read_excel_range_with_metadata_try env fp sn start end_ iv ef init_st
      = meta_region env ws sn iv ef (fe_of env fp ef) (loader_of env fp sn ef)
          s' sr sc er ec st1).
Proof.
  remember (read_excel_range_with_metadata_try env fp sn start end_ iv ef init_st)
    as run eqn:Hrun.
  unfold read_excel_range_with_metadata_try in Hrun.
  unfold bind at 1 in Hrun. unfold resolve_path in Hrun.
  destruct (load_formulas env fp) as [e0 | wb] eqn:Hload.
  { left. destruct (resolve_error env fp) as [e1 |].
    - cbn in Hrun. do 2 eexists. split; [exact Hrun|]. split; [reflexivity|].
      intros; discriminate.
    - cbn [ret] in Hrun. unfold bind at 1 in Hrun. unfold load_workbook in Hrun.
      rewrite Hload in Hrun. cbn in Hrun.
      do 2 eexists. split; [exact Hrun|]. split; [reflexivity|].
      intros; discriminate. }
  cbn [ret] in Hrun. unfold bind at 1 in Hrun. unfold load_workbook in Hrun.
  rewrite Hload in Hrun.
  cbn [bind emit ret init_st trace wb_values ws_values fallback_loader_failed app]
    in Hrun.
  unfold bind at 1 in Hrun. unfold set_wb_values at 1 in Hrun.
  cbn [trace wb_values ws_values fallback_loader_failed] in Hrun.
  unfold bind at 1 in Hrun. unfold set_ws_values at 1 in Hrun.
  cbn [trace wb_values ws_values fallback_loader_failed] in Hrun.
  unfold bind at 1 in Hrun. unfold set_fallback_loader_failed at 1 in Hrun.
  cbn [trace wb_values ws_values fallback_loader_failed] in Hrun.
  destruct (meta_setup_run env fp sn ef) as [st1 [Hinv [Hatt Hsetup]]].
  unfold bind at 1 in Hrun. rewrite Hsetup in Hrun.
  destruct (in_names sn (sheetnames wb)) eqn:Hin; cbn [negb] in Hrun.
  2:{ left. cbn [raise] in Hrun. do 2 eexists. split; [exact Hrun|].
      split; [assumption|].
      intros wb' ws s' e' b Hwb Hfind. injection Hwb as <-.
      apply find_sheet_in_names in Hfind. congruence. }
  destruct (in_names_find_sheet _ _ Hin) as [ws Hfind].
  unfold bind at 1 in Hrun. unfold wb_getitem in Hrun. rewrite Hfind in Hrun.
  cbn [ret] in Hrun.
  unfold bind at 1 in Hrun. unfold lift at 1 in Hrun.
  destruct (split_refs start end_) as [e1 | [s' e']] eqn:Hsplit.
  { left. do 2 eexists. split; [exact Hrun|]. split; [assumption|].
    intros; discriminate. }
  unfold bind at 1 in Hrun. unfold lift at 1 in Hrun.
  destruct (meta_bounds ws s' e') as [e2 | [[[sr sc] er] ec]] eqn:Hbounds.
  { left. do 2 eexists. split; [exact Hrun|]. split; [assumption|].
    intros wb' ws' s'' e'' b Hwb Hfind' Hs Hb.
    injection Hwb as <-. rewrite Hfind in Hfind'. injection Hfind' as <-.
    injection Hs as <- <-. congruence. }
  right. exists wb, ws, s', e', sr, sc, er, ec, st1.
  repeat match goal with |- _ /\ _ => split end; try assumption; reflexivity.
Qed.

(** ** The handlers of an operation *)

Lemma operation_boundary_inr {A} (failed_to : string) (m : M A) st a st' :
  m st = (inr a, st') -> operation_boundary failed_to m st = (inr a, st').
Proof. intros H. unfold operation_boundary, try_except. rewrite H. reflexivity. Qed.

Lemma operation_boundary_inl {A} (failed_to : string) (m : M A) st e st' :
  m st = (inl e, st') ->
  exists text,
    operation_boundary failed_to m st
    = (inl (DataError (str_exn e)), logged st' (EvLog LError text)).
Proof.
  intros H. unfold operation_boundary, try_except. rewrite H.
  destruct e; unfold bind, logger, emit, raise, logged; cbn [str_exn];
    eexists; reflexivity.
Qed.

Lemma operation_boundary_inv_inr {A} (failed_to : string) (m : M A) st a st' :
  operation_boundary failed_to m st = (inr a, st') -> m st = (inr a, st').
Proof.
  intros H. destruct (m st) as [[e | a0] st0] eqn:Hm.
  - destruct (operation_boundary_inl failed_to m st e st0 Hm) as [text Ht].
    rewrite Ht in H. discriminate.
  - rewrite (operation_boundary_inr failed_to m st a0 st0 Hm) in H. exact H.
Qed.

(** ** The region of the metadata read *)

Lemma primary_open_left_open st ev :
  primary_open st -> is_open Primary ev = false -> is_close Primary ev = false ->
  left_open Primary (trace (logged st ev)) = true.
Proof.
  intros [H1 [H2 _]] Ho Hc. unfold left_open, opens, closes, logged in *.
  cbn [trace]. rewrite !count_snoc, Ho, Hc, H1, H2. reflexivity.
Qed.

Lemma meta_region_beyond_inv env ws sn iv ef fe loader s sr sc er ec st res st' :
  beyond_bounds ws sr sc = true ->
  meta_region env ws sn iv ef fe loader s sr sc er ec st = (inr res, st') ->
  sheet_cols_ok ws /\ res = mkRangeData (s ++ ":") sn [] /\
  st' = logged st (EvLog LWarning (boundary_text s ws)).
Proof.
  intros Hb Hrun. unfold meta_region in Hrun. rewrite Hb in Hrun.
  unfold bind in Hrun.
  destruct (boundary_warning s ws st) as [[e | u] st1] eqn:Hw; [discriminate|].
  assert (Hcols : sheet_cols_ok ws).
  { unfold boundary_warning, bind, lift in Hw.
    destruct (get_column_letter (min_column ws)) as [e1 | lo] eqn:Hlo; [discriminate|].
    destruct (get_column_letter (max_column ws)) as [e2 | hi] eqn:Hhi; [discriminate|].
    apply get_column_letter_inr in Hlo, Hhi. split; tauto. }
  rewrite (boundary_warning_run _ _ _ Hcols) in Hw. injection Hw as <- <-.
  cbn [ret] in Hrun. injection Hrun as <- <-. auto.
Qed.

(** What a metadata read that returns has done. *)
Lemma read_meta_inr env fp sn start end_ iv ef res st' :
  run (read_excel_range_with_metadata env fp sn start end_ iv ef) = (inr res, st') ->
  exists wb ws s' e' sr sc er ec,
    load_formulas env fp = inr wb /\ find_sheet wb sn = Some ws /\
    split_refs start end_ = inr (s', e') /\
    meta_bounds ws s' e' = inr (sr, sc, er, ec) /\
    ((beyond_bounds ws sr sc = true /\
      res = mkRangeData (s' ++ ":") sn [] /\
      sheet_cols_ok ws /\
      (exists st1, st' = logged st1 (EvLog LWarning (boundary_text s' ws))) /\
      left_open Primary (trace st') = true)
     \/
     (beyond_bounds ws sr sc = false /\
      res = mkRangeData (range_string sr sc er ec) sn
              (region_records env fp ws sn iv ef sr sc er ec) /\
      (1 <= sc <= 18278 /\ 1 <= ec <= 18278 /\ region_ok env ws iv sr sc er ec) /\
      all_closed st')).
Proof.
  unfold run, read_excel_range_with_metadata. intros Hrun.
  apply operation_boundary_inv_inr in Hrun.
  destruct (read_meta_try_cases env fp sn start end_ iv ef)
    as [[e [st0 [Hfail _]]] | [wb [ws [s' [e' [sr [sc [er [ec [st1 H]]]]]]]]]].
  { rewrite Hfail in Hrun. discriminate. }
  destruct H as [Hload [Hfind [Hsplit [Hbounds [Hinv Heq]]]]].
  rewrite Heq in Hrun.
  exists wb, ws, s', e', sr, sc, er, ec.
  repeat match goal with |- _ /\ _ => split end; try assumption.
  destruct (beyond_bounds ws sr sc) eqn:Hb.
  - left. destruct (meta_region_beyond_inv _ _ _ _ _ _ _ _ _ _ _ _ _ _ _ Hb Hrun)
      as [Hcols [Hres Hst]].
    repeat match goal with |- _ /\ _ => split end; try assumption; try reflexivity.
    + exists st1. exact Hst.
    + rewrite Hst. apply primary_open_left_open; [apply Hinv | reflexivity | reflexivity].
  - right. split; [reflexivity|].
    pose proof (meta_region_inside env fp ws sn iv ef s' sr sc er ec Hb st1 Hinv) as Hs.
    rewrite Hrun in Hs. destruct Hs as [Hres [Hok [Hclosed _]]]. auto.
Qed.

(** When a metadata read returns. *)
Lemma read_meta_returns env fp sn start end_ iv ef wb ws s' e' sr sc er ec :
  load_formulas env fp = inr wb -> find_sheet wb sn = Some ws ->
  split_refs start end_ = inr (s', e') ->
  meta_bounds ws s' e' = inr (sr, sc, er, ec) ->
  (if beyond_bounds ws sr sc then sheet_cols_ok ws
   else 1 <= sc <= 18278 /\ 1 <= ec <= 18278 /\ region_ok env ws iv sr sc er ec) ->
  exists res st',
    run (read_excel_range_with_metadata env fp sn start end_ iv ef) = (inr res, st').
Proof.
  intros Hload Hfind Hsplit Hbounds Hok.
  unfold run, read_excel_range_with_metadata.
  destruct (read_meta_try_cases env fp sn start end_ iv ef)
    as [[e [st0 [_ [_ Hno]]]] | [wb' [ws' [s'' [e'' [sr' [sc' [er' [ec' [st1 H]]]]]]]]]].
  { exfalso. eapply Hno; eassumption. }
  destruct H as [Hload' [Hfind' [Hsplit' [Hbounds' [Hinv Heq]]]]].
  rewrite Hload in Hload'. injection Hload' as <-.
  rewrite Hfind in Hfind'. injection Hfind' as <-.
  rewrite Hsplit in Hsplit'. injection Hsplit' as <- <-.
  rewrite Hbounds in Hbounds'. injection Hbounds' as <- <- <- <-.
  destruct (beyond_bounds ws sr sc) eqn:Hb.
  - do 2 eexists. apply operation_boundary_inr. rewrite Heq.
    apply meta_region_beyond; assumption.
  - pose proof (meta_region_inside env fp ws sn iv ef s' sr sc er ec Hb st1 Hinv) as Hs.
    destruct (meta_region env ws sn iv ef (fe_of env fp ef) (loader_of env fp sn ef)
                s' sr sc er ec st1) as [[e | res] st2] eqn:Hrun.
    + destruct Hs as [Hbad _]. contradiction.
    + do 2 eexists. apply operation_boundary_inr. exact Heq.
Qed.

(** Whatever a metadata read does, it tries the data-only view at most
    once. *)
Lemma read_meta_attempts env fp sn start end_ iv ef out st' :
  run (read_excel_range_with_metadata env fp sn start end_ iv ef) = (out, st') ->
  (open_attempts ValuesOnly (trace st') <= 1)%nat.
Proof.
  unfold run, read_excel_range_with_metadata. intros Hrun.
  assert (Htry : forall o st0,
    read_excel_range_with_metadata_try env fp sn start end_ iv ef init_st = (o, st0) ->
    (open_attempts ValuesOnly (trace st0) <= 1)%nat).
  { intros o st0 H0.
    destruct (read_meta_try_cases env fp sn start end_ iv ef)
      as [[e [st1 [Hfail [Hatt _]]]] | [wb [ws [s' [e' [sr [sc [er [ec [st1 H]]]]]]]]]].
    - rewrite Hfail in H0. injection H0 as <- <-. lia.
    - destruct H as [_ [_ [_ [_ [Hinv Heq]]]]]. rewrite Heq in H0.
      destruct (beyond_bounds ws sr sc) eqn:Hb.
      + unfold meta_region in H0. rewrite Hb in H0. unfold bind in H0.
        destruct (boundary_warning s' ws st1) as [[e | u] st2] eqn:Hw.
        * apply boundary_warning_fails in Hw. destruct Hw as [-> _].
          injection H0 as <- <-. eapply request_inv_attempts; eassumption.
        * cbn [ret] in H0. injection H0 as <- <-.
          unfold boundary_warning, bind, lift in Hw.
          destruct (get_column_letter (min_column ws)); [discriminate|].
          destruct (get_column_letter (max_column ws)); [discriminate|].
          unfold logger, emit in Hw. injection Hw as Hu Hst2. subst st2.
          apply (request_inv_attempts env fp sn).
          exact (logged_request_inv env fp sn st1 LWarning _ Hinv).
      + pose proof (meta_region_inside env fp ws sn iv ef s' sr sc er ec Hb st1 Hinv) as Hs.
        rewrite H0 in Hs. destruct o; [destruct Hs as [_ Hs] | destruct Hs as [_ [_ [_ Hs]]]];
          exact Hs. }
  destruct (read_excel_range_with_metadata_try env fp sn start end_ iv ef init_st)
    as [[e | a] st0] eqn:Hm.
  - destruct (operation_boundary_inl "Failed to read Excel range with metadata: "
                _ _ _ _ Hm) as [text Ht].
    rewrite Ht in Hrun. injection Hrun as <- <-.
    specialize (Htry _ _ eq_refl).
    unfold open_attempts, opens, open_failures, logged in *. cbn [trace].
    rewrite !count_snoc. cbn. lia.
  - rewrite (operation_boundary_inr _ _ _ _ _ Hm) in Hrun. injection Hrun as <- <-.
    apply (Htry _ _ eq_refl).
Qed.

(** ** The plain read *)

Lemma plain_region_beyond ws s sr sc er ec st :
  beyond_bounds ws sr sc = true ->
  sheet_cols_ok ws ->
  plain_region ws s sr sc er ec st =
  (inr [], logged st (EvLog LWarning (boundary_text s ws))).
Proof.
  intros Hb Hcols. unfold plain_region. rewrite Hb. unfold bind.
  rewrite (boundary_warning_run _ _ _ Hcols). reflexivity.
Qed.

Lemma plain_region_beyond_inv ws s sr sc er ec st rows st' :
  beyond_bounds ws sr sc = true ->
  plain_region ws s sr sc er ec st = (inr rows, st') ->
  sheet_cols_ok ws /\ rows = [] /\
  st' = logged st (EvLog LWarning (boundary_text s ws)).
Proof.
  intros Hb Hrun. unfold plain_region in Hrun. rewrite Hb in Hrun.
  unfold bind in Hrun.
  destruct (boundary_warning s ws st) as [[e | u] st1] eqn:Hw; [discriminate|].
  assert (Hcols : sheet_cols_ok ws).
  { unfold boundary_warning, bind, lift in Hw.
    destruct (get_column_letter (min_column ws)) as [e1 | lo] eqn:Hlo; [discriminate|].
    destruct (get_column_letter (max_column ws)) as [e2 | hi] eqn:Hhi; [discriminate|].
    apply get_column_letter_inr in Hlo, Hhi. split; tauto. }
  rewrite (boundary_warning_run _ _ _ Hcols) in Hw. injection Hw as <- <-.
  cbn [ret] in Hrun. injection Hrun as <- <-. auto.
Qed.

Lemma plain_region_inside ws s sr sc er ec st :
  beyond_bounds ws sr sc = false ->
  match plain_region ws s sr sc er ec st with
  | (inr rows, st') =>
      rows = filter has_value (region_values ws sr sc er ec) /\
      st' = logged st (EvClose Primary) /\
      (forall r c, sr <= r <= er -> sc <= c <= ec -> 1 <= r /\ 1 <= c)
  | (inl _, st') =>
      st' = st /\
      ~ (forall r c, sr <= r <= er -> sc <= c <= ec -> 1 <= r /\ 1 <= c)
  end.
Proof.
  intros Hb. unfold plain_region. rewrite Hb. unfold bind at 1.
  pose proof (plain_rows_spec ws sr sc er ec st st eq_refl) as Hs.
  run_spec Hs.
  - exact Hs.
  - destruct Hs as [-> [-> Hok]]. unfold bind, close, emit. cbn [ret].
    split; [reflexivity|]. split; [reflexivity|]. exact Hok.
Qed.

(** The plain read up to its region. *)
Lemma read_plain_try_cases env fp sn start end_ :
  (exists e st',
      read_excel_range_try env fp sn start end_ init_st = (inl e, st') /\
      (forall wb ws s' e' b,
          load_formulas env fp = inr wb -> find_sheet wb sn = Some ws ->
          split_refs start end_ = inr (s', e') ->
          plain_bounds ws s' e' = inr b -> False))
  \/
  (exists wb ws s' e' sr sc er ec,
      load_formulas env fp = inr wb /\ find_sheet wb sn = Some ws /\
      split_refs start end_ = inr (s', e') /\
      plain_bounds ws s' e' = inr (sr, sc, er, ec) /\
      read_excel_range_try env fp sn start end_ init_st
      = plain_region ws s' sr sc er ec (mkSt [EvOpen Primary] None None false)).
Proof.
  remember (read_excel_range_try env fp sn start end_ init_st) as run eqn:Hrun.
  unfold read_excel_range_try in Hrun.
  unfold bind at 1 in Hrun. unfold load_workbook in Hrun.
  destruct (load_formulas env fp) as [e0 | wb] eqn:Hload.
  { left. cbn in Hrun. do 2 eexists. split; [exact Hrun|]. intros; discriminate. }
  cbn [bind emit ret init_st trace wb_values ws_values fallback_loader_failed app]
    in Hrun.
  destruct (in_names sn (sheetnames wb)) eqn:Hin; cbn [negb] in Hrun.
  2:{ left. cbn [raise] in Hrun. do 2 eexists. split; [exact Hrun|].
      intros wb' ws s' e' b Hwb Hfind. injection Hwb as <-.
      apply find_sheet_in_names in Hfind. congruence. }
  destruct (in_names_find_sheet _ _ Hin) as [ws Hfind].
  unfold bind at 1 in Hrun. unfold wb_getitem in Hrun. rewrite Hfind in Hrun.
  cbn [ret] in Hrun.
  unfold bind at 1 in Hrun. unfold lift at 1 in Hrun.
  destruct (split_refs start end_) as [e1 | [s' e']] eqn:Hsplit.
  { left. do 2 eexists. split; [exact Hrun|]. intros; discriminate. }
  unfold bind at 1 in Hrun. unfold lift at 1 in Hrun.
  destruct (plain_bounds ws s' e') as [e2 | [[[sr sc] er] ec]] eqn:Hbounds.
  { left. do 2 eexists. split; [exact Hrun|].
    intros wb' ws' s'' e'' b Hwb Hfind' Hs Hb.
    injection Hwb as <-. rewrite Hfind in Hfind'. injection Hfind' as <-.
    injection Hs as <- <-. congruence. }
  right. exists wb, ws, s', e', sr, sc, er, ec.
  repeat match goal with |- _ /\ _ => split end; try assumption; reflexivity.
Qed.

(** What a plain read that returns has done. *)
Lemma read_plain_inr env fp sn start end_ rows st' :
  run (read_excel_range env fp sn start end_) = (inr rows, st') ->
  exists wb ws s' e' sr sc er ec,
    load_formulas env fp = inr wb /\ find_sheet wb sn = Some ws /\
    split_refs start end_ = inr (s', e') /\
    plain_bounds ws s' e' = inr (sr, sc, er, ec) /\
    ((beyond_bounds ws sr sc = true /\ rows = [] /\ sheet_cols_ok ws /\
      (exists st1, st' = logged st1 (EvLog LWarning (boundary_text s' ws))) /\
      left_open Primary (trace st') = true)
     \/
     (beyond_bounds ws sr sc = false /\
      rows = filter has_value (region_values ws sr sc er ec) /\
      left_open Primary (trace st') = false)).
Proof.
  unfold run, read_excel_range. intros Hrun.
  apply operation_boundary_inv_inr in Hrun.
  destruct (read_plain_try_cases env fp sn start end_)
    as [[e [st0 [Hfail _]]] | [wb [ws [s' [e' [sr [sc [er [ec H]]]]]]]]].
  { rewrite Hfail in Hrun. discriminate. }
  destruct H as [Hload [Hfind [Hsplit [Hbounds Heq]]]].
  rewrite Heq in Hrun.
  exists wb, ws, s', e', sr, sc, er, ec.
  repeat match goal with |- _ /\ _ => split end; try assumption.
  destruct (beyond_bounds ws sr sc) eqn:Hb.
  - left. destruct (plain_region_beyond_inv _ _ _ _ _ _ _ _ _ Hb Hrun)
      as [Hcols [Hres Hst]].
    repeat match goal with |- _ /\ _ => split end; try assumption; try reflexivity.
    + eexists. exact Hst.
    + rewrite Hst. reflexivity.
  - right. split; [reflexivity|].
    pose proof (plain_region_inside ws s' sr sc er ec
                  (mkSt [EvOpen Primary] None None false) Hb) as Hs.
    rewrite Hrun in Hs. destruct Hs as [Hrows [Hst _]].
    split; [assumption|]. rewrite Hst. reflexivity.
Qed.

(** When a plain read returns. *)
Lemma read_plain_returns env fp sn start end_ wb ws s' e' sr sc er ec :
  load_formulas env fp = inr wb -> find_sheet wb sn = Some ws ->
  split_refs start end_ = inr (s', e') ->
  plain_bounds ws s' e' = inr (sr, sc, er, ec) ->
  (if beyond_bounds ws sr sc then sheet_cols_ok ws
   else forall r c, sr <= r <= er -> sc <= c <= ec -> 1 <= r /\ 1 <= c) ->
  exists st',
    run (read_excel_range env fp sn start end_)
    = (inr (if beyond_bounds ws sr sc then []
            else filter has_value (region_values ws sr sc er ec)), st') /\
    (beyond_bounds ws sr sc = true ->
     exists st1, st' = logged st1 (EvLog LWarning (boundary_text s' ws))).
Proof.
  intros Hload Hfind Hsplit Hbounds Hok.
  unfold run, read_excel_range.
  destruct (read_plain_try_cases env fp sn start end_)
    as [[e [st0 [_ Hno]]] | [wb' [ws' [s'' [e'' [sr' [sc' [er' [ec' H]]]]]]]]].
  { exfalso. eapply Hno; eassumption. }
  destruct H as [Hload' [Hfind' [Hsplit' [Hbounds' Heq]]]].
  rewrite Hload in Hload'. injection Hload' as <-.
  rewrite Hfind in Hfind'. injection Hfind' as <-.
  rewrite Hsplit in Hsplit'. injection Hsplit' as <- <-.
  rewrite Hbounds in Hbounds'. injection Hbounds' as <- <- <- <-.
  destruct (beyond_bounds ws sr sc) eqn:Hb.
  - eexists. split.
    + apply operation_boundary_inr. rewrite Heq.
      apply plain_region_beyond; assumption.
    + intros _. eexists. reflexivity.
  - pose proof (plain_region_inside ws s' sr sc er ec
                  (mkSt [EvOpen Primary] None None false) Hb) as Hs.
    destruct (plain_region ws s' sr sc er ec (mkSt [EvOpen Primary] None None false))
      as [[e | rows] st2] eqn:Hrun.
    + destruct Hs as [_ Hbad]. contradiction.
    + destruct Hs as [-> _]. eexists. split.
      * apply operation_boundary_inr. exact Heq.
      * intros; discriminate.
Qed.

(** ** Regions *)

Lemma in_region_records env fp ws sn iv ef sr sc er ec rec :
  In rec (region_records env fp ws sn iv ef sr sc er ec) ->
  exists r c, sr <= r <= er /\ sc <= c <= ec /\
              rec = record_of env fp ws sn iv ef r c.
Proof.
  unfold region_records. rewrite in_flat_map.
  intros [r [Hr Hin]]. apply in_map_iff in Hin. destruct Hin as [c [Hrec Hc]].
  apply in_py_range in Hr, Hc. exists r, c. repeat split; try lia. auto.
Qed.

Lemma region_records_in env fp ws sn iv ef sr sc er ec r c :
  sr <= r <= er -> sc <= c <= ec ->
  In (record_of env fp ws sn iv ef r c)
     (region_records env fp ws sn iv ef sr sc er ec).
Proof.
  intros Hr Hc. unfold region_records. rewrite in_flat_map.
  exists r. split; [apply in_py_range; lia|].
  apply in_map. apply in_py_range. lia.
Qed.

Lemma length_flat_map_const {A B} (f : A -> list B) (n : nat) (l : list A) :
  (forall x, List.length (f x) = n) ->
  List.length (flat_map f l) = (List.length l * n)%nat.
Proof.
  intros H. induction l as [| x l IH]; cbn [flat_map]; [reflexivity|].
  rewrite length_app, H, IH. cbn [List.length]. lia.
Qed.

Lemma length_region_records env fp ws sn iv ef sr sc er ec :
  sr <= er -> sc <= ec ->
  Z.of_nat (List.length (region_records env fp ws sn iv ef sr sc er ec))
  = (er - sr + 1) * (ec - sc + 1).
Proof.
  intros Hr Hc. unfold region_records.
  rewrite (length_flat_map_const _ (Z.to_nat (ec + 1 - sc))).
  - rewrite length_py_range. nia.
  - intros x. rewrite length_map, length_py_range. reflexivity.
Qed.

(** * The claims *)

Lemma evaluator_yield_first ev sn addr v :
  ev (sn ++ "!" ++ addr) = inr v -> v <> PyNone ->
  evaluator_yield (Some ev) sn addr = Some v.
Proof.
  intros H Hv. unfold evaluator_yield. rewrite H.
  destruct v; try reflexivity. contradiction.
Qed.

(** C1, as the code has it.  A cell read with formula evaluation.  When
    the read takes the cell for a formula (its stored value is a string,
    and the cell is typed as a formula or the string starts with "="):
    when the evaluator yields a value that is not None for the cell, the
    read reports it (in particular the value of the token sheet!address);
    when it yields nothing and the data-only view holds a value that is
    not None at (row, col), the read reports that cached value; otherwise it
    reports the text of the formula as it is.  The evaluator yields
    nothing when there is none, and when it raises anything but KeyError on
    the first token.  A cell typed as a formula whose stored value is not
    a string (an array formula) is not taken for a formula: with an
    evaluator the read reports its stored value, whatever the evaluator
    yields for it, and without one the cached value that is not None, or
    else its stored value. *)
Theorem formula_resolution_precedence
  (env : Env) (fp sn start : string) (end_ : option string) (iv : bool)
  (res : range_data) (st' : St) (wb : workbook) (ws : worksheet)
  (rec : cell_data) :
  run (read_excel_range_with_metadata env fp sn start end_ iv true) = (inr res, st') ->
  load_formulas env fp = inr wb ->
  find_sheet wb sn = Some ws ->
  In rec (cells res) ->
  let c := cell_at ws (cd_row rec) (cd_column rec) in
  let yielded := evaluator_yield (evaluator_of env fp) sn (address rec) in
  let cached := cached_value env fp sn (cd_row rec) (cd_column rec) in
  (forall text, formula_text_of c = Some text ->
     (forall ev v, evaluator_of env fp = Some ev ->
                   ev (sn ++ "!" ++ address rec) = inr v -> v <> PyNone ->
                   cd_value rec = v) /\
     (forall v, yielded = Some v -> cd_value rec = v) /\
     (yielded = None -> cached <> PyNone -> cd_value rec = cached) /\
     (yielded = None -> cached = PyNone -> cd_value rec = PyStr text) /\
     (forall ev e, evaluator_of env fp = Some ev ->
                   ev (sn ++ "!" ++ address rec) = inl e -> is_KeyError e = false ->
                   yielded = None) /\
     (evaluator_of env fp = None -> yielded = None)) /\
  ((exists text, formula_text_of c = Some text) <->
   (exists s, value c = PyStr s /\
              (data_type c = "f" \/ startswith_eq s = true))) /\
  (data_type c = "f" -> (forall s, value c <> PyStr s) ->
   formula_text_of c = None /\
   (forall ev, evaluator_of env fp = Some ev -> cd_value rec = value c) /\
   (evaluator_of env fp = None ->
    cd_value rec = if is_none cached then value c else cached)).
Proof.
  intros Hrun Hload Hfind Hin c yielded cached.
  destruct (read_meta_inr _ _ _ _ _ _ _ _ _ Hrun)
    as [wb' [ws' [s' [e' [sr [sc [er [ec [Hload' [Hfind' [_ [_ Hcase]]]]]]]]]]]].
  rewrite Hload in Hload'. injection Hload' as <-.
  rewrite Hfind in Hfind'. injection Hfind' as <-.
  destruct Hcase as [[_ [Hres _]] | [_ [Hres _]]].
  { subst res. contradiction. }
  subst res. cbn [cells] in Hin.
  apply in_region_records in Hin. destruct Hin as [r [c0 [_ [_ Hrec]]]].
  assert (Hreported : cd_value rec =
    reported_value true (evaluator_of env fp) sn (address rec) cached c).
  { subst rec. reflexivity. }
  split; [|split].
  - intros text Htext.
    assert (Hvalue : cd_value rec =
      match yielded with
      | Some v => v
      | None => if is_none cached then PyStr text else cached
      end).
    { rewrite Hreported. unfold reported_value. rewrite Htext. reflexivity. }
    assert (Hrest :
      (forall v, yielded = Some v -> cd_value rec = v) /\
      (yielded = None -> cached <> PyNone -> cd_value rec = cached) /\
      (yielded = None -> cached = PyNone -> cd_value rec = PyStr text)).
    { rewrite Hvalue. repeat split.
      - intros v ->. reflexivity.
      - intros -> Hc. destruct cached; try reflexivity. contradiction.
      - intros -> ->. reflexivity. }
    destruct Hrest as [Hyield [Hcached Htext']].
    repeat match goal with |- _ /\ _ => split end; try assumption.
    + intros ev v Hev Htok Hv. apply Hyield. unfold yielded. rewrite Hev.
      apply evaluator_yield_first; assumption.
    + intros ev e Hev Htok He. unfold yielded, evaluator_yield.
      rewrite Hev, Htok, He. reflexivity.
    + intros Hev. unfold yielded. rewrite Hev. reflexivity.
  - unfold formula_text_of. split.
    + intros [text H]. destruct (value c) as [| b | z | s | o] eqn:Hv;
        try (destruct (String.eqb (data_type c) "f"); discriminate).
      exists s. split; [reflexivity|].
      destruct (String.eqb (data_type c) "f") eqn:Hf.
      * left. apply String.eqb_eq. exact Hf.
      * right. destruct (startswith_eq s); [reflexivity | discriminate].
    + intros [s [Hv Hkind]]. exists s. rewrite Hv.
      destruct (String.eqb (data_type c) "f") eqn:Hf; [reflexivity|].
      destruct Hkind as [Ht | Hs].
      * apply String.eqb_eq in Ht. congruence.
      * rewrite Hs. reflexivity.
  - intros Hf Hobj.
    assert (Hnone : formula_text_of c = None).
    { unfold formula_text_of. apply String.eqb_eq in Hf. rewrite Hf.
      destruct (value c) as [| b | z | s | o] eqn:Hv; try reflexivity.
      exfalso. apply (Hobj s). reflexivity. }
    split; [exact Hnone|]. split.
    + intros ev Hev. rewrite Hreported. unfold reported_value.
      rewrite Hnone, Hev. reflexivity.
    + intros Hev. rewrite Hreported. unfold reported_value.
      rewrite Hnone, Hev. reflexivity.
Qed.

Lemma formula_resolution_precedence_witness :
  cd_value ex_record_A3 = PyInt 5.
Proof.
  assert (Hrun : run (read_excel_range_with_metadata ex_env "book.xlsx" "Data"
                        "A1" None false true)
                 = (inr ex_meta_result, snd ex_meta_read))
    by (vm_compute; reflexivity).
  assert (Hin : In ex_record_A3 (cells ex_meta_result))
    by (vm_compute; tauto).
  destruct (formula_resolution_precedence ex_env "book.xlsx" "Data" "A1" None false
              ex_meta_result (snd ex_meta_read) ex_book ex_data ex_record_A3
              Hrun eq_refl eq_refl Hin)
    as [Hchain _].
  destruct (Hchain "=SUM(A1:A2)" eq_refl) as [_ [_ [Hcached _]]].
  apply Hcached.
  - vm_compute. reflexivity.
  - vm_compute. discriminate.
Defined.

(** The claim as the spec has it fails on a cell that is typed as a
    formula and holds an array formula: the evaluator yields 7 for the
    cell and the data-only view holds 7, and the read reports the stored
    object. *)
Lemma array_formula_reported_as_stored :
  data_type (cell_at ex_array 1 1) = "f" /\
  evaluator_yield (evaluator_of ex_array_env "book.xlsx") "Arr" "A1" = Some (PyInt 7) /\
  cached_value ex_array_env "book.xlsx" "Arr" 1 1 = PyInt 7 /\
  exists st' rec,
    run (read_excel_range_with_metadata ex_array_env "book.xlsx" "Arr" "A1" None
           false true)
    = (inr (mkRangeData "A1:A1" "Arr" [rec]), st') /\
    address rec = "A1" /\
    cd_value rec = value (cell_at ex_array 1 1) /\
    cd_value rec <> PyInt 7.
Proof.
  split; [reflexivity|]. split; [reflexivity|]. split; [reflexivity|].
  do 2 eexists. split; [vm_compute; reflexivity|].
  split; [reflexivity|]. split; [reflexivity|]. discriminate.
Qed.

(** C10.  Formula evaluation asked for and no evaluator built: a cell that
    the read does not take for a formula is reported with the value the
    data-only view holds for it when that value is not None, and with its
    own stored value otherwise; a cell taken for a formula goes through the
    formula chain, which here gives the cached value or else the formula
    text. *)
Theorem loader_consulted_without_evaluator
  (env : Env) (fp sn start : string) (end_ : option string) (iv : bool)
  (res : range_data) (st' : St) (wb : workbook) (ws : worksheet)
  (rec : cell_data) :
  run (read_excel_range_with_metadata env fp sn start end_ iv true) = (inr res, st') ->
  load_formulas env fp = inr wb ->
  find_sheet wb sn = Some ws ->
  evaluator_of env fp = None ->
  In rec (cells res) ->
  let c := cell_at ws (cd_row rec) (cd_column rec) in
  let cached := cached_value env fp sn (cd_row rec) (cd_column rec) in
  (formula_text_of c = None ->
   cd_value rec = if is_none cached then value c else cached) /\
  (forall text, formula_text_of c = Some text ->
   cd_value rec = if is_none cached then PyStr text else cached).
Proof.
  intros Hrun Hload Hfind Hev Hin c cached. subst c cached.
  destruct (read_meta_inr _ _ _ _ _ _ _ _ _ Hrun)
    as [wb' [ws' [s' [e' [sr [sc [er [ec [Hload' [Hfind' [_ [_ Hcase]]]]]]]]]]]].
  rewrite Hload in Hload'. injection Hload' as <-.
  rewrite Hfind in Hfind'. injection Hfind' as <-.
  destruct Hcase as [[_ [Hres _]] | [_ [Hres _]]].
  { subst res. contradiction. }
  subst res. cbn [cells] in Hin.
  apply in_region_records in Hin. destruct Hin as [r [c0 [_ [_ Hrec]]]].
  subst rec. cbn [record_of cd_value cd_row cd_column address] in *.
  unfold reported_value. cbn [fe_of]. rewrite Hev.
  split.
  - intros ->. reflexivity.
  - intros text ->. reflexivity.
Qed.

Lemma loader_consulted_without_evaluator_witness :
  cd_value ex_record_A1 = PyInt 2.
Proof.
  assert (Hrun : run (read_excel_range_with_metadata ex_env_no_evaluator
                        "book.xlsx" "Data" "A1" None false true)
                 = (inr ex_meta_result_no_evaluator, snd ex_meta_read_no_evaluator))
    by (vm_compute; reflexivity).
  assert (Hin : In ex_record_A1 (cells ex_meta_result_no_evaluator))
    by (vm_compute; tauto).
  destruct (loader_consulted_without_evaluator ex_env_no_evaluator "book.xlsx"
              "Data" "A1" None false ex_meta_result_no_evaluator
              (snd ex_meta_read_no_evaluator) ex_book ex_data ex_record_A1
              Hrun eq_refl eq_refl eq_refl Hin)
    as [Hplain _].
  rewrite Hplain; vm_compute; reflexivity.
Defined.

(** With an evaluator, a cell that is not taken for a formula keeps its
    stored value: the loader is asked about such cells only when there is
    no evaluator. *)
Lemma literal_kept_with_evaluator
  (env : Env) (fp sn start : string) (end_ : option string) (iv : bool)
  (res : range_data) (st' : St) (wb : workbook) (ws : worksheet)
  (rec : cell_data) (ev : evaluator) :
  run (read_excel_range_with_metadata env fp sn start end_ iv true) = (inr res, st') ->
  load_formulas env fp = inr wb ->
  find_sheet wb sn = Some ws ->
  evaluator_of env fp = Some ev ->
  In rec (cells res) ->
  formula_text_of (cell_at ws (cd_row rec) (cd_column rec)) = None ->
  cd_value rec = value (cell_at ws (cd_row rec) (cd_column rec)).
Proof.
  intros Hrun Hload Hfind Hev Hin Htext.
  destruct (read_meta_inr _ _ _ _ _ _ _ _ _ Hrun)
    as [wb' [ws' [s' [e' [sr [sc [er [ec [Hload' [Hfind' [_ [_ Hcase]]]]]]]]]]]].
  rewrite Hload in Hload'. injection Hload' as <-.
  rewrite Hfind in Hfind'. injection Hfind' as <-.
  destruct Hcase as [[_ [Hres _]] | [_ [Hres _]]].
  { subst res. contradiction. }
  subst res. cbn [cells] in Hin.
  apply in_region_records in Hin. destruct Hin as [r [c0 [_ [_ Hrec]]]].
  subst rec. cbn [record_of cd_value cd_row cd_column address] in *.
  unfold reported_value. cbn [fe_of]. rewrite Hev, Htext. reflexivity.
Qed.

(** C6.  The plain read returns no row without a value, and it returns
    every row of the region that has one, whole; the metadata read returns
    one record for each cell of the region, (end_row - start_row + 1) *
    (end_col - start_col + 1) of them. *)
Theorem rows_compacted_records_complete
  (env : Env) (fp sn start : string) (end_ : option string) (iv ef : bool)
  (wb : workbook) (ws : worksheet) (s' : string) (e' : option string)
  (sr sc er ec : Z) :
  load_formulas env fp = inr wb ->
  find_sheet wb sn = Some ws ->
  split_refs start end_ = inr (s', e') ->
  (forall rows st',
      plain_bounds ws s' e' = inr (sr, sc, er, ec) ->
      run (read_excel_range env fp sn start end_) = (inr rows, st') ->
      (forall row, In row rows -> has_value row = true) /\
      (beyond_bounds ws sr sc = false ->
       forall r, sr <= r <= er ->
                 has_value (row_values ws r sc ec) = true ->
                 In (row_values ws r sc ec) rows)) /\
  (forall res st',
      meta_bounds ws s' e' = inr (sr, sc, er, ec) ->
      beyond_bounds ws sr sc = false ->
      sr <= er -> sc <= ec ->
      run (read_excel_range_with_metadata env fp sn start end_ iv ef) = (inr res, st') ->
      Z.of_nat (List.length (cells res)) = (er - sr + 1) * (ec - sc + 1) /\
      (forall r c, sr <= r <= er -> sc <= c <= ec ->
                   exists rec, In rec (cells res) /\
                               cd_row rec = r /\ cd_column rec = c)).
Proof.
  intros Hload Hfind Hsplit. split.
  - intros rows st' Hbounds Hrun.
    destruct (read_plain_inr _ _ _ _ _ _ _ Hrun)
      as [wb' [ws' [s'' [e'' [sr' [sc' [er' [ec' [Hload' [Hfind' [Hsplit' [Hbounds' Hcase]]]]]]]]]]]].
    rewrite Hload in Hload'. injection Hload' as <-.
    rewrite Hfind in Hfind'. injection Hfind' as <-.
    rewrite Hsplit in Hsplit'. injection Hsplit' as <- <-.
    rewrite Hbounds in Hbounds'. injection Hbounds' as <- <- <- <-.
    destruct Hcase as [[Hb [Hrows _]] | [Hb [Hrows _]]]; subst rows.
    + split; [intros row []|]. intros Hb'. congruence.
    + split.
      * intros row Hin. apply filter_In in Hin. tauto.
      * intros _ r Hr Hv. apply filter_In. split; [|assumption].
        unfold region_values.
        apply (in_map (fun row => row_values ws row sc ec)).
        apply in_py_range. lia.
  - intros res st' Hbounds Hb Hr Hc Hrun.
    destruct (read_meta_inr _ _ _ _ _ _ _ _ _ Hrun)
      as [wb' [ws' [s'' [e'' [sr' [sc' [er' [ec' [Hload' [Hfind' [Hsplit' [Hbounds' Hcase]]]]]]]]]]]].
    rewrite Hload in Hload'. injection Hload' as <-.
    rewrite Hfind in Hfind'. injection Hfind' as <-.
    rewrite Hsplit in Hsplit'. injection Hsplit' as <- <-.
    rewrite Hbounds in Hbounds'. injection Hbounds' as <- <- <- <-.
    destruct Hcase as [[Hb' _] | [_ [Hres _]]]; [congruence|].
    subst res. cbn [cells]. split.
    + apply length_region_records; assumption.
    + intros r c Hr' Hc'. exists (record_of env fp ws sn iv ef r c).
      split; [apply region_records_in; assumption|]. split; reflexivity.
Qed.

Lemma rows_compacted_records_complete_witness :
  (forall row, In row (result_of [] ex_plain_read) -> has_value row = true) /\
  Z.of_nat (List.length (cells (result_of (mkRangeData "" "" []) ex_meta_read_A1_B4)))
  = (4 - 1 + 1) * (2 - 1 + 1).
Proof.
  destruct (rows_compacted_records_complete ex_env "book.xlsx" "Data" "A1"
              (Some "B4") true false ex_book ex_data "A1" (Some "B4") 1 1 4 2
              eq_refl eq_refl eq_refl) as [Hplain Hmeta].
  split.
  - apply (Hplain (result_of [] ex_plain_read) (snd ex_plain_read)).
    + vm_compute. reflexivity.
    + vm_compute. reflexivity.
  - apply (Hmeta (result_of (mkRangeData "" "" []) ex_meta_read_A1_B4)
                 (snd ex_meta_read_A1_B4)).
    + vm_compute. reflexivity.
    + vm_compute. reflexivity.
    + lia.
    + lia.
    + vm_compute. reflexivity.
Defined.

Lemma beyond_bounds_true ws sr sc :
  sr > max_row ws \/ sc > max_column ws -> beyond_bounds ws sr sc = true.
Proof.
  intros H. unfold beyond_bounds. apply orb_true_iff.
  destruct H as [H | H]; [left | right]; apply Z.gtb_lt; lia.
Qed.

(** C4.  In both modes, a read whose resolved start row is beyond the
    sheet's last row, or whose resolved start column is beyond its last
    column, returns an empty result (no rows, no cells), logs the warning
    of the boundary check as its last act, and raises nothing.  The used
    columns of the sheet are those openpyxl has letters for. *)
Theorem start_beyond_bounds_is_soft_empty
  (env : Env) (fp sn start : string) (end_ : option string) (iv ef : bool)
  (wb : workbook) (ws : worksheet) (s' : string) (e' : option string)
  (sr sc er ec : Z) :
  load_formulas env fp = inr wb ->
  find_sheet wb sn = Some ws ->
  split_refs start end_ = inr (s', e') ->
  sheet_cols_ok ws ->
  sr > max_row ws \/ sc > max_column ws ->
  (plain_bounds ws s' e' = inr (sr, sc, er, ec) ->
   exists st1,
     run (read_excel_range env fp sn start end_) =
     (inr [], logged st1 (EvLog LWarning (boundary_text s' ws)))) /\
  (meta_bounds ws s' e' = inr (sr, sc, er, ec) ->
   exists st1,
     run (read_excel_range_with_metadata env fp sn start end_ iv ef) =
     (inr (mkRangeData (s' ++ ":") sn []),
      logged st1 (EvLog LWarning (boundary_text s' ws)))).
Proof.
  intros Hload Hfind Hsplit Hcols Hbeyond.
  apply beyond_bounds_true in Hbeyond. split.
  - intros Hbounds.
    destruct (read_plain_returns env fp sn start end_ wb ws s' e' sr sc er ec
                Hload Hfind Hsplit Hbounds) as [st' [Hrun Hlog]].
    { rewrite Hbeyond. exact Hcols. }
    rewrite Hbeyond in Hrun. destruct (Hlog Hbeyond) as [st1 ->].
    exists st1. exact Hrun.
  - intros Hbounds.
    destruct (read_meta_returns env fp sn start end_ iv ef wb ws s' e' sr sc er ec
                Hload Hfind Hsplit Hbounds) as [res [st' Hrun]].
    { rewrite Hbeyond. exact Hcols. }
    destruct (read_meta_inr _ _ _ _ _ _ _ _ _ Hrun)
      as [wb' [ws' [s'' [e'' [sr' [sc' [er' [ec' [Hload' [Hfind' [Hsplit' [Hbounds' Hcase]]]]]]]]]]]].
    rewrite Hload in Hload'. injection Hload' as <-.
    rewrite Hfind in Hfind'. injection Hfind' as <-.
    rewrite Hsplit in Hsplit'. injection Hsplit' as <- <-.
    rewrite Hbounds in Hbounds'. injection Hbounds' as <- <- <- <-.
    destruct Hcase as [[_ [Hres [_ [[st1 Hst] _]]]] | [Hb _]]; [|congruence].
    subst res st'. exists st1. exact Hrun.
Qed.

Lemma start_beyond_bounds_is_soft_empty_witness :
  exists st1,
    run (read_excel_range_with_metadata ex_env "book.xlsx" "Data" "E9" None true false) =
    (inr (mkRangeData "E9:" "Data" []),
     logged st1 (EvLog LWarning (boundary_text "E9" ex_data))).
Proof.
  destruct (start_beyond_bounds_is_soft_empty ex_env "book.xlsx" "Data" "E9" None
              true false ex_book ex_data "E9" None 9 5 3 2
              eq_refl eq_refl eq_refl) as [_ Hmeta].
  - vm_compute. repeat split; discriminate.
  - left. vm_compute. reflexivity.
  - apply Hmeta. vm_compute. reflexivity.
Defined.

Lemma fold_left_min_le (l : list Z) : forall a, fold_left Z.min l a <= a.
Proof.
  induction l as [| y l IH]; intros a; cbn [fold_left]; [lia|].
  specialize (IH (Z.min a y)). lia.
Qed.

Lemma fold_left_max_le (l : list Z) : forall a, a <= fold_left Z.max l a.
Proof.
  induction l as [| y l IH]; intros a; cbn [fold_left]; [lia|].
  specialize (IH (Z.max a y)). lia.
Qed.

Lemma fold_min_le_fold_max d l : fold_min d l <= fold_max d l.
Proof.
  destruct l as [| x l]; cbn [fold_min fold_max]; [lia|].
  pose proof (fold_left_min_le l x). pose proof (fold_left_max_le l x). lia.
Qed.

(** The first row and column of a sheet are within its bounds. *)
Lemma first_cell_within_bounds ws :
  beyond_bounds ws (min_row ws) (min_column ws) = false.
Proof.
  unfold beyond_bounds, min_row, max_row, min_column, max_column.
  apply orb_false_iff. split; rewrite Z.gtb_ltb; apply Z.ltb_ge;
    apply fold_min_le_fold_max.
Qed.

(** C5.  A sheet that is not empty, read with no end reference.  The plain
    read takes the sheet's first row and column as the start and its last
    row and column as the end, whatever the start reference: the rows it
    returns are those of that region that have a value, and it returns
    them when the first row and column are at least 1.  The metadata read
    takes the last row and column as the end, and takes the first row and
    column as the start when the start reference (once a combined string is
    split) is "A1", leaving any other start as it was parsed: when that
    start is within the bounds of the sheet, the range and the records it
    returns are those of that region, and it returns them when every cell
    of the region can be recorded. *)
Theorem region_without_end_reference
  (env : Env) (fp sn start : string) (end_ : option string) (iv ef : bool)
  (wb : workbook) (ws : worksheet) (start_cell : string)
  (end_cell : option string) (start_row start_col : Z) :
  load_formulas env fp = inr wb ->
  find_sheet wb sn = Some ws ->
  split_refs start end_ = inr (start_cell, end_cell) ->
  sheet_is_empty ws = false ->
  truthy end_cell = false ->
  cell_coords "start" start_cell = inr (start_row, start_col) ->
  let first_row := if String.eqb start_cell "A1" then min_row ws else start_row in
  let first_col := if String.eqb start_cell "A1" then min_column ws else start_col in
  let whole_sheet :=
    filter has_value
      (region_values ws (min_row ws) (min_column ws) (max_row ws) (max_column ws)) in
  let from_start :=
    mkRangeData (range_string first_row first_col (max_row ws) (max_column ws)) sn
      (region_records env fp ws sn iv ef first_row first_col
         (max_row ws) (max_column ws)) in
  plain_bounds ws start_cell end_cell
  = inr (min_row ws, min_column ws, max_row ws, max_column ws) /\
  meta_bounds ws start_cell end_cell
  = inr (first_row, first_col, max_row ws, max_column ws) /\
  (forall rows st',
      run (read_excel_range env fp sn start end_) = (inr rows, st') ->
      rows = whole_sheet) /\
  (1 <= min_row ws -> 1 <= min_column ws ->
   exists st', run (read_excel_range env fp sn start end_) = (inr whole_sheet, st')) /\
  (forall res st',
      run (read_excel_range_with_metadata env fp sn start end_ iv ef) = (inr res, st') ->
      beyond_bounds ws first_row first_col = false ->
      res = from_start) /\
  (beyond_bounds ws first_row first_col = false ->
   1 <= first_col <= 18278 -> 1 <= max_column ws <= 18278 ->
   region_ok env ws iv first_row first_col (max_row ws) (max_column ws) ->
   exists st',
     run (read_excel_range_with_metadata env fp sn start end_ iv ef)
     = (inr from_start, st')).
Proof.
  intros Hload Hfind Hsplit Hne Hend Hstart first_row first_col whole_sheet from_start.
  assert (Hplain : plain_bounds ws start_cell end_cell
                   = inr (min_row ws, min_column ws, max_row ws, max_column ws)).
  { unfold plain_bounds. rewrite Hstart, Hend, Hne. reflexivity. }
  assert (Hmeta : meta_bounds ws start_cell end_cell
                  = inr (first_row, first_col, max_row ws, max_column ws)).
  { unfold meta_bounds, first_row, first_col. rewrite Hstart, Hend, Hne.
    destruct (String.eqb start_cell "A1"); reflexivity. }
  pose proof (first_cell_within_bounds ws) as Hfirst.
  split; [exact Hplain|]. split; [exact Hmeta|].
  split; [|split; [|split]].
  - intros rows st' Hrun.
    destruct (read_plain_inr _ _ _ _ _ _ _ Hrun)
      as [wb' [ws' [s'' [e'' [sr' [sc' [er' [ec' H]]]]]]]].
    destruct H as [Hload' [Hfind' [Hsplit' [Hbounds' Hcase]]]].
    rewrite Hload in Hload'. injection Hload' as <-.
    rewrite Hfind in Hfind'. injection Hfind' as <-.
    rewrite Hsplit in Hsplit'. injection Hsplit' as <- <-.
    rewrite Hplain in Hbounds'. injection Hbounds' as <- <- <- <-.
    destruct Hcase as [[Hb _] | [_ [Hrows _]]]; [congruence | exact Hrows].
  - intros Hr Hc.
    destruct (read_plain_returns env fp sn start end_ wb ws start_cell end_cell
                (min_row ws) (min_column ws) (max_row ws) (max_column ws)
                Hload Hfind Hsplit Hplain) as [st' [Hrun _]].
    { rewrite Hfirst. intros r c Hr' Hc'. lia. }
    rewrite Hfirst in Hrun. exists st'. exact Hrun.
  - intros res st' Hrun Hb.
    destruct (read_meta_inr _ _ _ _ _ _ _ _ _ Hrun)
      as [wb' [ws' [s'' [e'' [sr' [sc' [er' [ec' H]]]]]]]].
    destruct H as [Hload' [Hfind' [Hsplit' [Hbounds' Hcase]]]].
    rewrite Hload in Hload'. injection Hload' as <-.
    rewrite Hfind in Hfind'. injection Hfind' as <-.
    rewrite Hsplit in Hsplit'. injection Hsplit' as <- <-.
    rewrite Hmeta in Hbounds'. injection Hbounds' as <- <- <- <-.
    destruct Hcase as [[Hb' _] | [_ [Hres _]]]; [congruence | exact Hres].
  - intros Hb Hc0 Hc1 Hok.
    destruct (read_meta_returns env fp sn start end_ iv ef wb ws start_cell end_cell
                first_row first_col (max_row ws) (max_column ws)
                Hload Hfind Hsplit Hmeta) as [res [st' Hrun]].
    { rewrite Hb. auto. }
    exists st'.
    destruct (read_meta_inr _ _ _ _ _ _ _ _ _ Hrun)
      as [wb' [ws' [s'' [e'' [sr' [sc' [er' [ec' H]]]]]]]].
    destruct H as [Hload' [Hfind' [Hsplit' [Hbounds' Hcase]]]].
    rewrite Hload in Hload'. injection Hload' as <-.
    rewrite Hfind in Hfind'. injection Hfind' as <-.
    rewrite Hsplit in Hsplit'. injection Hsplit' as <- <-.
    rewrite Hmeta in Hbounds'. injection Hbounds' as <- <- <- <-.
    destruct Hcase as [[Hb' _] | [_ [Hres _]]]; [congruence|].
    rewrite Hrun, Hres. reflexivity.
Qed.

Lemma region_without_end_reference_witness :
  (exists st',
      run (read_excel_range ex_env "book.xlsx" "Data" "B2" None)
      = (inr [[PyInt 2; PyStr "x"]; [PyInt 3; PyNone];
              [PyStr "=SUM(A1:A2)"; PyStr "=A1*2"]], st')) /\
  (exists st',
      run (read_excel_range_with_metadata ex_env "book.xlsx" "Data" "B2" None
             false false)
      = (inr (mkRangeData "B2:B3" "Data"
                [ mkCellData "B2" PyNone 2 2 None;
                  mkCellData "B3" (PyStr "=A1*2") 3 2 None ]), st')).
Proof.
  destruct (region_without_end_reference ex_env "book.xlsx" "Data" "B2" None
              false false ex_book ex_data "B2" None 2 2
              eq_refl eq_refl eq_refl eq_refl eq_refl eq_refl)
    as [_ [_ [_ [Hplain [_ Hmeta]]]]].
  split.
  - apply Hplain; vm_compute; discriminate.
  - apply Hmeta.
    + reflexivity.
    + vm_compute. split; discriminate.
    + vm_compute. split; discriminate.
    + intros r c Hr Hc.
      change (2 <= r <= 3) in Hr. change (2 <= c <= 2) in Hc.
      split; [lia|]. split; [lia|]. intros H. discriminate.
Defined.

(** The default start snaps to the real start of the data. *)
Example metadata_read_snaps_to_data :
  fst (run (read_excel_range_with_metadata ex_offset_env "o.xlsx" "Offset" "A1"
              None false false))
  = inr (mkRangeData "B3:C4" "Offset"
           [ mkCellData "B3" (PyStr "k") 3 2 None;
             mkCellData "C3" PyNone 3 3 None;
             mkCellData "B4" PyNone 4 2 None;
             mkCellData "C4" (PyInt 7) 4 3 None ]).
Proof. vm_compute. reflexivity. Qed.

(** ** The empty sheet *)

Lemma sheet_is_empty_inv ws :
  sheet_is_empty ws = true ->
  max_row ws = 1 /\ max_column ws = 1 /\ value (cell_at ws 1 1) = PyNone.
Proof.
  unfold sheet_is_empty. intros H.
  apply andb_true_iff in H. destruct H as [H H3].
  apply andb_true_iff in H. destruct H as [H1 H2].
  apply Z.eqb_eq in H1, H2. repeat split; try assumption.
  destruct (value (cell_at ws 1 1)); try discriminate. reflexivity.
Qed.

(** C3, as the code has it.  Reading an empty sheet with the start "A1" and
    no end: the plain read returns no rows; the metadata read returns the
    range "A1:A1" and one record, that of the cell A1 (row 1, column 1),
    whose value is None when formulas are not evaluated. *)
Theorem empty_sheet_read
  (env : Env) (fp sn : string) (iv ef : bool) (wb : workbook) (ws : worksheet) :
  load_formulas env fp = inr wb ->
  find_sheet wb sn = Some ws ->
  sheet_is_empty ws = true ->
  (iv = true -> exists info, get_data_validation_for_cell env ws "A1" = inr info) ->
  (exists st', run (read_excel_range env fp sn "A1" None) = (inr [], st')) /\
  (exists rec st',
      run (read_excel_range_with_metadata env fp sn "A1" None iv ef)
      = (inr (mkRangeData "A1:A1" sn [rec]), st') /\
      address rec = "A1" /\ cd_row rec = 1 /\ cd_column rec = 1 /\
      (ef = false -> cd_value rec = PyNone)).
Proof.
  intros Hload Hfind Hempty Hval.
  destruct (sheet_is_empty_inv ws Hempty) as [Hmr [Hmc Hv]].
  assert (Hb : beyond_bounds ws 1 1 = false).
  { unfold beyond_bounds. rewrite Hmr, Hmc. reflexivity. }
  split.
  - destruct (read_plain_returns env fp sn "A1" None wb ws "A1" None 1 1 1 1
                Hload Hfind eq_refl) as [st' [Hrun _]].
    + unfold plain_bounds. rewrite Hempty. reflexivity.
    + rewrite Hb. intros r c Hr Hc. lia.
    + rewrite Hb in Hrun. exists st'. rewrite Hrun.
      unfold region_values, row_values.
      change (py_range 1 (1 + 1)) with [1]. cbn [map filter].
      unfold has_value. cbn [existsb]. rewrite Hv. reflexivity.
  - assert (Hbounds : meta_bounds ws "A1" None = inr (1, 1, 1, 1)).
    { unfold meta_bounds. rewrite Hempty. reflexivity. }
    destruct (read_meta_returns env fp sn "A1" None iv ef wb ws "A1" None 1 1 1 1
                Hload Hfind eq_refl Hbounds) as [res [st' Hrun]].
    { rewrite Hb. split; [lia|]. split; [lia|].
      intros r c Hr Hc. assert (r = 1) by lia. assert (c = 1) by lia. subst.
      split; [lia|]. split; [lia|]. exact Hval. }
    destruct (read_meta_inr _ _ _ _ _ _ _ _ _ Hrun)
      as [wb' [ws' [s'' [e'' [sr' [sc' [er' [ec' [Hload' [Hfind' [Hsplit' [Hbounds' Hcase]]]]]]]]]]]].
    rewrite Hload in Hload'. injection Hload' as <-.
    rewrite Hfind in Hfind'. injection Hfind' as <-.
    injection Hsplit' as <- <-.
    rewrite Hbounds in Hbounds'. injection Hbounds' as <- <- <- <-.
    destruct Hcase as [[Hb' _] | [_ [Hres _]]]; [congruence|].
    exists (record_of env fp ws sn iv ef 1 1), st'. split.
    + rewrite Hrun, Hres. reflexivity.
    + cbn [record_of address cd_row cd_column cd_value].
      repeat split; try reflexivity.
      intros ->. unfold reported_value. cbn. exact Hv.
Qed.

Lemma empty_sheet_read_witness :
  exists st', run (read_excel_range ex_env "book.xlsx" "Empty" "A1" None) = (inr [], st').
Proof.
  destruct (empty_sheet_read ex_env "book.xlsx" "Empty" false false ex_book ex_empty
              eq_refl eq_refl eq_refl) as [Hplain _].
  - intros H. discriminate.
  - exact Hplain.
Defined.

(** The claim as the spec has it fails on the metadata read: the result
    for an empty sheet has one record, not none. *)
Lemma empty_sheet_metadata_not_empty :
  sheet_is_empty ex_empty = true /\
  exists res st',
    run (read_excel_range_with_metadata ex_env "book.xlsx" "Empty" "A1" None true false)
    = (inr res, st') /\
    cells res <> [].
Proof.
  split; [reflexivity|].
  do 2 eexists. split.
  - vm_compute. reflexivity.
  - cbn [cells]. discriminate.
Qed.

(** A metadata read that returns its records has closed every workbook it
    opened. *)
Lemma normal_return_closes_workbooks env fp sn start end_ iv ef res st' :
  run (read_excel_range_with_metadata env fp sn start end_ iv ef) = (inr res, st') ->
  cells res <> [] ->
  all_closed st'.
Proof.
  intros Hrun Hcells.
  destruct (read_meta_inr _ _ _ _ _ _ _ _ _ Hrun)
    as [wb [ws [s' [e' [sr [sc [er [ec [_ [_ [_ [_ Hcase]]]]]]]]]]]].
  destruct Hcase as [[_ [Hres _]] | [_ [_ [_ Hclosed]]]].
  - subst res. contradiction.
  - exact Hclosed.
Qed.

(** A metadata read that returns from the boundary check leaves the
    primary workbook open. *)
Lemma soft_empty_return_not_closed env fp sn start end_ iv ef res st'
  wb ws s' e' sr sc er ec :
  run (read_excel_range_with_metadata env fp sn start end_ iv ef) = (inr res, st') ->
  load_formulas env fp = inr wb -> find_sheet wb sn = Some ws ->
  split_refs start end_ = inr (s', e') ->
  meta_bounds ws s' e' = inr (sr, sc, er, ec) ->
  beyond_bounds ws sr sc = true ->
  left_open Primary (trace st') = true.
Proof.
  intros Hrun Hload Hfind Hsplit Hbounds Hb.
  destruct (read_meta_inr _ _ _ _ _ _ _ _ _ Hrun)
    as [wb' [ws' [s'' [e'' [sr' [sc' [er' [ec' [Hload' [Hfind' [Hsplit' [Hbounds' Hcase]]]]]]]]]]]].
  rewrite Hload in Hload'. injection Hload' as <-.
  rewrite Hfind in Hfind'. injection Hfind' as <-.
  rewrite Hsplit in Hsplit'. injection Hsplit' as <- <-.
  rewrite Hbounds in Hbounds'. injection Hbounds' as <- <- <- <-.
  destruct Hcase as [[_ [_ [_ [_ Hopen]]]] | [Hb' _]]; [exact Hopen | congruence].
Qed.

(** C2, on the code.  Three requests that end with a workbook open: the
    read of Data from E9, beyond the data, returns the empty result and
    never closes the primary workbook; the read of a sheet that is not
    there raises and never closes it; the read in which the validation
    lookup fails for B1 raises with the primary and the data-only workbook
    both open. *)
Theorem workbooks_left_open :
  (let r := run (read_excel_range_with_metadata ex_env "book.xlsx" "Data" "E9"
                   None true true) in
   fst r = inr (mkRangeData "E9:" "Data" []) /\
   left_open Primary (trace (snd r)) = true /\
   closes Primary (trace (snd r)) = 0%nat) /\
  (let r := run (read_excel_range_with_metadata ex_env "book.xlsx" "Missing" "A1"
                   None true true) in
   fst r = inl (DataError "Sheet 'Missing' not found") /\
   left_open Primary (trace (snd r)) = true) /\
  (let r := run (read_excel_range_with_metadata ex_env_validation_fails "book.xlsx"
                   "Data" "A1" None true true) in
   fst r = inl (DataError "validation lookup failed") /\
   left_open Primary (trace (snd r)) = true /\
   left_open ValuesOnly (trace (snd r)) = true).
Proof.
  split; [|split].
  - vm_compute. repeat split.
  - vm_compute. repeat split.
  - vm_compute. repeat split.
Qed.

(** ** The fallback loader *)

Lemma loader_failed_returns_none env fp sn r c st :
  phase st = Failed ->
  _get_cached_value env fp sn r c st = (inr PyNone, st).
Proof.
  unfold phase, _get_cached_value, bind, get_st. intros H.
  destruct (fallback_loader_failed st); [reflexivity|].
  destruct (wb_values st); discriminate.
Qed.

Lemma loader_opened_stays env fp sn r c st out st' :
  phase st = Opened ->
  _get_cached_value env fp sn r c st = (out, st') ->
  st' = st.
Proof.
  unfold phase, _get_cached_value, bind, get_st. intros H.
  destruct (fallback_loader_failed st); [discriminate|].
  destruct (wb_values st); [|discriminate].
  cbn [ret]. destruct (ws_values st) as [ws |].
  - unfold ws_cell. destruct ((r <? 1) || (c <? 1)); cbn [ret raise];
      intros E; injection E as _ <-; reflexivity.
  - cbn [ret]. intros E; injection E as _ <-; reflexivity.
Qed.

Lemma loader_first_call env fp sn r c st out st' :
  phase st = Unopened ->
  _get_cached_value env fp sn r c st = (out, st') ->
  match load_data_only env fp with
  | inl _ => phase st' = Failed /\ out = inr PyNone
  | inr wbv =>
      match find_sheet wbv sn with
      | None => phase st' = Failed /\ out = inr PyNone
      | Some _ => phase st' = Opened
      end
  end.
Proof.
  unfold phase. intros H Hrun.
  unfold _get_cached_value, bind, get_st in Hrun.
  destruct (fallback_loader_failed st) eqn:Hf; [discriminate|].
  destruct (wb_values st) eqn:Hw; [discriminate|].
  unfold try_except, load_workbook, bind, logger, close, emit,
    set_wb_values, set_ws_values, set_fallback_loader_failed, ret, raise in Hrun.
  destruct (load_data_only env fp) as [e | wbv] eqn:Hload.
  - cbn [trace wb_values ws_values fallback_loader_failed] in Hrun.
    injection Hrun as <- <-. cbn. auto.
  - cbn [trace wb_values ws_values fallback_loader_failed] in Hrun.
    destruct (in_names sn (sheetnames wbv)) eqn:Hin; cbn [negb] in Hrun.
    + destruct (in_names_find_sheet _ _ Hin) as [wsv Hfind]. rewrite Hfind.
      unfold wb_getitem, ret in Hrun. rewrite Hfind in Hrun.
      cbn [trace wb_values ws_values fallback_loader_failed] in Hrun.
      unfold ws_cell, ret, raise in Hrun.
      destruct ((r <? 1) || (c <? 1)); injection Hrun as _ <-;
        cbn [fallback_loader_failed wb_values]; rewrite Hf; reflexivity.
    + rewrite (not_in_names_find_sheet _ _ Hin).
      cbn [trace wb_values ws_values fallback_loader_failed] in Hrun.
      injection Hrun as <- <-. cbn. auto.
Qed.

Lemma call_loader_failed env fp sn calls :
  forall acc st,
    phase st = Failed ->
    for_each calls acc
      (fun results rc =>
         v <- _get_cached_value env fp sn (fst rc) (snd rc) ;;
         ret (results ++ [v])%list) st
    = (inr (acc ++ map (fun _ => PyNone) calls)%list, st).
Proof.
  induction calls as [| rc rest IH]; intros acc st Hst.
  - cbn. rewrite app_nil_r. reflexivity.
  - cbn [for_each]. unfold bind at 1. unfold bind at 1.
    rewrite (loader_failed_returns_none env fp sn _ _ st Hst). cbn [ret].
    rewrite (IH _ st Hst). cbn [map]. rewrite <- app_assoc. reflexivity.
Qed.

(** C8.  The states of the fallback loader within a request.  A call
    leaves the state as it is or takes it from unopened to opened or to
    failed; the first call ends in failed when the data-only workbook does
    not open or has no sheet of the name, and then returns None; from
    failed, every later call returns None and changes nothing, so it opens
    nothing; and a whole metadata read tries to open the data-only workbook
    at most once. *)
Theorem loader_failure_is_terminal (env : Env) (fp sn : string) :
  (forall r c st out st',
      _get_cached_value env fp sn r c st = (out, st') ->
      phase st' = phase st \/
      (phase st = Unopened /\ (phase st' = Opened \/ phase st' = Failed))) /\
  (forall r c st out st',
      phase st = Unopened ->
      _get_cached_value env fp sn r c st = (out, st') ->
      (forall wbv, load_data_only env fp = inr wbv -> find_sheet wbv sn = None) ->
      phase st' = Failed /\ out = inr PyNone) /\
  (forall calls st,
      phase st = Failed ->
      call_loader env fp sn calls st = (inr (map (fun _ => PyNone) calls), st)) /\
  (forall start end_ iv ef out st',
      run (read_excel_range_with_metadata env fp sn start end_ iv ef) = (out, st') ->
      (open_attempts ValuesOnly (trace st') <= 1)%nat).
Proof.
  split; [|split; [|split]].
  - intros r c st out st' Hrun.
    destruct (phase st) eqn:Hphase.
    + right. split; [reflexivity|].
      pose proof (loader_first_call env fp sn r c st out st' Hphase Hrun) as H.
      destruct (load_data_only env fp) as [e | wbv].
      * right. tauto.
      * destruct (find_sheet wbv sn); [left; assumption | right; tauto].
    + left. rewrite (loader_opened_stays env fp sn r c st out st' Hphase Hrun).
      exact Hphase.
    + left. rewrite (loader_failed_returns_none env fp sn r c st Hphase) in Hrun.
      injection Hrun as _ <-. exact Hphase.
  - intros r c st out st' Hphase Hrun Habsent.
    pose proof (loader_first_call env fp sn r c st out st' Hphase Hrun) as H.
    destruct (load_data_only env fp) as [e | wbv]; [exact H|].
    rewrite (Habsent wbv eq_refl) in H. exact H.
  - intros calls st Hphase. unfold call_loader.
    rewrite (call_loader_failed env fp sn calls [] st Hphase). reflexivity.
  - intros start end_ iv ef out st' Hrun.
    exact (read_meta_attempts env fp sn start end_ iv ef out st' Hrun).
Qed.

(** One failed attempt for six cells. *)
Example loader_disabled_after_one_failure :
  let r := run (read_excel_range_with_metadata ex_env_no_values "book.xlsx" "Data"
                  "A1" None false true) in
  open_attempts ValuesOnly (trace (snd r)) = 1%nat /\
  phase (snd r) = Failed /\
  List.length (cells (result_of (mkRangeData "" "" []) r)) = 6%nat.
Proof. vm_compute. repeat split. Qed.

Lemma operation_boundary_wraps_once {A} (failed_to : string) (m : M A) :
  wraps_once m (operation_boundary failed_to m).
Proof.
  repeat split.
  - intros st msg st0 H.
    destruct (operation_boundary_inl failed_to m st _ st0 H) as [text Ht].
    eexists. exact Ht.
  - intros st e st0 H _.
    destruct (operation_boundary_inl failed_to m st _ st0 H) as [text Ht].
    eexists. exact Ht.
  - intros st e st' H.
    destruct (m st) as [[e0 | a] st0] eqn:Hm.
    + destruct (operation_boundary_inl failed_to m st _ st0 Hm) as [text Ht].
      rewrite Ht in H. injection H as <- _. reflexivity.
    + rewrite (operation_boundary_inr failed_to m st a st0 Hm) in H. discriminate.
Qed.

Lemma read_plain_load_fails env fp sn start end_ e :
  load_formulas env fp = inl e ->
  fst (run (read_excel_range env fp sn start end_)) = inl (DataError (str_exn e)).
Proof.
  intros Hload. unfold run, read_excel_range.
  assert (Hbody : read_excel_range_try env fp sn start end_ init_st
                  = (inl e, logged init_st (EvOpenFailed Primary))).
  { unfold read_excel_range_try, bind, load_workbook. rewrite Hload. reflexivity. }
  destruct (operation_boundary_inl "Failed to read Excel range: " _ _ _ _ Hbody)
    as [text Ht].
  rewrite Ht. reflexivity.
Qed.

Lemma read_meta_load_fails env fp sn start end_ iv ef e :
  load_formulas env fp = inl e ->
  fst (run (read_excel_range_with_metadata env fp sn start end_ iv ef))
  = inl (DataError (str_exn (match resolve_error env fp with
                             | Some e' => e'
                             | None => e
                             end))).
Proof.
  intros Hload. unfold run, read_excel_range_with_metadata.
  assert (Hbody : exists st0,
    read_excel_range_with_metadata_try env fp sn start end_ iv ef init_st
    = (inl (match resolve_error env fp with Some e' => e' | None => e end), st0)).
  { unfold read_excel_range_with_metadata_try. unfold bind at 1.
    unfold resolve_path. rewrite Hload.
    destruct (resolve_error env fp) as [e' |].
    - eexists. reflexivity.
    - cbn [ret]. unfold bind at 1. unfold load_workbook. rewrite Hload.
      eexists. reflexivity. }
  destruct Hbody as [st0 Hbody].
  destruct (operation_boundary_inl "Failed to read Excel range with metadata: "
              _ _ _ _ Hbody) as [text Ht].
  rewrite Ht. reflexivity.
Qed.

Lemma write_load_fails env fp sheet_name row rows start e :
  load_formulas env fp = inl e ->
  fst (run (write_data env fp sheet_name (Some (row :: rows)) start))
  = inl (DataError (str_exn e)).
Proof.
  intros Hload. unfold run, write_data.
  assert (Hbody : write_data_try env fp sheet_name (Some (row :: rows)) start init_st
                  = (inl e, logged init_st (EvOpenFailed Primary))).
  { unfold write_data_try, bind, load_workbook. rewrite Hload. reflexivity. }
  destruct (operation_boundary_inl "Failed to write data: " _ _ _ _ Hbody)
    as [text Ht].
  rewrite Ht. reflexivity.
Qed.

Lemma read_plain_sheet_missing env fp sn start end_ wb :
  load_formulas env fp = inr wb -> find_sheet wb sn = None ->
  fst (run (read_excel_range env fp sn start end_))
  = inl (DataError ("Sheet '" ++ sn ++ "' not found")).
Proof.
  intros Hload Hfind. unfold run, read_excel_range.
  assert (Hin : in_names sn (sheetnames wb) = false).
  { destruct (in_names sn (sheetnames wb)) eqn:Hin; [|reflexivity].
    destruct (in_names_find_sheet _ _ Hin) as [ws Hws]. congruence. }
  assert (Hbody : read_excel_range_try env fp sn start end_ init_st
                  = (inl (DataError ("Sheet '" ++ sn ++ "' not found")),
                     logged init_st (EvOpen Primary))).
  { unfold read_excel_range_try, load_workbook. rewrite Hload.
    unfold bind. cbn [emit ret negb]. rewrite Hin. reflexivity. }
  destruct (operation_boundary_inl "Failed to read Excel range: " _ _ _ _ Hbody)
    as [text Ht].
  rewrite Ht. reflexivity.
Qed.

Lemma read_meta_sheet_missing env fp sn start end_ iv ef wb :
  load_formulas env fp = inr wb -> find_sheet wb sn = None ->
  fst (run (read_excel_range_with_metadata env fp sn start end_ iv ef))
  = inl (DataError ("Sheet '" ++ sn ++ "' not found")).
Proof.
  intros Hload Hfind. unfold run, read_excel_range_with_metadata.
  destruct (read_meta_try_cases env fp sn start end_ iv ef)
    as [[e [st0 [Hfail _]]] | [wb' [ws [s' [e' [sr [sc [er [ec [st1 H]]]]]]]]]].
  2:{ destruct H as [Hload' [Hfind' _]]. rewrite Hload in Hload'.
      injection Hload' as <-. congruence. }
  assert (He : e = DataError ("Sheet '" ++ sn ++ "' not found")).
  { assert (Hin : in_names sn (sheetnames wb) = false).
    { destruct (in_names sn (sheetnames wb)) eqn:Hin; [|reflexivity].
      destruct (in_names_find_sheet _ _ Hin) as [ws Hws]. congruence. }
    unfold read_excel_range_with_metadata_try in Hfail.
    unfold bind at 1 in Hfail. unfold resolve_path in Hfail.
    rewrite Hload in Hfail. cbn [ret] in Hfail.
    unfold bind at 1 in Hfail. unfold load_workbook in Hfail.
    rewrite Hload in Hfail.
    cbn [bind emit ret init_st trace wb_values ws_values fallback_loader_failed app]
      in Hfail.
    unfold bind at 1 in Hfail. unfold set_wb_values at 1 in Hfail.
    cbn [trace wb_values ws_values fallback_loader_failed] in Hfail.
    unfold bind at 1 in Hfail. unfold set_ws_values at 1 in Hfail.
    cbn [trace wb_values ws_values fallback_loader_failed] in Hfail.
    unfold bind at 1 in Hfail. unfold set_fallback_loader_failed at 1 in Hfail.
    cbn [trace wb_values ws_values fallback_loader_failed] in Hfail.
    destruct (meta_setup_run env fp sn ef) as [st1 [_ [_ Hsetup]]].
    unfold bind at 1 in Hfail. rewrite Hsetup, Hin in Hfail.
    cbn [negb raise] in Hfail. injection Hfail as <- _. reflexivity. }
  subst e.
  destruct (operation_boundary_inl "Failed to read Excel range with metadata: "
              _ _ _ _ Hfail) as [text Ht].
  rewrite Ht. reflexivity.
Qed.

(** C9.  Each of the three operations passes a DataError raised inside it
    on with its message, raises every other exception of its body again as
    a DataError with the text of the original, and raises nothing else.
    So a workbook that does not load gives a DataError with the text of
    the loader's exception (in the metadata read, with the text of the
    exception of [Path.resolve] when the path does not resolve either), and
    a sheet that is not there gives the DataError the read raised, its
    message as it was written. *)
Theorem errors_become_data_errors
  (env : Env) (fp sn start : string) (end_ : option string) (iv ef : bool)
  (sheet_name : option string) (data : option (list (list pyval))) :
  wraps_once (read_excel_range_try env fp sn start end_)
             (read_excel_range env fp sn start end_) /\
  wraps_once (read_excel_range_with_metadata_try env fp sn start end_ iv ef)
             (read_excel_range_with_metadata env fp sn start end_ iv ef) /\
  wraps_once (write_data_try env fp sheet_name data start)
             (write_data env fp sheet_name data start) /\
  (forall e, load_formulas env fp = inl e ->
     fst (run (read_excel_range env fp sn start end_))
     = inl (DataError (str_exn e)) /\
     fst (run (read_excel_range_with_metadata env fp sn start end_ iv ef))
     = inl (DataError (str_exn (match resolve_error env fp with
                                | Some e' => e'
                                | None => e
                                end))) /\
     (forall row rows,
        fst (run (write_data env fp sheet_name (Some (row :: rows)) start))
        = inl (DataError (str_exn e)))) /\
  (forall wb, load_formulas env fp = inr wb -> find_sheet wb sn = None ->
     fst (run (read_excel_range env fp sn start end_))
     = inl (DataError ("Sheet '" ++ sn ++ "' not found")) /\
     fst (run (read_excel_range_with_metadata env fp sn start end_ iv ef))
     = inl (DataError ("Sheet '" ++ sn ++ "' not found"))).
Proof.
  split; [apply operation_boundary_wraps_once|].
  split; [apply operation_boundary_wraps_once|].
  split; [apply operation_boundary_wraps_once|].
  split.
  - intros e Hload. split; [|split].
    + apply read_plain_load_fails. exact Hload.
    + apply read_meta_load_fails. exact Hload.
    + intros row rows. apply write_load_fails. exact Hload.
  - intros wb Hload Hfind. split.
    + eapply read_plain_sheet_missing; eassumption.
    + eapply read_meta_sheet_missing; eassumption.
Qed.

(** ** References have positive coordinates *)

Lemma letter_value_pos ch :
  is_upper ch || is_lower ch = true -> 1 <= letter_value ch.
Proof.
  unfold letter_value, is_upper, is_lower. intros H.
  destruct (Nat.leb 97 (nat_of_ascii ch) && Nat.leb (nat_of_ascii ch) 122) eqn:Hl.
  - apply andb_true_iff in Hl. destruct Hl as [H1 _]. apply Nat.leb_le in H1. lia.
  - rewrite orb_false_r in H. apply andb_true_iff in H. destruct H as [H1 _].
    apply Nat.leb_le in H1. lia.
Qed.

Lemma span_letters_column s :
  forall ls ds acc,
    span_letters s = (ls, ds) -> 0 <= acc ->
    acc <= column_of_letters acc ls /\
    (nonempty ls = true -> 1 <= column_of_letters acc ls).
Proof.
  induction s as [| ch rest IH]; intros ls ds acc Hspan Hacc.
  - cbn in Hspan. injection Hspan as <- <-. cbn. split; [lia | discriminate].
  - cbn [span_letters] in Hspan.
    destruct (is_upper ch || is_lower ch) eqn:Hletter.
    + destruct (span_letters rest) as [ls' ds'] eqn:Hrest.
      injection Hspan as <- <-. cbn [column_of_letters].
      pose proof (letter_value_pos ch Hletter) as Hv.
      destruct (IH ls' ds' (acc * 26 + letter_value ch) eq_refl) as [Hge _]; [lia|].
      split; [lia|]. intros _. lia.
    + injection Hspan as <- <-. cbn. split; [lia | discriminate].
Qed.

Lemma resolve_positive ref r c :
  resolve ref = inr (r, c) -> 1 <= r /\ 1 <= c.
Proof.
  unfold resolve. destruct (span_letters ref) as [ls ds] eqn:Hspan.
  destruct (nonempty ls && nonempty ds && all_digits ds
            && (1 <=? int_of_digits 0 ds)) eqn:Hok; [|discriminate].
  intros H. injection H as <- <-.
  apply andb_true_iff in Hok. destruct Hok as [Hok Hrow].
  apply andb_true_iff in Hok. destruct Hok as [Hok _].
  apply andb_true_iff in Hok. destruct Hok as [Hls _].
  apply Z.leb_le in Hrow. split; [assumption|].
  destruct (span_letters_column ref ls ds 0 Hspan) as [_ H]; [lia|]. auto.
Qed.

Lemma write_coords_positive start r c :
  write_coords start = inr (r, c) -> 1 <= r /\ 1 <= c.
Proof.
  unfold write_coords, parse_cell_range.
  destruct (split_first_colon start) as [[a b] |].
  - destruct (resolve a) as [e | [r1 c1]] eqn:Ha.
    + destruct (is_ValueError e); discriminate.
    + destruct (resolve b) as [e | [r2 c2]].
      * destruct (is_ValueError e); discriminate.
      * intros H. injection H as <- <-. eapply resolve_positive; eassumption.
  - destruct (resolve start) as [e | [r1 c1]] eqn:Ha.
    + destruct (is_ValueError e); discriminate.
    + intros H. injection H as <- <-. eapply resolve_positive; eassumption.
Qed.

(** ** The cell store *)

Lemma key_eqb_refl k : key_eqb k k = true.
Proof. unfold key_eqb. rewrite !Z.eqb_refl. reflexivity. Qed.

Lemma key_eqb_neq k1 k2 : k1 <> k2 -> key_eqb k1 k2 = false.
Proof.
  destruct k1 as [a b], k2 as [c d]. unfold key_eqb. cbn [fst snd]. intros H.
  destruct (a =? c) eqn:H1; [|reflexivity].
  destruct (b =? d) eqn:H2; [|reflexivity].
  apply Z.eqb_eq in H1, H2. subst. contradiction.
Qed.

Lemma title_store_cell ws r c v : title (store_cell ws r c v) = title ws.
Proof.
  unfold store_cell. destruct v; try reflexivity.
  destruct (lookup_cell (_cells ws) (r, c)); reflexivity.
Qed.

Lemma cell_at_store_cell_same ws r c v :
  value (cell_at (store_cell ws r c v) r c)
  = if is_none v then value (cell_at ws r c) else v.
Proof.
  unfold store_cell, cell_at.
  destruct v; cbn [is_none _cells lookup_cell]; rewrite ?key_eqb_refl;
    try reflexivity.
  destruct (lookup_cell (_cells ws) (r, c)) eqn:H.
  - rewrite H. reflexivity.
  - cbn [_cells lookup_cell]. rewrite key_eqb_refl. reflexivity.
Qed.

Lemma cell_at_store_cell_other ws r c v r' c' :
  (r, c) <> (r', c') ->
  cell_at (store_cell ws r c v) r' c' = cell_at ws r' c'.
Proof.
  intros Hneq. unfold store_cell, cell_at.
  destruct v; cbn [_cells lookup_cell]; rewrite ?(key_eqb_neq _ _ Hneq);
    try reflexivity.
  destruct (lookup_cell (_cells ws) (r, c)); [reflexivity|].
  cbn [_cells lookup_cell]. rewrite (key_eqb_neq _ _ Hneq). reflexivity.
Qed.

Lemma store_all_app ws ps qs :
  store_all ws (ps ++ qs) = store_all (store_all ws ps) qs.
Proof. unfold store_all. apply fold_left_app. Qed.

Lemma title_store_all ps : forall ws, title (store_all ws ps) = title ws.
Proof.
  induction ps as [| p ps IH]; intros ws; [reflexivity|].
  cbn [store_all fold_left]. fold (store_all (store_cell ws (fst (fst p)) (snd (fst p)) (snd p)) ps).
  rewrite IH. apply title_store_cell.
Qed.

Lemma store_all_other ps :
  forall ws r c,
    ~ In (r, c) (map fst ps) ->
    cell_at (store_all ws ps) r c = cell_at ws r c.
Proof.
  induction ps as [| [[r0 c0] v0] ps IH]; intros ws r c Hnot; [reflexivity|].
  cbn [store_all fold_left fst snd].
  fold (store_all (store_cell ws r0 c0 v0) ps).
  rewrite IH.
  - apply cell_at_store_cell_other. intros E. apply Hnot. left. exact E.
  - intros Hin. apply Hnot. right. exact Hin.
Qed.

Lemma store_all_in ps :
  forall ws r c v,
    NoDup (map fst ps) -> In (r, c, v) ps -> v <> PyNone ->
    value (cell_at (store_all ws ps) r c) = v.
Proof.
  induction ps as [| [[r0 c0] v0] ps IH]; intros ws r c v Hnd Hin Hv; [contradiction|].
  cbn [map fst] in Hnd. inversion Hnd as [| k l Hnotin Hnd']. subst.
  cbn [store_all fold_left fst snd].
  fold (store_all (store_cell ws r0 c0 v0) ps).
  destruct Hin as [E | Hin].
  - injection E as <- <- <-.
    rewrite (store_all_other ps _ r0 c0 Hnotin).
    rewrite cell_at_store_cell_same. destruct v0; try reflexivity. contradiction.
  - apply IH; assumption.
Qed.

(** ** Placements *)

Lemma enumerate_from_In {A} (l : list A) :
  forall i0 i x, In (i, x) (enumerate_from i0 l) -> i0 <= i.
Proof.
  induction l as [| y l IH]; intros i0 i x Hin; [contradiction|].
  cbn in Hin. destruct Hin as [E | Hin].
  - injection E as <- _. lia.
  - apply IH in Hin. lia.
Qed.

Lemma enumerate_from_nth {A} (l : list A) :
  forall i0 n x, nth_error l n = Some x ->
                 In (i0 + Z.of_nat n, x) (enumerate_from i0 l).
Proof.
  induction l as [| y l IH]; intros i0 n x Hn.
  - destruct n; discriminate.
  - destruct n as [| n].
    + cbn in Hn. injection Hn as <-. left. f_equal. lia.
    + cbn [nth_error] in Hn. right.
      replace (i0 + Z.of_nat (S n)) with ((i0 + 1) + Z.of_nat n) by lia.
      apply IH. exact Hn.
Qed.

Lemma enumerate_from_NoDup {A} (l : list A) :
  forall i0, NoDup (map fst (enumerate_from i0 l)).
Proof.
  induction l as [| y l IH]; intros i0; cbn; constructor.
  - intros Hin. apply in_map_iff in Hin. destruct Hin as [[i x] [E Hin]].
    cbn in E. subst i. apply enumerate_from_In in Hin. lia.
  - apply IH.
Qed.

Lemma row_placements_NoDup sr sc irow :
  NoDup (map fst (row_placements sr sc irow)).
Proof.
  unfold row_placements, enumerate. rewrite map_map. cbn [fst].
  pose proof (enumerate_from_NoDup (snd irow) 0) as H.
  remember (enumerate_from 0 (snd irow)) as l eqn:Hl. clear Hl.
  induction l as [| [j v] l IH]; cbn; constructor.
  - cbn in H. inversion H as [| k m Hnot Hnd]. subst.
    intros Hin. apply Hnot. apply in_map_iff in Hin.
    destruct Hin as [[j' v'] [E Hin]]. cbn in E. injection E as E.
    apply in_map_iff. exists (j', v'). split; [cbn; lia | exact Hin].
  - apply IH. cbn in H. inversion H. assumption.
Qed.

Lemma placements_from_NoDup sr sc (data : list (list pyval)) :
  forall i0,
    NoDup (map fst (flat_map (row_placements sr sc) (enumerate_from i0 data))) /\
    (forall k, In k (map fst (flat_map (row_placements sr sc) (enumerate_from i0 data))) ->
               sr + i0 <= fst k).
Proof.
  induction data as [| row data IH]; intros i0.
  - cbn. split; [constructor | contradiction].
  - cbn [enumerate_from flat_map]. rewrite map_app.
    destruct (IH (i0 + 1)) as [Hnd Hge].
    assert (Hrow : forall k, In k (map fst (row_placements sr sc (i0, row))) ->
                             fst k = sr + i0).
    { intros k Hin. unfold row_placements in Hin. rewrite map_map in Hin.
      apply in_map_iff in Hin. destruct Hin as [jv [E _]]. subst k. reflexivity. }
    split.
    + apply NoDup_app.
      * apply row_placements_NoDup.
      * exact Hnd.
      * intros k Hin1 Hin2. apply Hrow in Hin1. apply Hge in Hin2. lia.
    + intros k Hin. apply in_app_or in Hin. destruct Hin as [Hin | Hin].
      * apply Hrow in Hin. lia.
      * apply Hge in Hin. lia.
Qed.

Lemma placements_unfold sr sc data :
  placements sr sc data = flat_map (row_placements sr sc) (enumerate data).
Proof. reflexivity. Qed.

Lemma placements_NoDup sr sc data : NoDup (map fst (placements sr sc data)).
Proof. rewrite placements_unfold. apply (placements_from_NoDup sr sc data 0). Qed.

Lemma placements_nth sr sc data i j row v :
  nth_error data i = Some row -> nth_error row j = Some v ->
  In (sr + Z.of_nat i, sc + Z.of_nat j, v) (placements sr sc data).
Proof.
  intros Hi Hj. rewrite placements_unfold. apply in_flat_map.
  exists (Z.of_nat i, row). split.
  - apply (enumerate_from_nth data 0 i row Hi).
  - unfold row_placements. cbn [fst snd]. apply in_map_iff.
    exists (Z.of_nat j, v). split; [reflexivity|].
    apply (enumerate_from_nth row 0 j v Hj).
Qed.

(** ** The loops of the writer *)

Lemma write_row_run sr sc i (row : list pyval) :
  forall j0 ws t wv wsv f,
    1 <= sr + i -> 1 <= sc + j0 ->
    for_each (enumerate_from j0 row) ws
      (fun ws jval =>
         ws_cell_assign ws (sr + i) (sc + fst jval) (snd jval))
      (mkSt t wv wsv f)
    = (inr (store_all ws
              (map (fun jval => (sr + i, sc + fst jval, snd jval))
                   (enumerate_from j0 row))),
       mkSt (t ++ map (set_cell_event (title ws))
                      (map (fun jval => (sr + i, sc + fst jval, snd jval))
                           (enumerate_from j0 row)))
            wv wsv f).
Proof.
  induction row as [| v row IH]; intros j0 ws t wv wsv f Hr Hc.
  - cbn. rewrite app_nil_r. reflexivity.
  - cbn [enumerate_from for_each map]. unfold bind at 1.
    unfold ws_cell_assign at 1. cbn [fst snd].
    assert (Hok : (sr + i <? 1) || (sc + j0 <? 1) = false).
    { apply orb_false_iff. split; apply Z.ltb_ge; lia. }
    rewrite Hok. unfold bind at 1. unfold emit at 1.
    cbn [trace wb_values ws_values fallback_loader_failed ret].
    rewrite (IH (j0 + 1)); [|lia|lia].
    rewrite title_store_cell. cbn [store_all fold_left fst snd].
    rewrite <- app_assoc. reflexivity.
Qed.

Lemma write_rows_run sr sc (data : list (list pyval)) :
  forall i0 ws t wv wsv f,
    1 <= sr + i0 -> 1 <= sc ->
    for_each (enumerate_from i0 data) ws
      (fun ws irow =>
         for_each (enumerate (snd irow)) ws
           (fun ws jval =>
              ws_cell_assign ws (sr + fst irow) (sc + fst jval) (snd jval)))
      (mkSt t wv wsv f)
    = (inr (store_all ws (flat_map (row_placements sr sc) (enumerate_from i0 data))),
       mkSt (t ++ map (set_cell_event (title ws))
                      (flat_map (row_placements sr sc) (enumerate_from i0 data)))
            wv wsv f).
Proof.
  induction data as [| row data IH]; intros i0 ws t wv wsv f Hr Hc.
  - cbn. rewrite app_nil_r. reflexivity.
  - cbn [enumerate_from for_each flat_map]. unfold bind at 1.
    cbn [fst snd]. unfold enumerate.
    rewrite (write_row_run sr sc i0 row 0 ws t wv wsv f); [|lia|lia].
    rewrite (IH (i0 + 1)); [|lia|lia].
    rewrite title_store_all, store_all_app, map_app, <- app_assoc.
    reflexivity.
Qed.

Lemma write_data_to_worksheet_run ws row rows start sr sc t wv wsv f :
  write_coords start = inr (sr, sc) ->
  _write_data_to_worksheet ws (row :: rows) start (mkSt t wv wsv f)
  = (inr (store_all ws (placements sr sc (row :: rows))),
     mkSt (t ++ map (set_cell_event (title ws)) (placements sr sc (row :: rows)))
          wv wsv f).
Proof.
  intros Hcoords. destruct (write_coords_positive _ _ _ Hcoords) as [Hr Hc].
  unfold _write_data_to_worksheet. apply operation_boundary_inr.
  unfold bind at 1. unfold lift at 1. rewrite Hcoords.
  rewrite placements_unfold. unfold enumerate.
  apply (write_rows_run sr sc (row :: rows) 0 ws t wv wsv f); lia.
Qed.

(** ** The written workbook *)

Lemma find_sheet_title wb name ws :
  find_sheet wb name = Some ws -> title ws = name.
Proof.
  unfold find_sheet. intros H. apply find_some in H.
  destruct H as [_ H]. apply String.eqb_eq in H. exact H.
Qed.

Lemma find_sheet_with_sheet wb name ws ws' :
  find_sheet wb name = Some ws -> title ws' = name ->
  find_sheet (with_sheet wb ws') name = Some ws'.
Proof.
  unfold find_sheet, with_sheet. cbn [sheets].
  induction (sheets wb) as [| s rest IH]; intros Hfind Htitle; [discriminate|].
  cbn [find] in Hfind. cbn [replace_first].
  destruct (String.eqb (title s) name) eqn:Hs.
  - rewrite Htitle, Hs. cbn [find]. rewrite Htitle, String.eqb_refl. reflexivity.
  - rewrite Htitle, Hs. cbn [find]. rewrite Hs. apply IH; assumption.
Qed.

(** The steps of [write_data] from the sheet on: the start cell, the cells,
    the save, the close. *)
Ltac write_to_sheet Hfind :=
  let Hcoords := fresh "Hcoords" in
  cbn [ret]; unfold bind at 1; unfold lift at 1;
  destruct (write_coords _) as [? | [? ?]] eqn:Hcoords; [reflexivity|];
  unfold bind at 1;
  rewrite (write_data_to_worksheet_run _ _ _ _ _ _ _ _ _ _ Hcoords),
          (find_sheet_title _ _ _ Hfind);
  unfold bind at 1; unfold save; cbn zeta;
  match goal with
  | |- context [save_result ?e ?p ?w] => destruct (save_result e p w)
  end;
  unfold bind, emit, close, emit, ret, raise, after;
  cbn [trace wb_values ws_values fallback_loader_failed app];
  rewrite <- ?app_assoc; reflexivity.

(** What the body of [write_data] does with a matrix that has a row, by
    cases on the world: the workbook does not load; the selection of the
    sheet raises; the sheet is not in the workbook under the name asked
    for; the start cell is not valid; the save fails; the save goes
    through. *)
Lemma write_data_try_run env fp sheet_name row rows start :
  write_data_try env fp sheet_name (Some (row :: rows)) start init_st
  = match load_formulas env fp with
    | inl e => (inl e, after [EvOpenFailed Primary])
    | inr wb =>
        match write_target wb sheet_name with
        | (inl e, evs) => (inl e, after ([EvOpen Primary] ++ evs))
        | (inr (wb1, sn), evs) =>
            match find_sheet wb1 sn with
            | None =>
                (inl (KeyError (py_repr ("Worksheet " ++ sn ++ " does not exist."))),
                 after ([EvOpen Primary] ++ evs))
            | Some ws =>
                match write_coords start with
                | inl e => (inl e, after ([EvOpen Primary] ++ evs))
                | inr (sr, sc) =>
                    let ps := placements sr sc (row :: rows) in
                    let wb' := with_sheet wb1 (store_all ws ps) in
                    let t := ([EvOpen Primary] ++ evs
                              ++ map (set_cell_event sn) ps)%list in
                    match save_result env fp wb' with
                    | Some e => (inl e, after (t ++ [EvSaveFailed fp wb']))
                    | None =>
                        (inr (mkWriteResult ("Data written to " ++ sn) sn),
                         after (t ++ [EvSave fp wb'; EvClose Primary]))
                    end
                end
            end
        end
    end.
Proof.
  unfold write_data_try. unfold bind at 1. unfold load_workbook.
  destruct (load_formulas env fp) as [e | wb] eqn:Hload; [reflexivity|].
  cbn [bind emit ret init_st trace wb_values ws_values fallback_loader_failed app].
  unfold bind at 1. unfold write_target.
  destruct (negb (truthy sheet_name)).
  - destruct (active wb) as [a |]; [|reflexivity]. cbn [ret].
    unfold bind at 1. unfold wb_getitem.
    destruct (find_sheet wb (title a)) as [ws |] eqn:Hfind; [|reflexivity].
    write_to_sheet Hfind.
  - destruct (negb (in_names (the_string sheet_name) (sheetnames wb))).
    + unfold bind at 1. unfold emit at 1.
      cbn [trace wb_values ws_values fallback_loader_failed ret app].
      unfold bind at 1. unfold lift at 1.
      destruct (create_sheet wb (the_string sheet_name)) as [e | wb1];
        [reflexivity|].
      cbn [ret]. unfold bind at 1. unfold wb_getitem.
      destruct (find_sheet wb1 (the_string sheet_name)) as [ws |] eqn:Hfind;
        [|reflexivity].
      write_to_sheet Hfind.
    + cbn [ret]. unfold bind at 1. unfold wb_getitem.
      destruct (find_sheet wb (the_string sheet_name)) as [ws |] eqn:Hfind;
        [|reflexivity].
      write_to_sheet Hfind.
Qed.

(** What a write does when the workbook loads, the sheet is there, the
    start cell is valid and the save goes through. *)
Lemma write_data_run env fp sheet_name row rows start wb wb1 sn evs ws sr sc :
  load_formulas env fp = inr wb ->
  write_target wb sheet_name = (inr (wb1, sn), evs) ->
  find_sheet wb1 sn = Some ws ->
  write_coords start = inr (sr, sc) ->
  save_result env fp (with_sheet wb1 (store_all ws (placements sr sc (row :: rows))))
  = None ->
  run (write_data env fp sheet_name (Some (row :: rows)) start)
  = (inr (mkWriteResult ("Data written to " ++ sn) sn),
     after ([EvOpen Primary] ++ evs
            ++ map (set_cell_event sn) (placements sr sc (row :: rows))
            ++ [EvSave fp (with_sheet wb1 (store_all ws (placements sr sc (row :: rows))));
                EvClose Primary])).
Proof.
  intros Hload Htarget Hfind Hcoords Hsave.
  unfold run, write_data. apply operation_boundary_inr.
  rewrite write_data_try_run, Hload, Htarget, Hfind, Hcoords. cbn zeta.
  rewrite Hsave, <- !app_assoc. reflexivity.
Qed.

(** ** The used range after a write *)

Lemma fold_left_max_ge (l : list Z) :
  forall a, a <= fold_left Z.max l a /\
            (forall x, In x l -> x <= fold_left Z.max l a).
Proof.
  induction l as [| y l IH]; intros a.
  - cbn. split; [lia | contradiction].
  - cbn [fold_left]. destruct (IH (Z.max a y)) as [H1 H2]. split; [lia|].
    intros x [-> | Hin]; [lia | auto].
Qed.

Lemma fold_max_ge d l x : In x l -> x <= fold_max d l.
Proof.
  destruct l as [| y l]; [contradiction|]. cbn [fold_max].
  destruct (fold_left_max_ge l y) as [H1 H2].
  intros [-> | Hin]; [exact H1 | auto].
Qed.

Lemma key_within_bounds ws r c :
  In (r, c) (map fst (_cells ws)) -> r <= max_row ws /\ c <= max_column ws.
Proof.
  intros Hin. unfold max_row, max_column. split; apply fold_max_ge.
  - apply in_map_iff in Hin. destruct Hin as [kc [E Hin]].
    apply in_map_iff. exists kc. split; [rewrite E; reflexivity | exact Hin].
  - apply in_map_iff in Hin. destruct Hin as [kc [E Hin]].
    apply in_map_iff. exists kc. split; [rewrite E; reflexivity | exact Hin].
Qed.

Lemma key_eqb_eq k1 k2 : key_eqb k1 k2 = true -> k1 = k2.
Proof.
  destruct k1 as [a b], k2 as [c d]. unfold key_eqb. cbn [fst snd]. intros H.
  apply andb_true_iff in H. destruct H as [H1 H2].
  apply Z.eqb_eq in H1, H2. subst. reflexivity.
Qed.

Lemma lookup_cell_In cs k c :
  lookup_cell cs k = Some c -> In k (map fst cs).
Proof.
  induction cs as [| [k' c'] cs IH]; [discriminate|].
  cbn [lookup_cell map fst]. destruct (key_eqb k' k) eqn:Hk.
  - intros _. left. apply key_eqb_eq. exact Hk.
  - intros H. right. apply IH. exact H.
Qed.

Lemma store_cell_key ws r c v :
  In (r, c) (map fst (_cells (store_cell ws r c v))).
Proof.
  unfold store_cell. destruct v; try (left; reflexivity).
  destruct (lookup_cell (_cells ws) (r, c)) eqn:H.
  - eapply lookup_cell_In. exact H.
  - left. reflexivity.
Qed.

Lemma store_cell_keeps_keys ws r c v k :
  In k (map fst (_cells ws)) -> In k (map fst (_cells (store_cell ws r c v))).
Proof.
  intros Hin. unfold store_cell. destruct v; try (right; exact Hin).
  destruct (lookup_cell (_cells ws) (r, c)); [exact Hin | right; exact Hin].
Qed.

Lemma store_all_keeps_keys ps :
  forall ws k, In k (map fst (_cells ws)) -> In k (map fst (_cells (store_all ws ps))).
Proof.
  induction ps as [| p ps IH]; intros ws k Hin; [exact Hin|].
  cbn [store_all fold_left].
  fold (store_all (store_cell ws (fst (fst p)) (snd (fst p)) (snd p)) ps).
  apply IH. apply store_cell_keeps_keys. exact Hin.
Qed.

Lemma store_all_key ps :
  forall ws r c v, In (r, c, v) ps -> In (r, c) (map fst (_cells (store_all ws ps))).
Proof.
  induction ps as [| [[r0 c0] v0] ps IH]; intros ws r c v Hin; [contradiction|].
  cbn [store_all fold_left fst snd].
  fold (store_all (store_cell ws r0 c0 v0) ps).
  destruct Hin as [E | Hin].
  - injection E as <- <- <-. apply store_all_keeps_keys. apply store_cell_key.
  - eapply IH. exact Hin.
Qed.



(** ** A sheet under another name *)

Lemma str_of_Z_nonempty z : str_of_Z z <> "".
Proof.
  unfold str_of_Z, NilZero.string_of_int.
  destruct (Z.to_int z) as [d | d]; [|discriminate].
  unfold NilZero.string_of_uint. destruct d; discriminate.
Qed.

Lemma append_nonempty_neq (a b : string) : b <> "" -> (a ++ b)%string <> a.
Proof.
  intros Hb. induction a as [| c a IH]; cbn [String.append].
  - exact Hb.
  - intros E. injection E as E. exact (IH E).
Qed.

Lemma find_sheet_snoc_none l name new :
  find (fun s => String.eqb (title s) name) l = None ->
  title new <> name ->
  find (fun s => String.eqb (title s) name) (l ++ [new]) = None.
Proof.
  intros Hl Hnew. induction l as [| s rest IH].
  - cbn [app find]. apply String.eqb_neq in Hnew. rewrite Hnew. reflexivity.
  - cbn [app find] in *. destruct (String.eqb (title s) name); [discriminate|].
    apply IH. exact Hl.
Qed.

(** A sheet created under a name that differs from a name of the workbook
    in the case of its letters only is not found under the name asked
    for: its title has a number at its end. *)
Lemma renamed_sheet_is_not_found wb name wb1 :
  in_names name (sheetnames wb) = false ->
  existsb (fun n => String.eqb (lower n) (lower name)) (sheetnames wb) = true ->
  create_sheet wb name = inr wb1 ->
  find_sheet wb1 name = None.
Proof.
  intros Hin Hdup Hcreate. unfold create_sheet in Hcreate.
  destruct (first_invalid_title_char name); [discriminate|].
  injection Hcreate as <-. unfold find_sheet. cbn [sheets].
  apply find_sheet_snoc_none.
  - apply not_in_names_find_sheet in Hin. exact Hin.
  - cbn [title]. unfold avoid_duplicate_name. rewrite Hdup.
    apply append_nonempty_neq, str_of_Z_nonempty.
Qed.


(** So a write to such a name raises a DataError: that of the title, when
    it has a character a title may not have, and else that of the sheet
    that is not there.  The file is not saved, and [wb.save] is not
    called. *)
Lemma write_to_case_variant_fails env fp name row rows start wb :
  load_formulas env fp = inr wb ->
  name <> "" ->
  in_names name (sheetnames wb) = false ->
  existsb (fun n => String.eqb (lower n) (lower name)) (sheetnames wb) = true ->
  exists msg text,
    run (write_data env fp (Some name) (Some (row :: rows)) start)
    = (inl (DataError msg),
       after [EvOpen Primary; EvCreateSheet name; EvLog LError text]) /\
    (first_invalid_title_char name = None ->
     msg = py_repr ("Worksheet " ++ name ++ " does not exist.")).
Proof.
  intros Hload Hname Hin Hdup.
  pose proof (write_data_try_run env fp (Some name) row rows start) as Hbody.
  rewrite Hload in Hbody. unfold write_target in Hbody.
  assert (Ht : truthy (Some name) = true).
  { destruct name; [contradiction | reflexivity]. }
  rewrite Ht in Hbody. cbn [negb the_string] in Hbody. rewrite Hin in Hbody.
  cbn [negb] in Hbody.
  destruct (create_sheet wb name) as [e | wb1] eqn:Hcreate.
  - destruct (operation_boundary_inl "Failed to write data: " _ _ _ _ Hbody)
      as [text Htext].
    exists (str_exn e), text. unfold run, write_data. rewrite Htext.
    split; [reflexivity|].
    intros Hvalid. unfold create_sheet in Hcreate. rewrite Hvalid in Hcreate.
    discriminate.
  - rewrite (renamed_sheet_is_not_found wb name wb1 Hin Hdup Hcreate) in Hbody.
    destruct (operation_boundary_inl "Failed to write data: " _ _ _ _ Hbody)
      as [text Htext].
    exists (py_repr ("Worksheet " ++ name ++ " does not exist.")), text.
    unfold run, write_data. rewrite Htext. split; reflexivity.
Qed.

(** The sheet "data" beside the sheet "Data". *)
Example write_to_data_beside_Data :
  avoid_duplicate_name (sheetnames ex_book) "data" = "data1" /\
  fst ex_written_case_variant = inl (DataError "'Worksheet data does not exist.'") /\
  save_calls (trace (snd ex_written_case_variant)) = 0%nat.
Proof. vm_compute. repeat split. Qed.

(** ** The saved file *)

Lemma valued_cell_key ws r c :
  value (cell_at ws r c) <> PyNone -> In (r, c) (map fst (_cells ws)).
Proof.
  unfold cell_at. destruct (lookup_cell (_cells ws) (r, c)) eqn:H.
  - intros _. eapply lookup_cell_In. exact H.
  - cbn. intros Hv. contradiction.
Qed.

Lemma kept_by_file_value v : kept_by_file v = true -> v <> PyNone.
Proof. intros H ->. discriminate. Qed.

Lemma reloads_refl wb : reloads wb wb.
Proof.
  split; [reflexivity|]. intros name ws Hfind. exists ws. split; [exact Hfind|].
  intros r c _. reflexivity.
Qed.



(** The write to the empty sheet, and the whole sheet read from the
    workbook it saved. *)
Example written_sheet_reads_back :
  fst ex_written = inr (mkWriteResult "Data written to Empty" "Empty") /\
  fst (run (read_excel_range ex_env_written "book.xlsx" "Empty" "A1" None))
  = inr matrix_1234.
Proof. split; vm_compute; reflexivity. Qed.

(** * Further properties of the module *)

(** ** The formula chain on its own *)

(** The loop over the tokens does not raise: it returns what the evaluator
    yields, and the variables of the request stay as they were. *)
Lemma evaluate_tokens_run ev sheet addr st :
  exists st',
    evaluate_tokens ev sheet addr (formula_tokens sheet addr) st
    = (inr (evaluator_yield (Some ev) sheet addr), st') /\
    (evaluator_yield (Some ev) sheet addr <> None -> st' = st).
Proof.
  unfold formula_tokens, evaluator_yield. cbn [evaluate_tokens].
  destruct (ev (sheet ++ "!" ++ addr)) as [e | v].
  - destruct (is_KeyError e).
    + destruct (ev ("'" ++ double_quotes sheet ++ "'!" ++ addr)) as [e2 | v2].
      * destruct (is_KeyError e2).
        -- eexists. split; [reflexivity|]. intros H; congruence.
        -- unfold bind, logger, emit, ret. eexists. split; [reflexivity|].
           intros H; congruence.
      * destruct (is_none v2).
        -- eexists. split; [reflexivity|]. intros H; congruence.
        -- eexists. split; reflexivity.
    + unfold bind, logger, emit, ret. eexists. split; [reflexivity|].
      intros H; congruence.
  - destruct (is_none v).
    + destruct (ev ("'" ++ double_quotes sheet ++ "'!" ++ addr)) as [e2 | v2].
      * destruct (is_KeyError e2).
        -- eexists. split; [reflexivity|]. intros H; congruence.
        -- unfold bind, logger, emit, ret. eexists. split; [reflexivity|].
           intros H; congruence.
      * destruct (is_none v2).
        -- eexists. split; [reflexivity|]. intros H; congruence.
        -- eexists. split; reflexivity.
    + eexists. split; reflexivity.
Qed.

Lemma evaluator_yield_not_none ev sheet addr v :
  evaluator_yield ev sheet addr = Some v -> is_none v = false.
Proof.
  unfold evaluator_yield. destruct ev as [evaluate |]; [|discriminate].
  assert (Hq : forall w,
             match evaluate ("'" ++ double_quotes sheet ++ "'!" ++ addr) with
             | inr v => if is_none v then None else Some v
             | inl _ => None
             end = Some w -> is_none w = false).
  { intros w. destruct (evaluate ("'" ++ double_quotes sheet ++ "'!" ++ addr)) as [e | v2];
      [discriminate|].
    destruct (is_none v2) eqn:Hn; [discriminate|]. intros H. injection H as <-. exact Hn. }
  destruct (evaluate (sheet ++ "!" ++ addr)) as [e | v1].
  - destruct (is_KeyError e); [apply Hq | discriminate].
  - destruct (is_none v1) eqn:Hn; [apply Hq|]. intros H. injection H as <-. exact Hn.
Qed.

(** X1.  [_evaluate_formula_cell] raises nothing, whatever the evaluator
    and the fallback loader do (either may raise any exception): it returns
    a value, and a value that is not None whenever the default is not
    None. *)
Theorem evaluate_formula_cell_never_raises
  (ev : option evaluator) (sheet_name cell_address : string) (row column : Z)
  (fallback_loader : option (Z -> Z -> M pyval)) (default_value : pyval) (st : St) :
  exists v st',
    _evaluate_formula_cell ev sheet_name cell_address row column
      fallback_loader default_value st = (inr v, st') /\
    (default_value <> PyNone -> v <> PyNone).
Proof.
  assert (Hnone : forall v, is_none v = false -> v <> PyNone).
  { intros v H ->. discriminate. }
  unfold _evaluate_formula_cell. unfold bind at 1.
  assert (Hloop : exists st1,
    match ev with
    | Some ev0 => evaluate_tokens ev0 sheet_name cell_address
                    (formula_tokens sheet_name cell_address)
    | None => ret None
    end st = (inr (evaluator_yield ev sheet_name cell_address), st1)).
  { destruct ev as [ev0 |].
    - destruct (evaluate_tokens_run ev0 sheet_name cell_address st) as [st1 [H _]].
      exists st1. exact H.
    - exists st. reflexivity. }
  destruct Hloop as [st1 ->].
  destruct (evaluator_yield ev sheet_name cell_address) as [y |] eqn:Hy.
  - exists y, st1. split; [reflexivity|]. intros _.
    apply Hnone. eapply evaluator_yield_not_none. exact Hy.
  - unfold bind at 1. destruct fallback_loader as [loader |].
    + unfold try_except, bind at 1.
      destruct (loader row column st1) as [[e | cached] st2].
      * unfold bind, logger, emit, ret. eexists _, _. split; [reflexivity|]. auto.
      * cbn [ret]. destruct (is_none cached) eqn:Hc.
        -- eexists _, _. split; [reflexivity|]. auto.
        -- eexists _, _. split; [reflexivity|]. intros _. apply Hnone. exact Hc.
    + eexists _, _. split; [reflexivity|]. auto.
Qed.

(** X2.  When the evaluator yields a value for the cell, that value is
    returned and the fallback loader is not called: the state is the one
    before the call, whatever the loader would do. *)
Theorem evaluator_value_skips_loader
  (ev : evaluator) (sheet_name cell_address : string) (row column : Z)
  (fallback_loader : option (Z -> Z -> M pyval)) (default_value v : pyval) (st : St) :
  evaluator_yield (Some ev) sheet_name cell_address = Some v ->
  _evaluate_formula_cell (Some ev) sheet_name cell_address row column
    fallback_loader default_value st = (inr v, st).
Proof.
  intros Hy. unfold _evaluate_formula_cell. unfold bind at 1.
  destruct (evaluate_tokens_run ev sheet_name cell_address st) as [st1 [Hrun Hst]].
  rewrite Hrun, Hy. rewrite Hst; [reflexivity|]. rewrite Hy. discriminate.
Qed.

(** ** What a metadata read returns, for the region it resolved *)

Lemma read_meta_inr_at env fp sn start end_ iv ef res st' wb ws s' e' sr sc er ec :
  run (read_excel_range_with_metadata env fp sn start end_ iv ef) = (inr res, st') ->
  load_formulas env fp = inr wb -> find_sheet wb sn = Some ws ->
  split_refs start end_ = inr (s', e') ->
  meta_bounds ws s' e' = inr (sr, sc, er, ec) ->
  (beyond_bounds ws sr sc = true /\ res = mkRangeData (s' ++ ":") sn [] /\
   left_open Primary (trace st') = true)
  \/
  (beyond_bounds ws sr sc = false /\
   res = mkRangeData (range_string sr sc er ec) sn
           (region_records env fp ws sn iv ef sr sc er ec) /\
   (1 <= sc <= 18278 /\ 1 <= ec <= 18278 /\ region_ok env ws iv sr sc er ec) /\
   all_closed st').
Proof.
  intros Hrun Hload Hfind Hsplit Hbounds.
  destruct (read_meta_inr _ _ _ _ _ _ _ _ _ Hrun)
    as [wb' [ws' [s'' [e'' [sr' [sc' [er' [ec' H]]]]]]]].
  destruct H as [Hload' [Hfind' [Hsplit' [Hbounds' Hcases]]]].
  rewrite Hload in Hload'. injection Hload' as <-.
  rewrite Hfind in Hfind'. injection Hfind' as <-.
  rewrite Hsplit in Hsplit'. injection Hsplit' as <- <-.
  rewrite Hbounds in Hbounds'. injection Hbounds' as <- <- <- <-.
  destruct Hcases as [[Hb [Hres [_ [_ Hopen]]]] | Hin]; [left | right]; auto.
Qed.

Lemma read_meta_record env fp sn start end_ iv ef res st' wb ws rec :
  run (read_excel_range_with_metadata env fp sn start end_ iv ef) = (inr res, st') ->
  load_formulas env fp = inr wb -> find_sheet wb sn = Some ws ->
  In rec (cells res) ->
  exists r c, rec = record_of env fp ws sn iv ef r c /\ record_ok env ws iv r c.
Proof.
  intros Hrun Hload Hfind Hin.
  destruct (read_meta_inr _ _ _ _ _ _ _ _ _ Hrun)
    as [wb' [ws' [s' [e' [sr [sc [er [ec H]]]]]]]].
  destruct H as [Hload' [Hfind' [_ [_ Hcases]]]].
  rewrite Hload in Hload'. injection Hload' as <-.
  rewrite Hfind in Hfind'. injection Hfind' as <-.
  destruct Hcases as [[_ [Hres _]] | [_ [Hres [[_ [_ Hok]] _]]]].
  - rewrite Hres in Hin. destruct Hin.
  - rewrite Hres in Hin. cbn [cells] in Hin.
    apply in_region_records in Hin. destruct Hin as [r [c [Hr [Hc Hrec]]]].
    exists r, c. split; [exact Hrec | apply Hok; assumption].
Qed.

(** The rows and columns of the records of a region, in the order of the
    loops. *)
Lemma region_records_coordinates env fp ws sn iv ef sr sc er ec :
  map (fun rec => (cd_row rec, cd_column rec))
      (region_records env fp ws sn iv ef sr sc er ec)
  = flat_map (fun r => map (fun c => (r, c)) (py_range sc (ec + 1)))
             (py_range sr (er + 1)).
Proof.
  unfold region_records.
  induction (py_range sr (er + 1)) as [| r rows IH]; [reflexivity|].
  cbn [flat_map]. rewrite map_app, IH. f_equal.
  rewrite map_map. reflexivity.
Qed.

Lemma region_records_empty env fp ws sn iv ef sr sc er ec :
  er < sr \/ ec < sc ->
  region_records env fp ws sn iv ef sr sc er ec = [].
Proof.
  intros H. unfold region_records.
  destruct H as [H | H].
  - unfold py_range at 2. replace (Z.to_nat (er + 1 - sr)) with 0%nat by lia.
    reflexivity.
  - unfold py_range at 1. replace (Z.to_nat (ec + 1 - sc)) with 0%nat by lia.
    cbn [seq map].
    induction (py_range sr (er + 1)) as [| r rows IH]; [reflexivity|].
    cbn [flat_map app]. exact IH.
Qed.

Lemma region_values_empty ws sr sc er ec :
  er < sr \/ ec < sc ->
  filter has_value (region_values ws sr sc er ec) = [].
Proof.
  intros H. unfold region_values, row_values.
  destruct H as [H | H].
  - unfold py_range at 2. replace (Z.to_nat (er + 1 - sr)) with 0%nat by lia.
    reflexivity.
  - unfold py_range at 1. replace (Z.to_nat (ec + 1 - sc)) with 0%nat by lia.
    cbn [seq map].
    induction (py_range sr (er + 1)) as [| r rows IH]; [reflexivity|].
    cbn [map filter has_value existsb]. exact IH.
Qed.

(** ** A read that does not evaluate formulas *)

Lemma for_each_keeps_state {A B} (body : B -> A -> M B) :
  (forall acc x st, snd (body acc x st) = st) ->
  forall l acc st, snd (for_each l acc body st) = st.
Proof.
  intros Hbody. induction l as [| x l IH]; intros acc st; [reflexivity|].
  cbn [for_each]. unfold bind.
  pose proof (Hbody acc x st) as Hx.
  destruct (body acc x st) as [[e | acc'] st1]; cbn [snd] in Hx; subst st1.
  - reflexivity.
  - apply IH.
Qed.

Lemma cell_record_unevaluated env ws sn iv r c st :
  snd (cell_record env ws sn iv false None None r c st) = st.
Proof.
  unfold cell_record, bind, ws_cell.
  destruct ((r <? 1) || (c <? 1)); [reflexivity|]. cbn [ret].
  unfold lift at 1. destruct (get_column_letter c) as [e | letter]; [reflexivity|].
  unfold cell_value. cbn [ret].
  unfold cell_validation. destruct iv; [|reflexivity].
  unfold bind, lift.
  destruct (get_data_validation_for_cell env ws (letter ++ str_of_Z r)) as [e | info];
    [reflexivity|].
  destruct info as [[| entry more] |]; reflexivity.
Qed.

Lemma meta_cells_unevaluated env ws sn iv sr sc er ec st :
  snd (meta_cells env ws sn iv false None None sr sc er ec st) = st.
Proof.
  unfold meta_cells. apply for_each_keeps_state.
  intros acc row st0. apply for_each_keeps_state.
  intros acc' col st1. unfold bind.
  pose proof (cell_record_unevaluated env ws sn iv row col st1) as H.
  destruct (cell_record env ws sn iv false None None row col st1) as [[e | rec] st2];
    cbn [snd] in H; subst st2; reflexivity.
Qed.

Lemma open_attempts_logged h st ev :
  is_open h ev = false -> is_open_failed h ev = false ->
  open_attempts h (trace (logged st ev)) = open_attempts h (trace st).
Proof.
  intros Ho Hf. unfold open_attempts, opens, open_failures, logged. cbn [trace].
  rewrite !count_snoc, Ho, Hf. lia.
Qed.

Lemma meta_region_unevaluated h env ws sn iv s sr sc er ec st :
  wb_values st = None ->
  open_attempts h
    (trace (snd (meta_region env ws sn iv false None None s sr sc er ec st)))
  = open_attempts h (trace st).
Proof.
  intros Hwb. unfold meta_region.
  destruct (beyond_bounds ws sr sc).
  - unfold bind at 1.
    destruct (boundary_warning s ws st) as [[e | u] st1] eqn:Hw.
    + apply boundary_warning_fails in Hw. destruct Hw as [-> _]. reflexivity.
    + assert (Hcols : sheet_cols_ok ws).
      { unfold boundary_warning, bind, lift in Hw.
        destruct (get_column_letter (min_column ws)) as [e1 | lo] eqn:Hlo; [discriminate|].
        destruct (get_column_letter (max_column ws)) as [e2 | hi] eqn:Hhi; [discriminate|].
        apply get_column_letter_inr in Hlo, Hhi. split; tauto. }
      rewrite (boundary_warning_run _ _ _ Hcols) in Hw. injection Hw as _ <-.
      cbn [ret snd]. apply open_attempts_logged; reflexivity.
  - unfold bind at 1. unfold lift at 1.
    destruct (get_column_letter sc) as [e | lo]; [reflexivity|].
    unfold bind at 1. unfold lift at 1.
    destruct (get_column_letter ec) as [e | hi]; [reflexivity|].
    unfold bind at 1.
    pose proof (meta_cells_unevaluated env ws sn iv sr sc er ec st) as Hst.
    destruct (meta_cells env ws sn iv false None None sr sc er ec st)
      as [[e | cells] st1]; cbn [snd] in Hst; subst st1; [reflexivity|].
    unfold bind, close, emit, get_st.
    cbn [trace wb_values ws_values fallback_loader_failed].
    rewrite Hwb. cbn [ret snd trace].
    change (open_attempts h (trace (logged st (EvClose Primary)))
            = open_attempts h (trace st)).
    apply open_attempts_logged; reflexivity.
Qed.

Lemma read_meta_try_unevaluated env fp sn start end_ iv :
  open_attempts ValuesOnly
    (trace (snd (read_excel_range_with_metadata_try env fp sn start end_ iv false
                   init_st))) = 0%nat /\
  (open_attempts Primary
     (trace (snd (read_excel_range_with_metadata_try env fp sn start end_ iv false
                    init_st)))
   = match load_formulas env fp, resolve_error env fp with
     | inl _, Some _ => 0%nat
     | _, _ => 1%nat
     end).
Proof.
  remember (read_excel_range_with_metadata_try env fp sn start end_ iv false init_st)
    as out eqn:Hrun.
  unfold read_excel_range_with_metadata_try in Hrun.
  unfold bind at 1 in Hrun. unfold resolve_path in Hrun.
  destruct (load_formulas env fp) as [e0 | wb] eqn:Hload.
  { destruct (resolve_error env fp) as [e1 |].
    - cbn in Hrun. subst out. split; reflexivity.
    - cbn [ret] in Hrun. unfold bind at 1 in Hrun. unfold load_workbook in Hrun.
      rewrite Hload in Hrun. cbn in Hrun. subst out. split; reflexivity. }
  cbn [ret] in Hrun. unfold bind at 1 in Hrun. unfold load_workbook in Hrun.
  rewrite Hload in Hrun.
  cbn [bind emit ret init_st trace wb_values ws_values fallback_loader_failed app]
    in Hrun.
  unfold bind at 1 in Hrun. unfold set_wb_values at 1 in Hrun.
  cbn [trace wb_values ws_values fallback_loader_failed] in Hrun.
  unfold bind at 1 in Hrun. unfold set_ws_values at 1 in Hrun.
  cbn [trace wb_values ws_values fallback_loader_failed] in Hrun.
  unfold bind at 1 in Hrun. unfold set_fallback_loader_failed at 1 in Hrun.
  cbn [trace wb_values ws_values fallback_loader_failed] in Hrun.
  unfold bind at 1 in Hrun. cbn [ret] in Hrun.
  destruct (in_names sn (sheetnames wb)) eqn:Hin; cbn [negb] in Hrun.
  2:{ cbn [raise] in Hrun. subst out. split; reflexivity. }
  destruct (in_names_find_sheet _ _ Hin) as [ws Hfind].
  unfold bind at 1 in Hrun. unfold wb_getitem in Hrun. rewrite Hfind in Hrun.
  cbn [ret] in Hrun.
  unfold bind at 1 in Hrun. unfold lift at 1 in Hrun.
  destruct (split_refs start end_) as [e1 | [s' e']] eqn:Hsplit.
  { subst out. split; reflexivity. }
  unfold bind at 1 in Hrun. unfold lift at 1 in Hrun.
  destruct (meta_bounds ws s' e') as [e2 | [[[sr sc] er] ec]] eqn:Hbounds.
  { subst out. split; reflexivity. }
  subst out. split.
  - rewrite meta_region_unevaluated; reflexivity.
  - rewrite meta_region_unevaluated; reflexivity.
Qed.

(** X4.  A metadata read that was not asked to evaluate formulas makes no
    attempt to open the data-only workbook, whatever its outcome.  It calls
    [load_workbook] for the primary workbook once, when the workbook loads
    and when the path resolves; when [Path.resolve] raises for the path
    (line 260) it has called [load_workbook] not at all, and the read
    raises the DataError of that exception. *)
Theorem unevaluated_read_opens_one_workbook
  (env : Env) (fp sn start : string) (end_ : option string) (iv : bool) :
  let out := run (read_excel_range_with_metadata env fp sn start end_ iv false) in
  open_attempts ValuesOnly (trace (snd out)) = 0%nat /\
  (forall wb, load_formulas env fp = inr wb ->
              open_attempts Primary (trace (snd out)) = 1%nat) /\
  (resolve_error env fp = None ->
   open_attempts Primary (trace (snd out)) = 1%nat) /\
  (forall e e', load_formulas env fp = inl e -> resolve_error env fp = Some e' ->
                fst out = inl (DataError (str_exn e')) /\
                exists text, trace (snd out) = [EvLog LError text]).
Proof.
  cbv zeta. unfold run, read_excel_range_with_metadata.
  pose proof (read_meta_try_unevaluated env fp sn start end_ iv) as [Hv Hp].
  assert (Hsame : forall h,
    open_attempts h
      (trace (snd (operation_boundary "Failed to read Excel range with metadata: "
                     (read_excel_range_with_metadata_try env fp sn start end_ iv false)
                     init_st)))
    = open_attempts h
        (trace (snd (read_excel_range_with_metadata_try env fp sn start end_ iv false
                       init_st)))).
  { intros h.
    destruct (read_excel_range_with_metadata_try env fp sn start end_ iv false init_st)
      as [[e | res] st0] eqn:Hbody.
    - destruct (operation_boundary_inl "Failed to read Excel range with metadata: "
                  _ _ _ _ Hbody) as [text Ht].
      rewrite Ht. cbn [snd]. apply open_attempts_logged; reflexivity.
    - rewrite (operation_boundary_inr _ _ _ _ _ Hbody). reflexivity. }
  rewrite !Hsame, Hv, Hp.
  split; [reflexivity|]. split; [|split].
  - intros wb ->. reflexivity.
  - intros ->. destruct (load_formulas env fp); reflexivity.
  - intros e e' Hload Hres.
    assert (Hbody :
      read_excel_range_with_metadata_try env fp sn start end_ iv false init_st
      = (inl e', init_st)).
    { unfold read_excel_range_with_metadata_try. unfold bind at 1.
      unfold resolve_path. rewrite Hload, Hres. reflexivity. }
    unfold operation_boundary, try_except. rewrite Hbody.
    destruct e'; (split; [reflexivity | eexists; reflexivity]).
Qed.

(** X3.  Without formula evaluation every record carries the value stored
    in its cell: a formula cell is reported with its formula text, and
    neither the evaluator nor the data-only view has a say. *)
Theorem unevaluated_read_reports_stored_values
  (env : Env) (fp sn start : string) (end_ : option string) (iv : bool)
  (res : range_data) (st' : St) (wb : workbook) (ws : worksheet) (rec : cell_data) :
  run (read_excel_range_with_metadata env fp sn start end_ iv false) = (inr res, st') ->
  load_formulas env fp = inr wb ->
  find_sheet wb sn = Some ws ->
  In rec (cells res) ->
  cd_value rec = value (cell_at ws (cd_row rec) (cd_column rec)).
Proof.
  intros Hrun Hload Hfind Hin.
  destruct (read_meta_record _ _ _ _ _ _ _ _ _ _ _ _ Hrun Hload Hfind Hin)
    as [r [c [-> _]]].
  reflexivity.
Qed.

Lemma evaluator_value_skips_loader_witness :
  _evaluate_formula_cell (Some ex_evaluate) "Data" "B3" 3 2
    (Some (fun _ _ => raise (OtherError "not to be called"))) (PyStr "=A1*2") init_st
  = (inr (PyInt 4), init_st).
Proof.
  apply (evaluator_value_skips_loader ex_evaluate "Data" "B3" 3 2
           (Some (fun _ _ => raise (OtherError "not to be called")))
           (PyStr "=A1*2") (PyInt 4) init_st).
  reflexivity.
Defined.

Lemma unevaluated_read_reports_stored_values_witness :
  cd_value (nth 4 (cells (result_of (mkRangeData "" "" []) ex_meta_read_A1_B4))
              (mkCellData "" PyNone 0 0 None))
  = PyStr "=SUM(A1:A2)".
Proof.
  assert (Hrun : run (read_excel_range_with_metadata ex_env "book.xlsx" "Data" "A1"
                        (Some "B4") true false)
                 = (inr (result_of (mkRangeData "" "" []) ex_meta_read_A1_B4),
                    snd ex_meta_read_A1_B4))
    by (vm_compute; reflexivity).
  assert (Hin : In (nth 4 (cells (result_of (mkRangeData "" "" []) ex_meta_read_A1_B4))
                      (mkCellData "" PyNone 0 0 None))
                   (cells (result_of (mkRangeData "" "" []) ex_meta_read_A1_B4)))
    by (vm_compute; tauto).
  rewrite (unevaluated_read_reports_stored_values ex_env "book.xlsx" "Data" "A1"
             (Some "B4") true _ _ ex_book ex_data _ Hrun eq_refl eq_refl Hin).
  vm_compute. reflexivity.
Defined.

(** ** The shape of a metadata result *)

(** X5.  The records of a metadata read come in row-major order: row by
    row from the first row of the region to its last, and within a row
    from the first column to the last; the address of a record is the
    letters of its column followed by its row, and the range field names
    the first and the last cell of the region. *)
Theorem records_in_row_major_order
  (env : Env) (fp sn start : string) (end_ : option string) (iv ef : bool)
  (res : range_data) (st' : St) (wb : workbook) (ws : worksheet)
  (s' : string) (e' : option string) (sr sc er ec : Z) :
  run (read_excel_range_with_metadata env fp sn start end_ iv ef) = (inr res, st') ->
  load_formulas env fp = inr wb ->
  find_sheet wb sn = Some ws ->
  split_refs start end_ = inr (s', e') ->
  meta_bounds ws s' e' = inr (sr, sc, er, ec) ->
  beyond_bounds ws sr sc = false ->
  map (fun rec => (cd_row rec, cd_column rec)) (cells res)
  = flat_map (fun r => map (fun c => (r, c)) (py_range sc (ec + 1)))
             (py_range sr (er + 1)) /\
  (forall rec, In rec (cells res) ->
     exists letter, get_column_letter (cd_column rec) = inr letter /\
                    address rec = letter ++ str_of_Z (cd_row rec)) /\
  (exists lo hi, get_column_letter sc = inr lo /\ get_column_letter ec = inr hi /\
                 range res = lo ++ str_of_Z sr ++ ":" ++ hi ++ str_of_Z er) /\
  rd_sheet_name res = sn.
Proof.
  intros Hrun Hload Hfind Hsplit Hbounds Hb.
  destruct (read_meta_inr_at _ _ _ _ _ _ _ _ _ _ _ _ _ _ _ _ _
              Hrun Hload Hfind Hsplit Hbounds)
    as [[Hb' _] | [_ [Hres [[Hsc [Hec Hok]] _]]]]; [congruence|].
  subst res. cbn [cells range rd_sheet_name].
  split; [apply region_records_coordinates|]. split; [|split].
  - intros rec Hin. apply in_region_records in Hin.
    destruct Hin as [r [c [Hr [Hc ->]]]].
    destruct (Hok r c Hr Hc) as [_ [Hcol _]].
    exists (column_letters 3 c). split.
    + apply get_column_letter_ok. exact Hcol.
    + reflexivity.
  - exists (column_letters 3 sc), (column_letters 3 ec).
    split; [apply get_column_letter_ok; exact Hsc|].
    split; [apply get_column_letter_ok; exact Hec|]. reflexivity.
  - reflexivity.
Qed.

Lemma records_in_row_major_order_witness :
  map (fun rec => (cd_row rec, cd_column rec))
      (cells (result_of (mkRangeData "" "" []) ex_meta_read_A1_B4))
  = [(1, 1); (1, 2); (2, 1); (2, 2); (3, 1); (3, 2); (4, 1); (4, 2)].
Proof.
  assert (Hrun : run (read_excel_range_with_metadata ex_env "book.xlsx" "Data" "A1"
                        (Some "B4") true false)
                 = (inr (result_of (mkRangeData "" "" []) ex_meta_read_A1_B4),
                    snd ex_meta_read_A1_B4))
    by (vm_compute; reflexivity).
  destruct (records_in_row_major_order ex_env "book.xlsx" "Data" "A1" (Some "B4")
              true false _ _ ex_book ex_data "A1" (Some "B4") 1 1 4 2
              Hrun eq_refl eq_refl eq_refl eq_refl eq_refl) as [Horder _].
  exact Horder.
Defined.

(** X6.  The validation entry of a record follows the request: without
    [include_validation] no record has one; with it every record has one,
    the dict the lookup gave when that is not empty and
    [{"has_validation": False}] when the lookup gave None or an empty
    dict. *)
Theorem validation_entry_follows_flag
  (env : Env) (fp sn start : string) (end_ : option string) (iv ef : bool)
  (res : range_data) (st' : St) (wb : workbook) (ws : worksheet) (rec : cell_data) :
  run (read_excel_range_with_metadata env fp sn start end_ iv ef) = (inr res, st') ->
  load_formulas env fp = inr wb ->
  find_sheet wb sn = Some ws ->
  In rec (cells res) ->
  (iv = false -> validation rec = None) /\
  (iv = true ->
   exists info,
     get_data_validation_for_cell env ws (address rec) = inr info /\
     validation rec = Some (match info with
                            | Some (entry :: more) => entry :: more
                            | _ => no_validation
                            end)).
Proof.
  intros Hrun Hload Hfind Hin.
  destruct (read_meta_record _ _ _ _ _ _ _ _ _ _ _ _ Hrun Hload Hfind Hin)
    as [r [c [-> [_ [_ Hok]]]]].
  cbn [validation address record_of]. unfold validation_of. split.
  - intros ->. reflexivity.
  - intros ->. destruct (Hok eq_refl) as [info Hinfo]. exists info.
    split; [exact Hinfo|]. rewrite Hinfo.
    destruct info as [[| entry more] |]; reflexivity.
Qed.

Lemma validation_entry_follows_flag_witness :
  validation (nth 0 (cells (result_of (mkRangeData "" "" []) ex_meta_read_A1_B4))
                (mkCellData "" PyNone 0 0 None))
  = Some [("has_validation", PyBool false)].
Proof.
  assert (Hrun : run (read_excel_range_with_metadata ex_env "book.xlsx" "Data" "A1"
                        (Some "B4") true false)
                 = (inr (result_of (mkRangeData "" "" []) ex_meta_read_A1_B4),
                    snd ex_meta_read_A1_B4))
    by (vm_compute; reflexivity).
  assert (Hin : In (nth 0 (cells (result_of (mkRangeData "" "" []) ex_meta_read_A1_B4))
                      (mkCellData "" PyNone 0 0 None))
                   (cells (result_of (mkRangeData "" "" []) ex_meta_read_A1_B4)))
    by (vm_compute; tauto).
  destruct (validation_entry_follows_flag ex_env "book.xlsx" "Data" "A1" (Some "B4")
              true false _ _ ex_book ex_data _ Hrun eq_refl eq_refl Hin)
    as [_ Hwith].
  destruct (Hwith eq_refl) as [info [Hinfo Hval]].
  rewrite Hval. vm_compute in Hinfo. injection Hinfo as <-. reflexivity.
Defined.

(** ** A range given in the start reference *)

Lemma split_colon_no_colon s :
  contains_colon s = false -> split_colon s = [s].
Proof.
  induction s as [| ch s IH]; [reflexivity|].
  cbn [contains_colon split_colon]. intros H.
  apply orb_false_iff in H. destruct H as [Hc Hs].
  rewrite Hc, (IH Hs). reflexivity.
Qed.

Lemma split_colon_not_nil s : split_colon s <> [].
Proof.
  destruct s as [| ch s]; cbn [split_colon]; [discriminate|].
  destruct (Ascii.eqb ch colon); [discriminate|].
  destruct (split_colon s); discriminate.
Qed.

Lemma split_colon_cons a b :
  split_colon (a ++ String colon b) = (split_colon a ++ split_colon b)%list.
Proof.
  induction a as [| ch a IH].
  - reflexivity.
  - cbn [String.append split_colon]. rewrite IH. destruct (Ascii.eqb ch colon).
    + reflexivity.
    + destruct (split_colon a) as [| h t] eqn:Ha.
      * exfalso. exact (split_colon_not_nil a Ha).
      * reflexivity.
Qed.

Lemma split_colon_app a b :
  split_colon (a ++ ":" ++ b) = (split_colon a ++ split_colon b)%list.
Proof. exact (split_colon_cons a b). Qed.

Lemma contains_colon_app a b : contains_colon (a ++ ":" ++ b) = true.
Proof.
  change (contains_colon (a ++ String colon b) = true).
  induction a as [| ch a IH]; [reflexivity|].
  cbn [String.append contains_colon]. rewrite IH. apply orb_true_r.
Qed.

Lemma split_refs_range a b end_ :
  contains_colon a = false -> contains_colon b = false ->
  split_refs (a ++ ":" ++ b) end_ = inr (a, Some b).
Proof.
  intros Ha Hb. unfold split_refs.
  rewrite contains_colon_app, split_colon_app.
  rewrite (split_colon_no_colon a Ha), (split_colon_no_colon b Hb). reflexivity.
Qed.

Lemma split_refs_plain a end_ :
  contains_colon a = false -> split_refs a end_ = inr (a, end_).
Proof. intros Ha. unfold split_refs. rewrite Ha. reflexivity. Qed.

Lemma split_refs_too_many a b c end_ :
  split_refs (a ++ ":" ++ b ++ ":" ++ c) end_
  = inl (ValueError "too many values to unpack (expected 2)").
Proof.
  unfold split_refs. rewrite contains_colon_app, !split_colon_app.
  destruct (split_colon a) as [| a1 ta] eqn:Ha;
    [exfalso; exact (split_colon_not_nil a Ha)|].
  destruct (split_colon b) as [| b1 tb] eqn:Hb;
    [exfalso; exact (split_colon_not_nil b Hb)|].
  destruct (split_colon c) as [| c1 tc] eqn:Hc;
    [exfalso; exact (split_colon_not_nil c Hc)|].
  destruct ta as [| a2 ta]; cbn [app].
  - destruct tb as [| b2 tb]; cbn [app]; reflexivity.
  - destruct ta as [| a3 ta]; cbn [app]; reflexivity.
Qed.

(** X7.  A start reference that holds a range, "a:b", is read as the start
    a and the end b, and the [end_cell] argument of the call is dropped: in
    both reads the run is the run of the call with start a and end b. *)
Theorem range_in_start_cell_overrides_end
  (env : Env) (fp sn a b : string) (end_ : option string) (iv ef : bool) :
  contains_colon a = false ->
  contains_colon b = false ->
  read_excel_range env fp sn (a ++ ":" ++ b) end_
  = read_excel_range env fp sn a (Some b) /\
  read_excel_range_with_metadata env fp sn (a ++ ":" ++ b) end_ iv ef
  = read_excel_range_with_metadata env fp sn a (Some b) iv ef.
Proof.
  intros Ha Hb.
  unfold read_excel_range, read_excel_range_try,
    read_excel_range_with_metadata, read_excel_range_with_metadata_try.
  rewrite (split_refs_range a b end_ Ha Hb), (split_refs_plain a (Some b) Ha).
  split; reflexivity.
Qed.

Lemma range_in_start_cell_overrides_end_witness :
  run (read_excel_range ex_env "book.xlsx" "Data" "A1:B2" (Some "B4"))
  = run (read_excel_range ex_env "book.xlsx" "Data" "A1" (Some "B2")).
Proof.
  destruct (range_in_start_cell_overrides_end ex_env "book.xlsx" "Data" "A1" "B2"
              (Some "B4") false false eq_refl eq_refl) as [Hplain _].
  change ("A1:B2") with ("A1" ++ ":" ++ "B2").
  rewrite Hplain. reflexivity.
Defined.

(** X8.  A start reference with two colons or more cannot be unpacked into
    a start and an end: on a workbook that loads and a sheet that is there,
    both reads raise DataError("too many values to unpack (expected 2)"),
    whatever the end reference of the call. *)
Theorem start_with_two_colons_is_data_error
  (env : Env) (fp sn a b c : string) (end_ : option string) (iv ef : bool)
  (wb : workbook) (ws : worksheet) :
  load_formulas env fp = inr wb ->
  find_sheet wb sn = Some ws ->
  fst (run (read_excel_range env fp sn (a ++ ":" ++ b ++ ":" ++ c) end_))
  = inl (DataError "too many values to unpack (expected 2)") /\
  fst (run (read_excel_range_with_metadata env fp sn (a ++ ":" ++ b ++ ":" ++ c)
              end_ iv ef))
  = inl (DataError "too many values to unpack (expected 2)").
Proof.
  intros Hload Hfind.
  pose proof (find_sheet_in_names _ _ _ Hfind) as Hin.
  split.
  - unfold run, read_excel_range.
    assert (Hbody : exists st0,
      read_excel_range_try env fp sn (a ++ ":" ++ b ++ ":" ++ c) end_ init_st
      = (inl (ValueError "too many values to unpack (expected 2)"), st0)).
    { unfold read_excel_range_try. rewrite split_refs_too_many.
      unfold load_workbook. rewrite Hload.
      unfold bind at 1. cbn [bind emit ret]. rewrite Hin. cbn [negb].
      unfold wb_getitem. rewrite Hfind. cbn [ret].
      unfold bind, lift. eexists. reflexivity. }
    destruct Hbody as [st0 Hbody].
    destruct (operation_boundary_inl "Failed to read Excel range: " _ _ _ _ Hbody)
      as [text Ht].
    rewrite Ht. reflexivity.
  - unfold run, read_excel_range_with_metadata.
    destruct (read_meta_try_cases env fp sn (a ++ ":" ++ b ++ ":" ++ c) end_ iv ef)
      as [[e [st0 [Hfail _]]] | [wb' [ws' [s' [e' [sr [sc [er [ec [st1 H]]]]]]]]]].
    2:{ destruct H as [_ [_ [Hsplit _]]]. rewrite split_refs_too_many in Hsplit.
        discriminate. }
    assert (He : e = ValueError "too many values to unpack (expected 2)").
    { unfold read_excel_range_with_metadata_try in Hfail.
      rewrite split_refs_too_many in Hfail.
      unfold bind at 1 in Hfail. unfold resolve_path in Hfail.
      rewrite Hload in Hfail. cbn [ret] in Hfail.
      unfold bind at 1 in Hfail. unfold load_workbook in Hfail.
      rewrite Hload in Hfail.
      cbn [bind emit ret init_st trace wb_values ws_values fallback_loader_failed app]
        in Hfail.
      unfold bind at 1 in Hfail. unfold set_wb_values at 1 in Hfail.
      cbn [trace wb_values ws_values fallback_loader_failed] in Hfail.
      unfold bind at 1 in Hfail. unfold set_ws_values at 1 in Hfail.
      cbn [trace wb_values ws_values fallback_loader_failed] in Hfail.
      unfold bind at 1 in Hfail. unfold set_fallback_loader_failed at 1 in Hfail.
      cbn [trace wb_values ws_values fallback_loader_failed] in Hfail.
      destruct (meta_setup_run env fp sn ef) as [st1 [_ [_ Hsetup]]].
      unfold bind at 1 in Hfail. rewrite Hsetup, Hin in Hfail.
      cbn [negb] in Hfail. unfold bind at 1 in Hfail.
      unfold wb_getitem in Hfail. rewrite Hfind in Hfail. cbn [ret] in Hfail.
      unfold bind, lift in Hfail. injection Hfail as <- _. reflexivity. }
    subst e.
    destruct (operation_boundary_inl "Failed to read Excel range with metadata: "
                _ _ _ _ Hfail) as [text Ht].
    rewrite Ht. reflexivity.
Qed.

Lemma start_with_two_colons_is_data_error_witness :
  fst (run (read_excel_range ex_env "book.xlsx" "Data" "A1:B2:C3" None))
  = inl (DataError "too many values to unpack (expected 2)").
Proof.
  destruct (start_with_two_colons_is_data_error ex_env "book.xlsx" "Data"
              "A1" "B2" "C3" None false false ex_book ex_data eq_refl eq_refl)
    as [Hplain _].
  exact Hplain.
Defined.

(** ** Every outcome of a write *)



(** X9.  A write with no data (None or an empty list) raises
    DataError("No data provided to write") before the workbook is opened:
    the error log is the only event.  The guard of
    [_write_data_to_worksheet] does the same for a direct call, and no cell
    is set. *)
Theorem write_without_data_touches_nothing
  (env : Env) (fp : string) (sheet_name : option string) (start : string)
  (ws : worksheet) (st : St) :
  run (write_data env fp sheet_name None start)
  = (inl (DataError "No data provided to write"),
     after [EvLog LError "No data provided to write"]) /\
  run (write_data env fp sheet_name (Some []) start)
  = (inl (DataError "No data provided to write"),
     after [EvLog LError "No data provided to write"]) /\
  _write_data_to_worksheet ws [] start st
  = (inl (DataError "No data provided to write"),
     logged st (EvLog LError "No data provided to write")).
Proof. repeat split. Qed.


(** ** What a write leaves as it was *)












(** ** Reading back what was written *)

Lemma nth_error_py_range a b n :
  nth_error (py_range a b) n
  = if Z.of_nat n <? b - a then Some (a + Z.of_nat n) else None.
Proof.
  unfold py_range. rewrite nth_error_map, nth_error_seq.
  destruct (Nat.ltb_spec n (Z.to_nat (b - a))) as [Hlt | Hge];
    destruct (Z.ltb_spec (Z.of_nat n) (b - a)) as [Hlt' | Hge']; try lia;
    reflexivity.
Qed.

(** A region whose cells hold the entries of a rectangular matrix reads as
    that matrix. *)
Lemma region_values_matrix ws sr sc (data : list (list pyval)) (width : nat) :
  (forall i line, nth_error data i = Some line -> List.length line = width) ->
  (forall i j line v,
      nth_error data i = Some line -> nth_error line j = Some v ->
      value (cell_at ws (sr + Z.of_nat i) (sc + Z.of_nat j)) = v) ->
  region_values ws sr sc (sr + Z.of_nat (List.length data) - 1)
    (sc + Z.of_nat width - 1) = data.
Proof.
  intros Hwidth Hcells. apply nth_error_ext. intros n.
  unfold region_values. rewrite nth_error_map, nth_error_py_range.
  destruct (Z.ltb_spec (Z.of_nat n) (sr + Z.of_nat (List.length data) - 1 + 1 - sr))
    as [Hlt | Hge].
  - destruct (nth_error data n) as [line |] eqn:Hline.
    2:{ apply nth_error_None in Hline. lia. }
    cbn [option_map]. f_equal. apply nth_error_ext. intros m.
    unfold row_values. rewrite nth_error_map, nth_error_py_range.
    pose proof (Hwidth n line Hline) as Hlen.
    destruct (Z.ltb_spec (Z.of_nat m) (sc + Z.of_nat width - 1 + 1 - sc))
      as [Hlt' | Hge'].
    + destruct (nth_error line m) as [v |] eqn:Hv.
      2:{ apply nth_error_None in Hv. lia. }
      cbn [option_map]. f_equal. apply (Hcells n m line v Hline Hv).
    + cbn [option_map]. symmetry. apply nth_error_None. lia.
  - cbn [option_map]. symmetry. apply nth_error_None. lia.
Qed.

Lemma has_value_full (line : list pyval) :
  line <> [] -> Forall (fun v => v <> PyNone) line -> has_value line = true.
Proof.
  intros Hne Hall. destruct line as [| v line]; [contradiction|].
  inversion Hall as [| v' l' Hv _]. subst.
  unfold has_value. cbn [existsb]. destruct v; try reflexivity. contradiction.
Qed.

Lemma filter_all {A} (p : A -> bool) (l : list A) :
  Forall (fun x => p x = true) l -> filter p l = l.
Proof.
  induction 1 as [| x l Hx _ IH]; [reflexivity|].
  cbn [filter]. rewrite Hx, IH. reflexivity.
Qed.

Lemma kept_entry (data : list (list pyval)) i j line v :
  forallb (forallb kept_by_file) data = true ->
  nth_error data i = Some line -> nth_error line j = Some v ->
  kept_by_file v = true.
Proof.
  intros Hall Hi Hj. apply nth_error_In in Hi, Hj.
  rewrite forallb_forall in Hall. specialize (Hall line Hi).
  rewrite forallb_forall in Hall. apply Hall. exact Hj.
Qed.

Lemma plain_char_legal c : plain_char c = true -> illegal_character c = false.
Proof.
  unfold plain_char, illegal_character, is_upper, is_lower, is_digit.
  intros H.
  assert (Hn : (32 <= nat_of_ascii c)%nat).
  { repeat (apply orb_true_iff in H; destruct H as [H | H]).
    - apply andb_true_iff in H. destruct H as [H _]. apply Nat.leb_le in H. lia.
    - apply andb_true_iff in H. destruct H as [H _]. apply Nat.leb_le in H. lia.
    - apply andb_true_iff in H. destruct H as [H _]. apply Nat.leb_le in H. lia.
    - apply Ascii.eqb_eq in H. subst c. cbn. lia. }
  repeat (apply orb_false_iff; split).
  - apply Nat.leb_gt. lia.
  - apply Nat.eqb_neq. lia.
  - apply Nat.eqb_neq. lia.
  - apply andb_false_iff. right. apply Nat.leb_gt. lia.
Qed.

(** A value the file keeps is a value a cell takes as it is. *)
Lemma kept_is_storable v : kept_by_file v = true -> storable v = true.
Proof.
  destruct v as [| b | z | s | o]; try reflexivity. cbn [kept_by_file storable].
  intros H. repeat (apply andb_true_iff in H; destruct H as [H ?]).
  apply andb_true_iff. split; [|assumption].
  apply negb_true_iff.
  match goal with Hp : all_plain s = true |- _ => revert Hp end.
  clear. induction s as [| c s IH]; [reflexivity|].
  cbn [all_plain has_illegal_character]. intros H.
  apply andb_true_iff in H. destruct H as [Hc Hs].
  rewrite (IH Hs), (plain_char_legal c Hc). reflexivity.
Qed.

(** X12.  Write, then read: a rectangular matrix of values the file keeps
    (bools, integers of at most fifteen digits, strings of letters, digits
    and inner spaces), written at a start cell and saved, is what a plain
    read returns for the range from that start cell to the cell
    (start_row + rows - 1, start_col + columns - 1), from any workbook the
    saved file loads as. *)
Theorem written_matrix_reads_back
  (env : Env) (fp : string) (sheet_name : option string)
  (row : list pyval) (rows : list (list pyval)) (start end_ : string)
  (wb wb1 : workbook) (sn : string) (evs : list event) (ws : worksheet)
  (sr sc : Z) :
  load_formulas env fp = inr wb ->
  write_target wb sheet_name = (inr (wb1, sn), evs) ->
  titles_in_scope wb sheet_name = true ->
  find_sheet wb1 sn = Some ws ->
  write_coords start = inr (sr, sc) ->
  let data := row :: rows in
  let ws' := store_all ws (placements sr sc data) in
  let wb' := with_sheet wb1 ws' in
  save_result env fp wb' = None ->
  row <> [] ->
  Forall (fun line => List.length line = List.length row) rows ->
  forallb (forallb kept_by_file) data = true ->
  contains_colon start = false ->
  cell_coords "start" start = inr (sr, sc) ->
  end_ <> "" ->
  cell_coords "end" end_
  = inr (sr + Z.of_nat (List.length data) - 1,
         sc + Z.of_nat (List.length row) - 1) ->
  storable_matrix data = true /\
  (exists r t,
      run (write_data env fp sheet_name (Some data) start)
      = (inr r, after (t ++ [EvSave fp wb'; EvClose Primary]))) /\
  (forall env' loaded,
      load_formulas env' fp = inr loaded ->
      reloads wb' loaded ->
      exists st'',
        run (read_excel_range env' fp sn start (Some end_)) = (inr data, st'')).
Proof.
  intros Hload Htarget _ Hfind Hcoords data ws' wb' Hsave Hrow Hrect Hkept
         Hcolon Hstart Hend Hendc.
  split; [|split].
  - unfold storable_matrix. apply forallb_forall. intros line Hline.
    apply forallb_forall. intros v Hv. apply kept_is_storable.
    rewrite forallb_forall in Hkept. specialize (Hkept line Hline).
    rewrite forallb_forall in Hkept. apply Hkept. exact Hv.
  - pose proof (write_data_run env fp sheet_name row rows start wb wb1 sn evs ws sr sc
                  Hload Htarget Hfind Hcoords Hsave) as Hrun.
    eexists _, ([EvOpen Primary] ++ evs
                ++ map (set_cell_event sn) (placements sr sc (row :: rows)))%list.
    unfold data. rewrite Hrun. rewrite <- !app_assoc. reflexivity.
  - intros env' loaded Hload' [_ Hsheets].
    destruct (write_coords_positive _ _ _ Hcoords) as [Hsr Hsc].
    assert (Hfound : find_sheet wb' sn = Some ws').
    { apply (find_sheet_with_sheet wb1 sn ws ws' Hfind).
      unfold ws'. rewrite title_store_all.
      apply (find_sheet_title _ _ _ Hfind). }
    destruct (Hsheets sn ws' Hfound) as [wsl [Hfoundl Hsame]].
    assert (Hwidth : forall i line,
               nth_error data i = Some line ->
               List.length line = List.length row).
    { intros i line Hi. destruct i as [| i].
      - cbn in Hi. injection Hi as <-. reflexivity.
      - cbn [data nth_error] in Hi. apply nth_error_In in Hi.
        rewrite Forall_forall in Hrect. apply Hrect. exact Hi. }
    assert (Hcells : forall i j line v,
               nth_error data i = Some line -> nth_error line j = Some v ->
               value (cell_at wsl (sr + Z.of_nat i) (sc + Z.of_nat j)) = v).
    { intros i j line v Hi Hj.
      pose proof (kept_entry data i j line v Hkept Hi Hj) as Hv.
      assert (Hw : value (cell_at ws' (sr + Z.of_nat i) (sc + Z.of_nat j)) = v).
      { unfold ws'. apply store_all_in.
        - apply placements_NoDup.
        - apply (placements_nth sr sc data i j line v Hi Hj).
        - apply kept_by_file_value. exact Hv. }
      rewrite <- Hw. apply Hsame. rewrite Hw. exact Hv. }
    assert (Hfull : forall line, In line data -> Forall (fun v => v <> PyNone) line).
    { intros line Hline. apply Forall_forall. intros v Hv.
      apply kept_by_file_value.
      rewrite forallb_forall in Hkept. specialize (Hkept line Hline).
      rewrite forallb_forall in Hkept. apply Hkept. exact Hv. }
    assert (Hb : beyond_bounds wsl sr sc = false).
    { destruct row as [| v0 row0]; [contradiction|].
      assert (Hkey : In (sr, sc) (map fst (_cells wsl))).
      { apply valued_cell_key.
        pose proof (Hcells 0%nat 0%nat (v0 :: row0) v0 eq_refl eq_refl) as H0.
        cbn [Z.of_nat] in H0. rewrite !Z.add_0_r in H0. rewrite H0.
        apply kept_by_file_value.
        apply (kept_entry data 0 0 (v0 :: row0) v0 Hkept eq_refl eq_refl). }
      apply key_within_bounds in Hkey. destruct Hkey as [Hmr Hmc].
      unfold beyond_bounds. apply orb_false_iff.
      split; rewrite Z.gtb_ltb; apply Z.ltb_ge; lia. }
    destruct (read_plain_returns env' fp sn start (Some end_)
                loaded wsl start (Some end_) sr sc
                (sr + Z.of_nat (List.length data) - 1)
                (sc + Z.of_nat (List.length row) - 1)) as [st'' [Hrun _]].
    + exact Hload'.
    + exact Hfoundl.
    + apply split_refs_plain. exact Hcolon.
    + unfold plain_bounds. rewrite Hstart.
      assert (Ht : truthy (Some end_) = true).
      { destruct end_; [contradiction | reflexivity]. }
      rewrite Ht. cbn [the_string]. rewrite Hendc. reflexivity.
    + rewrite Hb. intros r c Hr Hc. lia.
    + exists st''. rewrite Hrun, Hb.
      rewrite (region_values_matrix wsl sr sc data (List.length row) Hwidth Hcells).
      do 2 f_equal. apply filter_all. apply Forall_forall. intros line Hin.
      apply has_value_full.
      * destruct (In_nth_error _ _ Hin) as [i Hi].
        pose proof (Hwidth i line Hi) as Hlen.
        intros ->. destruct row; [contradiction | discriminate].
      * apply Hfull. exact Hin.
Qed.

Lemma written_matrix_reads_back_witness :
  exists st'',
    run (read_excel_range ex_env_rewritten "book.xlsx" "Data" "A4" (Some "B5"))
    = (inr matrix_1234, st'').
Proof.
  destruct (written_matrix_reads_back ex_env "book.xlsx" (Some "Data")
              [PyInt 1; PyInt 2] [[PyInt 3; PyInt 4]] "A4" "B5"
              ex_book ex_book "Data" [] ex_data 4 1
              eq_refl eq_refl eq_refl eq_refl eq_refl eq_refl) as [_ [_ Hread]].
  - discriminate.
  - repeat constructor.
  - reflexivity.
  - reflexivity.
  - reflexivity.
  - discriminate.
  - reflexivity.
  - apply (Hread ex_env_rewritten ex_rewritten_book eq_refl).
    apply reloads_refl.
Defined.

(** ** An end before the start *)

Lemma bounds_with_end ws s' e' sr sc er ec :
  cell_coords "start" s' = inr (sr, sc) ->
  truthy e' = true ->
  cell_coords "end" (the_string e') = inr (er, ec) ->
  plain_bounds ws s' e' = inr (sr, sc, er, ec) /\
  meta_bounds ws s' e' = inr (sr, sc, er, ec).
Proof.
  intros Hs Ht He. unfold plain_bounds, meta_bounds.
  rewrite Hs, Ht, He. split; reflexivity.
Qed.

(** X13.  An end reference above or to the left of the start is no error:
    when the start lies within the sheet's bounds, the loops run over an
    empty range, the plain read returns no rows, the metadata read returns
    no records under the range string of the two references as given, and
    both close the workbook. *)
Theorem end_before_start_reads_nothing
  (env : Env) (fp sn start : string) (end_ : option string) (iv ef : bool)
  (wb : workbook) (ws : worksheet) (s' : string) (e' : option string)
  (sr sc er ec : Z) :
  load_formulas env fp = inr wb ->
  find_sheet wb sn = Some ws ->
  split_refs start end_ = inr (s', e') ->
  cell_coords "start" s' = inr (sr, sc) ->
  truthy e' = true ->
  cell_coords "end" (the_string e') = inr (er, ec) ->
  beyond_bounds ws sr sc = false ->
  er < sr \/ ec < sc ->
  (exists st',
      run (read_excel_range env fp sn start end_) = (inr [], st') /\
      left_open Primary (trace st') = false) /\
  (1 <= sc <= 18278 -> 1 <= ec <= 18278 ->
   exists st',
     run (read_excel_range_with_metadata env fp sn start end_ iv ef)
     = (inr (mkRangeData (range_string sr sc er ec) sn []), st') /\
     all_closed st').
Proof.
  intros Hload Hfind Hsplit Hs Ht He Hb Hrev.
  destruct (bounds_with_end ws s' e' sr sc er ec Hs Ht He) as [Hplain Hmeta].
  split.
  - destruct (read_plain_returns env fp sn start end_ wb ws s' e' sr sc er ec
                Hload Hfind Hsplit Hplain) as [st' [Hrun _]].
    { rewrite Hb. intros r c Hr Hc. lia. }
    exists st'. rewrite Hb, (region_values_empty ws sr sc er ec Hrev) in Hrun.
    split; [exact Hrun|].
    destruct (read_plain_inr _ _ _ _ _ _ _ Hrun)
      as [wb' [ws' [s'' [e'' [sr' [sc' [er' [ec' H]]]]]]]].
    destruct H as [Hload' [Hfind' [Hsplit' [Hbounds' Hcases]]]].
    rewrite Hload in Hload'. injection Hload' as <-.
    rewrite Hfind in Hfind'. injection Hfind' as <-.
    rewrite Hsplit in Hsplit'. injection Hsplit' as <- <-.
    rewrite Hplain in Hbounds'. injection Hbounds' as <- <- <- <-.
    destruct Hcases as [[Hb' _] | [_ [_ Hclosed]]]; [congruence | exact Hclosed].
  - intros Hsc Hec.
    destruct (read_meta_returns env fp sn start end_ iv ef wb ws s' e' sr sc er ec
                Hload Hfind Hsplit Hmeta) as [res [st' Hrun]].
    { rewrite Hb. split; [exact Hsc|]. split; [exact Hec|].
      intros r c Hr Hc. lia. }
    exists st'.
    destruct (read_meta_inr_at _ _ _ _ _ _ _ _ _ _ _ _ _ _ _ _ _
                Hrun Hload Hfind Hsplit Hmeta)
      as [[Hb' _] | [_ [Hres [_ Hclosed]]]]; [congruence|].
    rewrite (region_records_empty env fp ws sn iv ef sr sc er ec Hrev) in Hres.
    subst res. split; [exact Hrun | exact Hclosed].
Qed.

Lemma end_before_start_reads_nothing_witness :
  exists st',
    run (read_excel_range_with_metadata ex_env "book.xlsx" "Data" "B3" (Some "A1")
           true true)
    = (inr (mkRangeData "B3:A1" "Data" []), st').
Proof.
  destruct (end_before_start_reads_nothing ex_env "book.xlsx" "Data" "B3" (Some "A1")
              true true ex_book ex_data "B3" (Some "A1") 3 2 1 1
              eq_refl eq_refl eq_refl eq_refl eq_refl eq_refl eq_refl)
    as [_ Hmeta].
  - left. lia.
  - destruct Hmeta as [st' [Hrun _]]; [lia | lia |].
    exists st'. exact Hrun.
Defined.

(** ** The log of a failure *)

Lemma operation_boundary_logs {A} (failed_to : string) (m : M A) st e st' :
  operation_boundary failed_to m st = (inl e, st') ->
  exists e0 st0,
    m st = (inl e0, st0) /\ e = DataError (str_exn e0) /\
    st' = logged st0 (EvLog LError
                        (if is_DataError e0 then str_exn e0
                         else failed_to ++ str_exn e0)).
Proof.
  unfold operation_boundary, try_except. intros H.
  destruct (m st) as [[e0 | a] st0]; [|discriminate].
  exists e0, st0. split; [reflexivity|].
  destruct e0; unfold bind, logger, emit, raise in H; cbn [str_exn is_DataError];
    injection H as <- <-; split; reflexivity.
Qed.

(** X14.  Every failure of an operation is logged as its last act.  When
    one of the three operations raises, its body raised an exception, the
    operation raises the DataError with the text of that exception, and
    the trace is the trace of the body followed by one log at level error:
    the text of the exception itself when it is a DataError, and else that
    text after the operation's own "Failed to ...: ". *)
Theorem failure_is_logged_last
  (env : Env) (fp sn start : string) (end_ : option string) (iv ef : bool)
  (sheet_name : option string) (data : option (list (list pyval))) :
  logged_last "Failed to read Excel range: "
    (read_excel_range_try env fp sn start end_)
    (read_excel_range env fp sn start end_) /\
  logged_last "Failed to read Excel range with metadata: "
    (read_excel_range_with_metadata_try env fp sn start end_ iv ef)
    (read_excel_range_with_metadata env fp sn start end_ iv ef) /\
  logged_last "Failed to write data: "
    (write_data_try env fp sheet_name data start)
    (write_data env fp sheet_name data start).
Proof.
  assert (Hgen : forall A (prefix : string) (m : M A),
             logged_last prefix m (operation_boundary prefix m)).
  { intros A prefix m st e st' Hrun.
    destruct (operation_boundary_logs _ _ _ _ _ Hrun) as [e0 [st0 [Hm [-> ->]]]].
    exists e0, st0. repeat split; try assumption. }
  split; [|split]; apply Hgen.
Qed.

(** ** The two reads side by side *)

Lemma region_records_stored_values env fp ws sn iv sr sc er ec :
  map cd_value (region_records env fp ws sn iv false sr sc er ec)
  = List.concat (region_values ws sr sc er ec).
Proof.
  unfold region_records, region_values, row_values.
  induction (py_range sr (er + 1)) as [| r rows IH]; [reflexivity|].
  cbn [flat_map map List.concat]. rewrite map_app, IH. f_equal.
  rewrite map_map. reflexivity.
Qed.

Lemma length_row_values ws r sc ec :
  List.length (row_values ws r sc ec) = Z.to_nat (ec + 1 - sc).
Proof. unfold row_values. rewrite length_map. apply length_py_range. Qed.

(** X17.  The plain read is the metadata read without the metadata: for a
    request with an end reference, read both ways from within the sheet's
    bounds, the values of the records (formulas not evaluated), cut into
    rows of the width of the region, are the rows of the plain read once
    the rows without a value are dropped. *)
Theorem plain_read_is_metadata_values
  (env : Env) (fp sn start : string) (end_ : option string) (iv : bool)
  (wb : workbook) (ws : worksheet) (s' : string) (e' : option string)
  (sr sc er ec : Z) (rows : list (list pyval)) (res : range_data) (st1 st2 : St) :
  load_formulas env fp = inr wb ->
  find_sheet wb sn = Some ws ->
  split_refs start end_ = inr (s', e') ->
  cell_coords "start" s' = inr (sr, sc) ->
  truthy e' = true ->
  cell_coords "end" (the_string e') = inr (er, ec) ->
  beyond_bounds ws sr sc = false ->
  run (read_excel_range env fp sn start end_) = (inr rows, st1) ->
  run (read_excel_range_with_metadata env fp sn start end_ iv false)
  = (inr res, st2) ->
  exists grid,
    map cd_value (cells res) = List.concat grid /\
    Forall (fun line => List.length line = Z.to_nat (ec + 1 - sc)) grid /\
    List.length grid = Z.to_nat (er + 1 - sr) /\
    rows = filter has_value grid.
Proof.
  intros Hload Hfind Hsplit Hs Ht He Hb Hplain Hmeta.
  destruct (bounds_with_end ws s' e' sr sc er ec Hs Ht He) as [Hpb Hmb].
  exists (region_values ws sr sc er ec).
  destruct (read_meta_inr_at _ _ _ _ _ _ _ _ _ _ _ _ _ _ _ _ _
              Hmeta Hload Hfind Hsplit Hmb)
    as [[Hb' _] | [_ [Hres _]]]; [congruence|].
  destruct (read_plain_inr _ _ _ _ _ _ _ Hplain)
    as [wb' [ws' [s'' [e'' [sr' [sc' [er' [ec' H]]]]]]]].
  destruct H as [Hload' [Hfind' [Hsplit' [Hbounds' Hcases]]]].
  rewrite Hload in Hload'. injection Hload' as <-.
  rewrite Hfind in Hfind'. injection Hfind' as <-.
  rewrite Hsplit in Hsplit'. injection Hsplit' as <- <-.
  rewrite Hpb in Hbounds'. injection Hbounds' as <- <- <- <-.
  destruct Hcases as [[Hb' _] | [_ [Hrows _]]]; [congruence|].
  repeat match goal with |- _ /\ _ => split end.
  - subst res. cbn [cells]. apply region_records_stored_values.
  - unfold region_values. apply Forall_forall. intros line Hin.
    apply in_map_iff in Hin. destruct Hin as [r [<- _]].
    apply length_row_values.
  - unfold region_values. rewrite length_map. apply length_py_range.
  - exact Hrows.
Qed.

Lemma plain_read_is_metadata_values_witness :
  exists grid,
    map cd_value (cells (result_of (mkRangeData "" "" []) ex_meta_read_A1_B4))
    = List.concat grid /\
    Forall (fun line => List.length line = 2%nat) grid /\
    List.length grid = 4%nat /\
    result_of [] ex_plain_read = filter has_value grid.
Proof.
  apply (plain_read_is_metadata_values ex_env "book.xlsx" "Data" "A1" (Some "B4")
           true ex_book ex_data "A1" (Some "B4") 1 1 4 2
           (result_of [] ex_plain_read)
           (result_of (mkRangeData "" "" []) ex_meta_read_A1_B4)
           (snd ex_plain_read) (snd ex_meta_read_A1_B4));
    vm_compute; reflexivity.
Defined.

(** ** An evaluator that cannot be built *)

Lemma region_records_without_xlcalculator env fp ws sn iv ef sr sc er ec :
  evaluator_of env fp = None ->
  region_records (without_xlcalculator env) fp ws sn iv ef sr sc er ec
  = region_records env fp ws sn iv ef sr sc er ec.
Proof.
  intros Hev. unfold region_records, record_of, fe_of.
  assert (Hev' : evaluator_of (without_xlcalculator env) fp = None) by reflexivity.
  rewrite Hev, Hev'. reflexivity.
Qed.

Lemma read_meta_same_result env1 env2 fp sn start end_ iv ef res st1 :
  load_formulas env2 fp = load_formulas env1 fp ->
  (forall ws sr sc er ec,
      region_records env2 fp ws sn iv ef sr sc er ec
      = region_records env1 fp ws sn iv ef sr sc er ec) ->
  (forall ws sr sc er ec,
      region_ok env1 ws iv sr sc er ec -> region_ok env2 ws iv sr sc er ec) ->
  run (read_excel_range_with_metadata env1 fp sn start end_ iv ef) = (inr res, st1) ->
  exists st2,
    run (read_excel_range_with_metadata env2 fp sn start end_ iv ef) = (inr res, st2).
Proof.
  intros Hload Hrecords Hok Hrun.
  destruct (read_meta_inr _ _ _ _ _ _ _ _ _ Hrun)
    as [wb [ws [s' [e' [sr [sc [er [ec H]]]]]]]].
  destruct H as [Hload1 [Hfind [Hsplit [Hbounds Hcases]]]].
  assert (Hload2 : load_formulas env2 fp = inr wb) by (rewrite Hload; exact Hload1).
  destruct (read_meta_returns env2 fp sn start end_ iv ef wb ws s' e' sr sc er ec
              Hload2 Hfind Hsplit Hbounds) as [res2 [st2 Hrun2]].
  { destruct Hcases as [[Hb [_ [Hcols _]]] | [Hb [_ [[Hsc [Hec Hregion]] _]]]];
      rewrite Hb; [exact Hcols|].
    split; [exact Hsc|]. split; [exact Hec|]. apply Hok. exact Hregion. }
  exists st2. rewrite Hrun2. do 2 f_equal.
  destruct (read_meta_inr_at _ _ _ _ _ _ _ _ _ _ _ _ _ _ _ _ _
              Hrun2 Hload2 Hfind Hsplit Hbounds) as [[Hb2 [Hres2 _]] | [Hb2 [Hres2 _]]];
    destruct Hcases as [[Hb [Hres _]] | [Hb [Hres _]]];
    first [ rewrite Hres2, Hres, Hrecords; reflexivity | congruence ].
Qed.

(** X15.  A formula evaluator that cannot be built does not fail the read:
    where xlcalculator is installed and the compilation of the workbook
    raises, [_build_formula_evaluator] logs a warning and returns None, and
    a metadata read returns what it returns in a world without
    xlcalculator, and returns whenever that one does. *)
Theorem unbuilt_evaluator_is_no_evaluator
  (env : Env) (fp sn start : string) (end_ : option string) (iv ef : bool)
  (compile : string -> exn + evaluator) (exc : exn) :
  xlcalculator env = Some compile ->
  compile fp = inl exc ->
  (forall st,
      _build_formula_evaluator env fp st
      = (inr None,
         logged st (EvLog LWarning
                      ("Failed to initialize xlcalculator evaluator for '" ++ fp
                       ++ "': " ++ str_exn exc)))) /\
  (forall res,
      (exists st',
          run (read_excel_range_with_metadata env fp sn start end_ iv ef)
          = (inr res, st')) <->
      (exists st',
          run (read_excel_range_with_metadata (without_xlcalculator env) fp sn start
                 end_ iv ef) = (inr res, st'))).
Proof.
  intros Hx Hc.
  assert (Hev : evaluator_of env fp = None).
  { unfold evaluator_of. rewrite Hx, Hc. reflexivity. }
  split.
  - intros st. unfold _build_formula_evaluator. rewrite Hx, Hc. reflexivity.
  - intros res. split; intros [st' Hrun].
    + apply (read_meta_same_result env (without_xlcalculator env) fp sn start end_
               iv ef res st'); [reflexivity | | | exact Hrun].
      * intros. apply region_records_without_xlcalculator. exact Hev.
      * intros ws sr sc er ec H. exact H.
    + apply (read_meta_same_result (without_xlcalculator env) env fp sn start end_
               iv ef res st'); [reflexivity | | | exact Hrun].
      * intros. symmetry. apply region_records_without_xlcalculator. exact Hev.
      * intros ws sr sc er ec H. exact H.
Qed.

Lemma unbuilt_evaluator_is_no_evaluator_witness :
  exists st',
    run (read_excel_range_with_metadata ex_env_unbuilt "book.xlsx" "Data" "A1" None
           false true)
    = (inr ex_meta_result_no_evaluator, st').
Proof.
  destruct (unbuilt_evaluator_is_no_evaluator ex_env_unbuilt "book.xlsx" "Data" "A1"
              None false true (fun _ => inl (OtherError "cannot parse the archive"))
              (OtherError "cannot parse the archive") eq_refl eq_refl)
    as [_ Hsame].
  apply (Hsame ex_meta_result_no_evaluator).
  exists (snd ex_meta_read_no_evaluator). vm_compute. reflexivity.
Defined.

(** ** What the fallback loader returns *)

Lemma loader_settled env fp sn r c st out st' :
  request_inv env fp sn st ->
  open_attempts ValuesOnly (trace st) = 1%nat ->
  _get_cached_value env fp sn r c st = (out, st') ->
  st' = st.
Proof.
  intros [_ Hl] Hatt Hrun.
  destruct (phase st) eqn:Hphase.
  - exfalso. unfold phase in Hphase. unfold loader_inv in Hl.
    destruct (fallback_loader_failed st); [discriminate|].
    destruct (wb_values st); [discriminate|].
    destruct Hl as [_ [Ho [Hf _]]]. unfold open_attempts in Hatt. lia.
  - apply (loader_opened_stays env fp sn r c st out st' Hphase Hrun).
  - rewrite (loader_failed_returns_none env fp sn r c st Hphase) in Hrun.
    injection Hrun as _ <-. reflexivity.
Qed.

Lemma call_loader_settled env fp sn calls :
  forall acc st,
    request_inv env fp sn st ->
    open_attempts ValuesOnly (trace st) = 1%nat ->
    Forall (fun rc => 1 <= fst rc /\ 1 <= snd rc) calls ->
    for_each calls acc
      (fun results rc =>
         v <- _get_cached_value env fp sn (fst rc) (snd rc) ;;
         ret (results ++ [v])%list) st
    = (inr (acc ++ map (fun rc => cached_value env fp sn (fst rc) (snd rc)) calls)%list,
       st).
Proof.
  induction calls as [| rc calls IH]; intros acc st Hinv Hatt Hpos.
  - cbn. rewrite app_nil_r. reflexivity.
  - inversion Hpos as [| x l [Hr Hc] Hrest]. subst.
    cbn [for_each]. unfold bind at 1. unfold bind at 1.
    pose proof (get_cached_value_spec env fp sn (fst rc) (snd rc) st Hinv) as Hspec.
    destruct (_get_cached_value env fp sn (fst rc) (snd rc) st) as [[e | v] st1]
      eqn:Hrun.
    + destruct Hspec as [_ Hbad]. exfalso. apply Hbad. split; assumption.
    + destruct Hspec as [_ Hv].
      pose proof (loader_settled _ _ _ _ _ _ _ _ Hinv Hatt Hrun) as ->.
      cbn [ret]. rewrite (IH _ st Hinv Hatt Hrest).
      rewrite (Hv Hr Hc). cbn [map]. rewrite <- app_assoc. reflexivity.
Qed.

(** X16.  The fallback loader reads the data-only view of the file: called
    for a sequence of cells after the primary workbook was loaded, it
    returns for each one the value the data-only workbook holds there (None
    where that workbook does not open or lacks the sheet), and however many
    cells it is called for, it tries to open the data-only workbook
    once. *)
Theorem loader_reads_data_only_view_once
  (env : Env) (fp sn : string) (rc : Z * Z) (calls : list (Z * Z)) :
  Forall (fun rc => 1 <= fst rc /\ 1 <= snd rc) (rc :: calls) ->
  exists st',
    call_loader env fp sn (rc :: calls) (after [EvOpen Primary])
    = (inr (map (fun rc => cached_value env fp sn (fst rc) (snd rc)) (rc :: calls)),
       st') /\
    open_attempts ValuesOnly (trace st') = 1%nat.
Proof.
  intros Hpos. inversion Hpos as [| x l [Hr Hc] Hrest]. subst.
  pose proof (opened_request_inv env fp sn) as Hinv0.
  change (mkSt [EvOpen Primary] None None false) with (after [EvOpen Primary]) in Hinv0.
  unfold call_loader. cbn [for_each]. unfold bind at 1. unfold bind at 1.
  pose proof (get_cached_value_spec env fp sn (fst rc) (snd rc) _ Hinv0) as Hspec.
  destruct (_get_cached_value env fp sn (fst rc) (snd rc) (after [EvOpen Primary]))
    as [[e | v] st1] eqn:Hrun.
  { destruct Hspec as [_ Hbad]. exfalso. apply Hbad. split; assumption. }
  destruct Hspec as [Hinv1 Hv].
  assert (Hatt : open_attempts ValuesOnly (trace st1) = 1%nat).
  { assert (H0 : phase (after [EvOpen Primary]) = Unopened) by reflexivity.
    pose proof (loader_first_call env fp sn (fst rc) (snd rc) _ _ _ H0 Hrun)
      as Hfirst.
    assert (Hphase : phase st1 = Failed \/ phase st1 = Opened).
    { destruct (load_data_only env fp) as [e | wbv]; [left; tauto|].
      destruct (find_sheet wbv sn); [right; assumption | left; tauto]. }
    destruct Hinv1 as [_ Hl]. unfold loader_inv in Hl. unfold phase in Hphase.
    destruct (fallback_loader_failed st1).
    - destruct (wb_values st1); [contradiction|]. tauto.
    - destruct (wb_values st1).
      + destruct Hl as [_ [_ [Ho [Hf _]]]]. unfold open_attempts. lia.
      + destruct Hphase; discriminate. }
  cbn [ret].
  rewrite (call_loader_settled env fp sn calls _ st1 Hinv1 Hatt Hrest).
  exists st1. split; [|exact Hatt].
  rewrite (Hv Hr Hc). reflexivity.
Qed.

Lemma loader_reads_data_only_view_once_witness :
  exists st',
    call_loader ex_env "book.xlsx" "Data" [(3, 1); (3, 2); (1, 1)]
      (after [EvOpen Primary])
    = (inr [PyInt 5; PyNone; PyInt 2], st') /\
    open_attempts ValuesOnly (trace st') = 1%nat.
Proof.
  apply (loader_reads_data_only_view_once ex_env "book.xlsx" "Data" (3, 1)
           [(3, 2); (1, 1)]).
  repeat constructor; cbn; lia.
Defined.

(** ** The tokens the evaluator is asked *)

(** X18.  The evaluator is asked about two tokens and no other: with two
    evaluators that agree on sheet!address and on 'sheet'!address (the
    apostrophes of the sheet name doubled), [_evaluate_formula_cell] does
    the same.  The quoted token is asked only after the first gave None or
    a KeyError: evaluators that agree on the first token alone do the same
    when that token gives a value that is not None, or raises anything but
    KeyError. *)
Theorem evaluator_asked_two_tokens
  (ev1 ev2 : evaluator) (sheet_name cell_address : string) (row column : Z)
  (fallback_loader : option (Z -> Z -> M pyval)) (default_value : pyval) (st : St) :
  let first := sheet_name ++ "!" ++ cell_address in
  let quoted := "'" ++ double_quotes sheet_name ++ "'!" ++ cell_address in
  ev1 first = ev2 first ->
  (ev1 quoted = ev2 quoted \/
   (exists v, ev1 first = inr v /\ v <> PyNone) \/
   (exists e, ev1 first = inl e /\ is_KeyError e = false)) ->
  _evaluate_formula_cell (Some ev1) sheet_name cell_address row column
    fallback_loader default_value st
  = _evaluate_formula_cell (Some ev2) sheet_name cell_address row column
      fallback_loader default_value st.
Proof.
  intros first quoted Hfirst Hrest.
  assert (Hloop :
    evaluate_tokens ev1 sheet_name cell_address
      (formula_tokens sheet_name cell_address) st
    = evaluate_tokens ev2 sheet_name cell_address
        (formula_tokens sheet_name cell_address) st).
  { unfold formula_tokens. cbn [evaluate_tokens].
    fold first quoted. rewrite <- Hfirst.
    destruct Hrest as [Hquoted | [[v [Hv Hnn]] | [e [He Hk]]]].
    - rewrite <- Hquoted. reflexivity.
    - rewrite Hv. destruct v; try reflexivity. contradiction.
    - rewrite He, Hk. reflexivity. }
  unfold _evaluate_formula_cell. unfold bind at 1. unfold bind at 2.
  rewrite Hloop. reflexivity.
Qed.

Lemma evaluator_asked_two_tokens_witness :
  _evaluate_formula_cell (Some ex_evaluate) "Data" "B3" 3 2 None PyNone init_st
  = _evaluate_formula_cell
      (Some (fun token => if String.eqb token "Data!B3" then inr (PyInt 4)
                          else inl (OtherError "not to be asked")))
      "Data" "B3" 3 2 None PyNone init_st.
Proof.
  apply (evaluator_asked_two_tokens ex_evaluate
           (fun token => if String.eqb token "Data!B3" then inr (PyInt 4)
                         else inl (OtherError "not to be asked"))
           "Data" "B3" 3 2 None PyNone init_st).
  - reflexivity.
  - right. left. exists (PyInt 4). split; [reflexivity | discriminate].
Defined.

(** ** A read writes nothing *)

Lemma kw_ret {A} (a : A) : keeps_writes (ret a).
Proof. intros st. reflexivity. Qed.

Lemma kw_raise {A} (e : exn) : keeps_writes (@raise A e).
Proof. intros st. reflexivity. Qed.

Lemma kw_lift {A} (r : exn + A) : keeps_writes (lift r).
Proof. intros st. reflexivity. Qed.

Lemma kw_get_st : keeps_writes get_st.
Proof. intros st. reflexivity. Qed.

Lemma kw_set_wb_values w : keeps_writes (set_wb_values w).
Proof. intros st. reflexivity. Qed.

Lemma kw_set_ws_values w : keeps_writes (set_ws_values w).
Proof. intros st. reflexivity. Qed.

Lemma kw_set_fallback_loader_failed b : keeps_writes (set_fallback_loader_failed b).
Proof. intros st. reflexivity. Qed.

Lemma kw_emit ev : is_write ev = false -> keeps_writes (emit ev).
Proof.
  intros H st. unfold emit, writes. cbn [snd trace].
  rewrite count_snoc, H. lia.
Qed.

Lemma kw_bind {A B} (m : M A) (f : A -> M B) :
  keeps_writes m -> (forall a, keeps_writes (f a)) -> keeps_writes (bind m f).
Proof.
  intros Hm Hf st. unfold bind. specialize (Hm st).
  destruct (m st) as [[e | a] st1]; cbn [snd] in *.
  - exact Hm.
  - rewrite (Hf a st1). exact Hm.
Qed.

Lemma kw_bind_post {A B} (P : A -> Prop) (m : M A) (f : A -> M B) :
  (forall st a st', m st = (inr a, st') -> P a) ->
  keeps_writes m -> (forall a, P a -> keeps_writes (f a)) ->
  keeps_writes (bind m f).
Proof.
  intros HP Hm Hf st. unfold bind. specialize (Hm st). specialize (HP st).
  destruct (m st) as [[e | a] st1]; cbn [snd] in *.
  - exact Hm.
  - rewrite (Hf a (HP a st1 eq_refl) st1). exact Hm.
Qed.

Lemma kw_try_except {A} (m : M A) (h : exn -> M A) :
  keeps_writes m -> (forall e, keeps_writes (h e)) -> keeps_writes (try_except m h).
Proof.
  intros Hm Hh st. unfold try_except. specialize (Hm st).
  destruct (m st) as [[e | a] st1]; cbn [snd] in *.
  - rewrite (Hh e st1). exact Hm.
  - exact Hm.
Qed.

Lemma kw_for_each {A B} (body : B -> A -> M B) :
  (forall acc x, keeps_writes (body acc x)) ->
  forall l acc, keeps_writes (for_each l acc body).
Proof.
  intros Hbody. induction l as [| x l IH]; intros acc.
  - apply kw_ret.
  - cbn [for_each]. apply kw_bind; [apply Hbody | intros a; apply IH].
Qed.

Lemma kw_logger lvl msg : keeps_writes (logger lvl msg).
Proof. apply kw_emit. reflexivity. Qed.

Lemma kw_close h : keeps_writes (close h).
Proof. apply kw_emit. reflexivity. Qed.

(** One step of the proof that a computation makes none of the calls:
    through the monad, and by cases where the code branches. *)
Ltac kw_step :=
  first
    [ apply kw_ret | apply kw_raise | apply kw_lift | apply kw_get_st
    | apply kw_set_wb_values | apply kw_set_ws_values
    | apply kw_set_fallback_loader_failed
    | apply kw_logger | apply kw_close
    | apply kw_emit; reflexivity
    | apply kw_bind; [| intros ?]
    | apply kw_try_except; [| intros ?]
    | apply kw_for_each; intros ? ?
    | match goal with
      | |- keeps_writes (match ?x with _ => _ end) => destruct x
      | |- keeps_writes (if ?b then _ else _) => destruct b
      end ].

Ltac kw := repeat kw_step.

Lemma kw_load_workbook env path h : keeps_writes (load_workbook env path h).
Proof. unfold load_workbook. kw. Qed.

Lemma kw_wb_getitem wb name : keeps_writes (wb_getitem wb name).
Proof. unfold wb_getitem. kw. Qed.

Lemma kw_ws_cell ws r c : keeps_writes (ws_cell ws r c).
Proof. unfold ws_cell. kw. Qed.

Lemma kw_operation_boundary {A} (failed_to : string) (m : M A) :
  keeps_writes m -> keeps_writes (operation_boundary failed_to m).
Proof. intros Hm. unfold operation_boundary. kw. exact Hm. Qed.

Lemma kw_boundary_warning s ws : keeps_writes (boundary_warning s ws).
Proof. unfold boundary_warning. kw. Qed.

Lemma kw_build_formula_evaluator env fp :
  keeps_writes (_build_formula_evaluator env fp).
Proof. unfold _build_formula_evaluator. kw. Qed.

Lemma kw_get_cached_value env fp sn r c :
  keeps_writes (_get_cached_value env fp sn r c).
Proof.
  unfold _get_cached_value. kw;
    first [ apply kw_load_workbook | apply kw_wb_getitem | apply kw_ws_cell ].
Qed.

Lemma kw_evaluate_tokens ev sheet addr tokens :
  keeps_writes (evaluate_tokens ev sheet addr tokens).
Proof.
  induction tokens as [| token rest IH]; cbn [evaluate_tokens]; kw; exact IH.
Qed.

Lemma kw_evaluate_formula_cell fe sn addr r c loader dflt :
  (forall l, loader = Some l -> forall r c, keeps_writes (l r c)) ->
  keeps_writes (_evaluate_formula_cell fe sn addr r c loader dflt).
Proof.
  intros Hloader. unfold _evaluate_formula_cell.
  apply kw_bind.
  - destruct fe; [apply kw_evaluate_tokens | apply kw_ret].
  - intros computed. destruct computed; [apply kw_ret|].
    apply kw_bind.
    + destruct loader as [l |]; [|apply kw_ret].
      kw. apply (Hloader l eq_refl).
    + intros cached. kw.
Qed.

Lemma kw_cell_record env ws sn iv ef fe loader r c :
  (forall l, loader = Some l -> forall r c, keeps_writes (l r c)) ->
  keeps_writes (cell_record env ws sn iv ef fe loader r c).
Proof.
  intros Hloader. unfold cell_record.
  apply kw_bind; [apply kw_ws_cell | intros cell].
  apply kw_bind; [apply kw_lift | intros letter].
  apply kw_bind.
  - unfold cell_value.
    destruct (if ef then formula_text_of cell else None).
    + apply kw_evaluate_formula_cell. exact Hloader.
    + destruct ef; [|apply kw_ret]. destruct fe; [apply kw_ret|].
      destruct loader as [l |]; [|apply kw_ret].
      kw. apply (Hloader l eq_refl).
  - intros v. apply kw_bind; [|intros validation; apply kw_ret].
    unfold cell_validation. kw.
Qed.

Lemma kw_meta_region env ws sn iv ef fe loader s sr sc er ec :
  (forall l, loader = Some l -> forall r c, keeps_writes (l r c)) ->
  keeps_writes (meta_region env ws sn iv ef fe loader s sr sc er ec).
Proof.
  intros Hloader. unfold meta_region.
  destruct (beyond_bounds ws sr sc).
  - apply kw_bind; [apply kw_boundary_warning | intros u; apply kw_ret].
  - apply kw_bind; [apply kw_lift | intros lo].
    apply kw_bind; [apply kw_lift | intros hi].
    apply kw_bind.
    + unfold meta_cells. apply kw_for_each. intros acc row.
      apply kw_for_each. intros acc' col.
      apply kw_bind; [|intros rec; apply kw_ret].
      apply kw_cell_record. exact Hloader.
    + intros cells. kw.
Qed.

Lemma kw_resolve_path env fp : keeps_writes (resolve_path env fp).
Proof.
  unfold resolve_path.
  destruct (load_formulas env fp); [destruct (resolve_error env fp)|];
    first [apply kw_raise | apply kw_ret].
Qed.

Lemma kw_read_meta env fp sn start end_ iv ef :
  keeps_writes (read_excel_range_with_metadata env fp sn start end_ iv ef).
Proof.
  unfold read_excel_range_with_metadata. apply kw_operation_boundary.
  unfold read_excel_range_with_metadata_try.
  apply kw_bind; [apply kw_resolve_path | intros file_path].
  apply kw_bind; [apply kw_load_workbook | intros wb].
  apply kw_bind; [apply kw_set_wb_values | intros _].
  apply kw_bind; [apply kw_set_ws_values | intros _].
  apply kw_bind; [apply kw_set_fallback_loader_failed | intros _].
  assert (Hsetup : forall fl : option evaluator * option (Z -> Z -> M pyval),
            (forall l, snd fl = Some l -> forall r c, keeps_writes (l r c)) ->
            keeps_writes
              (let (formula_evaluator, fallback_loader) := fl in
               if negb (in_names sn (sheetnames wb))
               then raise (DataError ("Sheet '" ++ sn ++ "' not found"))
               else
                 ws <- wb_getitem wb sn ;;
                 '(start_cell, end_cell) <- lift (split_refs start end_) ;;
                 '(start_row, start_col, end_row, end_col) <-
                   lift (meta_bounds ws start_cell end_cell) ;;
                 meta_region env ws sn iv ef formula_evaluator fallback_loader
                   start_cell start_row start_col end_row end_col)).
  { intros [fe loader] Hloader. cbn [snd] in Hloader.
    destruct (negb (in_names sn (sheetnames wb))); [apply kw_raise|].
    apply kw_bind; [apply kw_wb_getitem | intros ws].
    apply kw_bind; [apply kw_lift | intros [s' e']].
    apply kw_bind; [apply kw_lift | intros [[[sr sc] er] ec]].
    apply kw_meta_region. exact Hloader. }
  apply (kw_bind_post
           (fun fl : option evaluator * option (Z -> Z -> M pyval) =>
              forall l, snd fl = Some l -> forall r c, keeps_writes (l r c))).
  - intros st fl st' Hrun l Hl r c. destruct ef.
    + unfold bind in Hrun.
      destruct (_build_formula_evaluator env file_path st) as [[e | fe] st1];
        [discriminate|].
      cbn [ret] in Hrun. injection Hrun as <- _. cbn [snd] in Hl.
      injection Hl as <-. apply kw_get_cached_value.
    + cbn [ret] in Hrun. injection Hrun as <- _. discriminate.
  - destruct ef; [|apply kw_ret].
    apply kw_bind; [apply kw_build_formula_evaluator | intros fe; apply kw_ret].
  - intros fl Hfl. apply (Hsetup fl Hfl).
Qed.

Lemma kw_read_plain env fp sn start end_ :
  keeps_writes (read_excel_range env fp sn start end_).
Proof.
  unfold read_excel_range. apply kw_operation_boundary.
  unfold read_excel_range_try.
  apply kw_bind; [apply kw_load_workbook | intros wb].
  destruct (negb (in_names sn (sheetnames wb))); [apply kw_raise|].
  apply kw_bind; [apply kw_wb_getitem | intros ws].
  apply kw_bind; [apply kw_lift | intros [s' e']].
  apply kw_bind; [apply kw_lift | intros [[[sr sc] er] ec]].
  unfold plain_region. destruct (beyond_bounds ws sr sc).
  - apply kw_bind; [apply kw_boundary_warning | intros u; apply kw_ret].
  - apply kw_bind; [|intros data; kw].
    unfold plain_rows. apply kw_for_each. intros acc row.
    apply kw_bind; [|intros row_data; apply kw_ret].
    apply kw_for_each. intros acc' col.
    apply kw_bind; [apply kw_ws_cell | intros cell; apply kw_ret].
Qed.

(** X19.  A read writes nothing: whatever the workbook, the arguments and
    the outcome, neither read creates a sheet, sets a cell or saves the
    file, with or without formula evaluation. *)
Theorem reads_write_nothing
  (env : Env) (fp sn start : string) (end_ : option string) (iv ef : bool) :
  writes (trace (snd (run (read_excel_range env fp sn start end_)))) = 0%nat /\
  writes (trace (snd (run (read_excel_range_with_metadata env fp sn start end_
                             iv ef)))) = 0%nat.
Proof.
  split.
  - apply (kw_read_plain env fp sn start end_ init_st).
  - apply (kw_read_meta env fp sn start end_ iv ef init_st).
Qed.
